(** * PDB pickle <-> PostgreSQL pipeline: a shallow embedding

    The development follows the three scripts of the repository:

    - [01_pdb_pkltopsql_pipeline_v02.py]: [infer_pg_type], [make_json_safe],
      [insert_proteins_with_pdbs], [export_table_to_pkl], [hash_protein],
      [proof_compare_pkl];
    - [02_pdb_checker_compare_two_pkl_files_v01.py]: [index_by_key],
      [compare_proteins], [compare_pkl_files], [hash_protein],
      [proof_compare_pkl];
    - [03_pdb_filter_geneid_transcriptid_v01.py]: [rows_to_pkl].

    Python values are an inductive type, exceptions are an error monad, the
    PostgreSQL table is an explicit state (a list of stored rows) threaded
    through the insert loop.  Library code the scripts call ([hashlib],
    [base64], [json], [pickle], the database driver) is modelled in modules
    of its own, before the scripts. *)

From Stdlib Require Import List String Ascii ZArith NArith Bool Arith Lia.
From Stdlib.Strings Require Import Byte.
From Stdlib Require Import DecimalString Permutation Sorted.
Import ListNotations.
Local Open Scope string_scope.
Local Open Scope list_scope.
Set Warnings "-register-all".

(* ================================================================== *)
(** ** Exceptions *)

Inductive exn : Type :=
| KeyError | IndexError | TypeError | AttributeError | AssertionError
| ValueError | DataError | IntegrityError | ProgrammingError.

Inductive result (A : Type) : Type :=
| Ok (a : A)
| Raise (e : exn).
Arguments Ok {A} a.
Arguments Raise {A} e.

Definition bind {A B : Type} (m : result A) (f : A -> result B) : result B :=
  match m with
  | Ok a => f a
  | Raise e => Raise e
  end.

Notation "x <- m ;; k" := (bind m (fun x => k))
  (at level 61, m at next level, right associativity).
Notation "m ;;; k" := (bind m (fun _ => k))
  (at level 61, right associativity).

Fixpoint mapM {A B : Type} (f : A -> result B) (l : list A) : result (list B) :=
  match l with
  | [] => Ok []
  | x :: r => y <- f x ;; ys <- mapM f r ;; Ok (y :: ys)
  end.

Definition is_ok {A : Type} (m : result A) : bool :=
  match m with Ok _ => true | Raise _ => false end.

(* ================================================================== *)
(** ** hashlib.sha256 (FIPS 180-4), on 32-bit words held in [Z] *)

Module SHA256.

Definition mask32 : Z := 4294967295.
Definition w32 (x : Z) : Z := Z.land x mask32.
Definition add32 (a b : Z) : Z := w32 (a + b).
Definition rotr (n x : Z) : Z := Z.lor (Z.shiftr x n) (w32 (Z.shiftl x (32 - n))).
Definition not32 (x : Z) : Z := Z.lxor x mask32.

Definition Ch (x y z : Z) : Z := Z.lxor (Z.land x y) (Z.land (not32 x) z).
Definition Maj (x y z : Z) : Z :=
  Z.lxor (Z.lxor (Z.land x y) (Z.land x z)) (Z.land y z).
Definition bsig0 (x : Z) : Z := Z.lxor (Z.lxor (rotr 2 x) (rotr 13 x)) (rotr 22 x).
Definition bsig1 (x : Z) : Z := Z.lxor (Z.lxor (rotr 6 x) (rotr 11 x)) (rotr 25 x).
Definition ssig0 (x : Z) : Z := Z.lxor (Z.lxor (rotr 7 x) (rotr 18 x)) (Z.shiftr x 3).
Definition ssig1 (x : Z) : Z := Z.lxor (Z.lxor (rotr 17 x) (rotr 19 x)) (Z.shiftr x 10).

(** The round constants are the first 32 bits of the fractional parts of the
    cube roots of the first 64 primes, the initial state those of the square
    roots of the first 8 primes; both are computed from that definition. *)

Fixpoint has_divisor (n : Z) (cands : list Z) : bool :=
  match cands with
  | [] => false
  | d :: r => ((1 <? d) && (d <? n) && (n mod d =? 0))%Z || has_divisor n r
  end.

Definition upto (n : nat) : list Z := map Z.of_nat (seq 2 n).

Definition primes : list Z :=
  filter (fun n => negb (has_divisor n (upto 20))) (upto 310).

(** Integer cube root, bit by bit from bit [b] down. *)
Fixpoint icbrt_bits (b : nat) (n r : Z) : Z :=
  let try_bit (k : nat) (r : Z) :=
    let c := (r + Z.shiftl 1 (Z.of_nat k))%Z in
    if (c * c * c <=? n)%Z then c else r in
  match b with
  | O => try_bit O r
  | S b' => icbrt_bits b' n (try_bit b r)
  end.

Definition K : list Z :=
  map (fun p => w32 (icbrt_bits 40 (Z.shiftl p 96) 0)) primes.

Definition H0 : list Z :=
  map (fun p => w32 (Z.sqrt (Z.shiftl p 64))) (firstn 8 primes).

(** Big-endian bytes of a [n]-byte unsigned quantity. *)
Fixpoint be_bytes (n : nat) (x : Z) : list Z :=
  match n with
  | O => []
  | S n' => Z.land (Z.shiftr x (8 * Z.of_nat n')) 255 :: be_bytes n' x
  end.

Definition pad (msg : list Z) : list Z :=
  let len := Z.of_nat (List.length msg) in
  let zeros := Z.to_nat ((55 - len) mod 64) in
  msg ++ [128%Z] ++ repeat 0%Z zeros ++ be_bytes 8 (8 * len).

Fixpoint be_word (bs : list Z) (acc : Z) : Z :=
  match bs with
  | [] => acc
  | b :: r => be_word r (Z.lor (Z.shiftl acc 8) b)
  end.

(** Cuts a list into consecutive chunks of [size] elements; [k] counts the
    elements still missing from the chunk being filled, [cur] holds it
    reversed. *)
Fixpoint chunks_aux {A : Type} (size k : nat) (cur : list A) (l : list A)
  : list (list A) :=
  match l with
  | [] => match cur with [] => [] | _ => [rev cur] end
  | x :: r =>
      match k with
      | O => [rev cur]
      | S O => rev (x :: cur) :: chunks_aux size size [] r
      | S k' => chunks_aux size k' (x :: cur) r
      end
  end.

Definition chunks {A : Type} (size : nat) (l : list A) : list (list A) :=
  chunks_aux size size [] l.

(** One round; the window holds the sixteen schedule words [W_t .. W_(t+15)]. *)
Definition round (st : list Z * list Z) (k : Z) : list Z * list Z :=
  let '(regs, win) := st in
  match regs with
  | [a; b; c; d; e; f; g; h] =>
      let w := nth 0 win 0%Z in
      let t1 := add32 (add32 (add32 (add32 h (bsig1 e)) (Ch e f g)) k) w in
      let t2 := add32 (bsig0 a) (Maj a b c) in
      let w16 := add32 (add32 (add32 (ssig1 (nth 14 win 0%Z)) (nth 9 win 0%Z))
                               (ssig0 (nth 1 win 0%Z))) w in
      ([add32 t1 t2; a; b; c; add32 d t1; e; f; g], tl win ++ [w16])
  | _ => st
  end.

Fixpoint zip_add (xs ys : list Z) : list Z :=
  match xs, ys with
  | x :: xs', y :: ys' => add32 x y :: zip_add xs' ys'
  | _, _ => []
  end.

Definition compress (h : list Z) (block : list Z) : list Z :=
  let win := map (fun w => be_word w 0) (chunks 4 block) in
  zip_add h (fst (fold_left round K (h, win))).

Definition digest_words (msg : list Z) : list Z :=
  fold_left compress (chunks 64 (pad msg)) H0.

Definition hex_digit (n : Z) : ascii :=
  nth (Z.to_nat n) (list_ascii_of_string "0123456789abcdef") "0"%char.

Fixpoint hex_of_bytes (bs : list Z) : string :=
  match bs with
  | [] => EmptyString
  | b :: r => String (hex_digit (Z.shiftr b 4))
                (String (hex_digit (Z.land b 15)) (hex_of_bytes r))
  end.

Definition byte_to_Z (b : byte) : Z := Z.of_N (Byte.to_N b).

(** [hashlib.sha256(msg).hexdigest()] *)
Definition hexdigest (msg : list byte) : string :=
  hex_of_bytes (flat_map (be_bytes 4) (digest_words (map byte_to_Z msg))).

End SHA256.

(* ================================================================== *)
(** ** base64.b64encode *)

Module Base64.

Definition alphabet : list ascii :=
  list_ascii_of_string
    "ABCDEFGHIJKLMNOPQRSTUVWXYZabcdefghijklmnopqrstuvwxyz0123456789+/".

Definition digit (n : Z) : ascii := nth (Z.to_nat n) alphabet "="%char.

Definition hi6 (a : Z) : Z := Z.shiftr a 2.
Definition mid1 (a b : Z) : Z := Z.lor (Z.shiftl (Z.land a 3) 4) (Z.shiftr b 4).
Definition mid2 (b c : Z) : Z := Z.lor (Z.shiftl (Z.land b 15) 2) (Z.shiftr c 6).
Definition lo6 (c : Z) : Z := Z.land c 63.

Fixpoint encodeZ (bs : list Z) : string :=
  match bs with
  | [] => EmptyString
  | [a] =>
      String (digit (hi6 a)) (String (digit (mid1 a 0)) "==")
  | [a; b] =>
      String (digit (hi6 a)) (String (digit (mid1 a b))
        (String (digit (mid2 b 0)) "="))
  | a :: b :: c :: r =>
      String (digit (hi6 a)) (String (digit (mid1 a b))
        (String (digit (mid2 b c)) (String (digit (lo6 c)) (encodeZ r))))
  end.

(** [base64.b64encode(bs).decode("ascii")] *)
Definition b64encode (bs : list byte) : string :=
  encodeZ (map SHA256.byte_to_Z bs).

End Base64.

(* ================================================================== *)
(** ** Python values

    The values a pickled protein collection holds: [None], booleans,
    integers, text, raw bytes, lists, and dictionaries with text keys.  A
    dictionary is an association list in insertion order (Python's [dict]
    keeps it, and the pipeline captures the key order of the first record);
    a well-formed one has no repeated key.  Text is held as its UTF-8 bytes,
    so [str.encode()] is the identity on them.  Tuples, sets, floats and
    dictionaries with keys that are not texts are outside this type: a
    statement over [pyval] says nothing about them. *)

Inductive pyval : Type :=
| PyNone
| PyBool (b : bool)
| PyInt (n : Z)
| PyStr (s : string)
| PyBytes (bs : list byte)
| PyList (l : list pyval)
| PyDict (d : list (string * pyval)).

Definition dict : Type := list (string * pyval).

Section AssocList.
Context {K V : Type} (keq : K -> K -> bool).

Fixpoint assoc_get (k : K) (d : list (K * V)) : option V :=
  match d with
  | [] => None
  | (k', v) :: r => if keq k k' then Some v else assoc_get k r
  end.

(** [d[k] = v]: overwrites the value in place when the key is present,
    appends the pair otherwise. *)
Fixpoint assoc_set (k : K) (v : V) (d : list (K * V)) : list (K * V) :=
  match d with
  | [] => [(k, v)]
  | (k', v') :: r =>
      if keq k k' then (k', v) :: r else (k', v') :: assoc_set k v r
  end.

Definition assoc_mem (k : K) (d : list (K * V)) : bool :=
  match assoc_get k d with Some _ => true | None => false end.

End AssocList.

Definition keys (d : dict) : list string := map fst d.

(** [d.get(k)] as an option, [d[k]], [d.get(k)] and [d.get(k, default)]. *)
Definition dict_lookup (k : string) (d : dict) : option pyval :=
  assoc_get String.eqb k d.

Definition getitem (d : dict) (k : string) : result pyval :=
  match dict_lookup k d with
  | Some v => Ok v
  | None => Raise KeyError
  end.

Definition get_default (d : dict) (k : string) (default : pyval) : pyval :=
  match dict_lookup k d with
  | Some v => v
  | None => default
  end.

Definition get (d : dict) (k : string) : pyval := get_default d k PyNone.

(** [v[k]] for a text key [k] on an arbitrary value. *)
Definition subscript (v : pyval) (k : string) : result pyval :=
  match v with
  | PyDict d => getitem d k
  | _ => Raise TypeError
  end.

Definition bytes_eqb (a b : list byte) : bool :=
  if list_eq_dec Byte.byte_eq_dec a b then true else false.

(** Truth value, for [x or default]. *)
Definition truthy (v : pyval) : bool :=
  match v with
  | PyNone => false
  | PyBool b => b
  | PyInt n => negb (n =? 0)%Z
  | PyStr s => negb (String.eqb s "")
  | PyBytes bs => match bs with [] => false | _ => true end
  | PyList l => match l with [] => false | _ => true end
  | PyDict d => match d with [] => false | _ => true end
  end.

Definition py_or (a b : pyval) : pyval := if truthy a then a else b.

(** [v.encode()]: only text has the method. *)
Definition encode (v : pyval) : result (list byte) :=
  match v with
  | PyStr s => Ok (list_byte_of_string s)
  | _ => Raise AttributeError
  end.

(** A bytes-like argument, as [h.update] and [bytes(...)] need it. *)
Definition as_bytes (v : pyval) : result (list byte) :=
  match v with
  | PyBytes bs => Ok bs
  | _ => Raise TypeError
  end.

Definition char_strings (s : string) : list pyval :=
  map (fun c => PyStr (String c EmptyString)) (list_ascii_of_string s).

(** The items a [for] loop or [zip] draws from a value. *)
Definition iter (v : pyval) : result (list pyval) :=
  match v with
  | PyList l => Ok l
  | PyDict d => Ok (map (fun kv => PyStr (fst kv)) d)
  | PyStr s => Ok (char_strings s)
  | PyBytes bs => Ok (map (fun b => PyInt (SHA256.byte_to_Z b)) bs)
  | _ => Raise TypeError
  end.

(** [len(v)] *)
Definition len (v : pyval) : result nat :=
  match v with
  | PyList l => Ok (List.length l)
  | PyDict d => Ok (List.length d)
  | PyStr s => Ok (String.length s)
  | PyBytes bs => Ok (List.length bs)
  | _ => Raise TypeError
  end.

(** Python's [==]: booleans compare as the integers 0 and 1, dictionaries
    compare without regard to key order. *)
Fixpoint py_eq (a b : pyval) {struct a} : bool :=
  match a, b with
  | PyNone, PyNone => true
  | PyBool x, PyBool y => Bool.eqb x y
  | PyBool x, PyInt n => (n =? (if x then 1 else 0))%Z
  | PyInt n, PyBool x => (n =? (if x then 1 else 0))%Z
  | PyInt n, PyInt m => (n =? m)%Z
  | PyStr s, PyStr t => String.eqb s t
  | PyBytes x, PyBytes y => bytes_eqb x y
  | PyList l, PyList l' =>
      (fix go (l l' : list pyval) {struct l} : bool :=
         match l, l' with
         | [], [] => true
         | x :: r, y :: r' => py_eq x y && go r r'
         | _, _ => false
         end) l l'
  | PyDict d, PyDict d' =>
      (List.length d =? List.length d')%nat &&
      (fix go (d : list (string * pyval)) {struct d} : bool :=
         match d with
         | [] => true
         | (k, v) :: r =>
             match dict_lookup k d' with
             | Some v' => py_eq v v'
             | None => false
             end && go r
         end) d
  | _, _ => false
  end.

Definition py_neq (a b : pyval) : bool := negb (py_eq a b).

(* ================================================================== *)
(** ** str() and repr() *)

Module Repr.

Definition squote : ascii := ascii_of_nat 39.
Definition dquote : ascii := ascii_of_nat 34.
Definition backslash : ascii := ascii_of_nat 92.

Definition decimal (n : Z) : string := NilZero.string_of_int (Z.to_int n).

Definition hex_escape (n : nat) : string :=
  String backslash (String "x"
    (String (SHA256.hex_digit (Z.of_nat (n / 16)))
      (String (SHA256.hex_digit (Z.of_nat (n mod 16))) EmptyString))).

Definition escape_char (q : ascii) (ascii_only : bool) (c : ascii) : string :=
  let n := nat_of_ascii c in
  if Ascii.eqb c backslash then String backslash (String backslash EmptyString)
  else if Ascii.eqb c q then String backslash (String q EmptyString)
  else if (n =? 10)%nat then String backslash "n"
  else if (n =? 13)%nat then String backslash "r"
  else if (n =? 9)%nat then String backslash "t"
  else if (n <? 32)%nat || (n =? 127)%nat then hex_escape n
  else if ascii_only && (128 <=? n)%nat then hex_escape n
  else String c EmptyString.

Definition pick_quote (cs : list ascii) : ascii :=
  if existsb (Ascii.eqb squote) cs && negb (existsb (Ascii.eqb dquote) cs)
  then dquote else squote.

Definition quoted (ascii_only : bool) (s : string) : string :=
  let cs := list_ascii_of_string s in
  let q := pick_quote cs in
  String q (String.concat "" (map (escape_char q ascii_only) cs)
              ++ String q EmptyString)%string.

(** [repr(v)]; text is printed byte for byte above 127, which is what
    Python does for printable characters (it escapes the others: the model
    is exact on printable text only); bytes are escaped there. *)
Fixpoint repr (v : pyval) : string :=
  match v with
  | PyNone => "None"
  | PyBool true => "True"
  | PyBool false => "False"
  | PyInt n => decimal n
  | PyStr s => quoted false s
  | PyBytes bs => String "b" (quoted true (string_of_list_byte bs))
  | PyList l => ("[" ++ String.concat ", " (map repr l) ++ "]")%string
  | PyDict d =>
      ("{" ++ String.concat ", "
                (map (fun kv => (quoted false (fst kv) ++ ": " ++ repr (snd kv))%string) d)
           ++ "}")%string
  end.

(** [str(v)] *)
Definition str (v : pyval) : string :=
  match v with
  | PyStr s => s
  | _ => repr v
  end.

End Repr.

(* ================================================================== *)
(** ** json.dumps / json.loads, and PostgreSQL's jsonb

    A JSON text is represented by the document it denotes. *)

Module Json.

Inductive json : Type :=
| JNull
| JBool (b : bool)
| JNum (n : Z)
| JStr (s : string)
| JArr (items : list json)
| JObj (members : list (string * json)).

(** The longest integer, in decimal digits, that [str] and [json.dumps]
    convert to text (the default of Python 3.11 and later); a longer one
    raises [ValueError]. *)
Definition max_str_digits : nat := 4300.

Definition digits_ok (n : Z) : bool :=
  (String.length (Repr.decimal (Z.abs n)) <=? max_str_digits)%nat.

(** [json.dumps(v)]: raw bytes are not JSON serializable. *)
Fixpoint dumps (v : pyval) : result json :=
  match v with
  | PyNone => Ok JNull
  | PyBool b => Ok (JBool b)
  | PyInt n => if digits_ok n then Ok (JNum n) else Raise ValueError
  | PyStr s => Ok (JStr s)
  | PyBytes _ => Raise TypeError
  | PyList l =>
      items <- (fix go (l : list pyval) : result (list json) :=
                  match l with
                  | [] => Ok []
                  | x :: r => j <- dumps x ;; js <- go r ;; Ok (j :: js)
                  end) l ;;
      Ok (JArr items)
  | PyDict d =>
      members <- (fix go (d : list (string * pyval)) : result (list (string * json)) :=
                    match d with
                    | [] => Ok []
                    | (k, x) :: r => j <- dumps x ;; js <- go r ;; Ok ((k, j) :: js)
                    end) d ;;
      Ok (JObj members)
  end.

(** A Python dict built from pairs in order: a repeated key keeps its first
    position and takes the last value. *)
Definition dict_of_pairs (l : list (string * pyval)) : dict :=
  fold_left (fun d kv => assoc_set String.eqb (fst kv) (snd kv) d) l [].

(** [json.loads] *)
Fixpoint loads (j : json) : pyval :=
  match j with
  | JNull => PyNone
  | JBool b => PyBool b
  | JNum n => PyInt n
  | JStr s => PyStr s
  | JArr items => PyList (map loads items)
  | JObj members =>
      PyDict (dict_of_pairs (map (fun kj => (fst kj, loads (snd kj))) members))
  end.

(** jsonb keeps the members of an object sorted by key, shorter keys first
    and equal lengths bytewise, and keeps the last of repeated keys. *)
Definition key_ltb (a b : string) : bool :=
  (String.length a <? String.length b)%nat
  || ((String.length a =? String.length b)%nat && String.ltb a b).

Fixpoint jsonb_insert (k : string) (v : json) (sorted : list (string * json))
  : list (string * json) :=
  match sorted with
  | [] => [(k, v)]
  | (k', v') :: r =>
      if String.eqb k k' then (k, v) :: r
      else if key_ltb k k' then (k, v) :: sorted
      else (k', v') :: jsonb_insert k v r
  end.

Definition jsonb_members (ms : list (string * json)) : list (string * json) :=
  fold_left (fun acc kv => jsonb_insert (fst kv) (snd kv) acc) ms [].

(** The document a jsonb column holds for an input document. *)
Fixpoint jsonb (j : json) : json :=
  match j with
  | JArr items => JArr (map jsonb items)
  | JObj members =>
      JObj (jsonb_members (map (fun kj => (fst kj, jsonb (snd kj))) members))
  | _ => j
  end.

End Json.

(* ================================================================== *)
(** ** pickle.dumps, protocol 4

    The value is pickled as a tree and the output is one frame.  The
    pickler writes a back reference for a text, bytes, list or dictionary
    object it meets a second time; values of [pyval] carry no object
    identity, so the model is that of a value none of whose parts is one
    object reached twice. *)

Module Pickle.

Fixpoint le_bytes (n : nat) (x : Z) : list Z :=
  match n with
  | O => []
  | S n' => Z.land x 255 :: le_bytes n' (Z.shiftr x 8)
  end.

Definition chars (s : string) : list Z := map SHA256.byte_to_Z (list_byte_of_string s).

Definition PROTO : Z := 128.
Definition FRAME : Z := 149.
Definition MEMOIZE : Z := 148.
Definition NEWTRUE : Z := 136.
Definition NEWFALSE : Z := 137.
Definition LONG1 : Z := 138.
Definition LONG4 : Z := 139.
Definition SHORT_BINUNICODE : Z := 140.

Definition save_int (n : Z) : list Z :=
  if (0 <=? n)%Z && (n <=? 255)%Z then chars "K" ++ [n]
  else if (0 <=? n)%Z && (n <=? 65535)%Z then chars "M" ++ le_bytes 2 n
  else if (-2147483648 <=? n)%Z && (n <=? 2147483647)%Z
       then chars "J" ++ le_bytes 4 (n mod 4294967296)
  else
    let nbits := (Z.log2 (Z.abs n) + 1)%Z in
    let nbytes := Z.to_nat (Z.shiftr nbits 3 + 1) in
    let raw := le_bytes nbytes (n mod Z.shiftl 1 (8 * Z.of_nat nbytes)) in
    let trimmed :=
      if (n <? 0)%Z && (nth (nbytes - 1) raw 0 =? 255)%Z
         && (128 <=? nth (nbytes - 2) raw 0)%Z
      then firstn (nbytes - 1) raw else raw in
    let k := Z.of_nat (List.length trimmed) in
    if (k <? 256)%Z then LONG1 :: k :: trimmed else LONG4 :: le_bytes 4 k ++ trimmed.

Definition save_str (s : string) : list Z :=
  let k := Z.of_nat (String.length s) in
  (if (k <? 256)%Z then SHORT_BINUNICODE :: [k] else chars "X" ++ le_bytes 4 k)
  ++ chars s ++ [MEMOIZE].

Definition save_bytes (bs : list byte) : list Z :=
  let k := Z.of_nat (List.length bs) in
  (if (k <? 256)%Z then chars "C" ++ [k] else chars "B" ++ le_bytes 4 k)
  ++ map SHA256.byte_to_Z bs ++ [MEMOIZE].

(** Items are written in batches of 1000 between MARK and [close]; a
    container with one item uses the single-item opcode [close1]. *)
Definition batches (close1 close : string) (items : list (list Z)) : list Z :=
  match items with
  | [] => []
  | [x] => x ++ chars close1
  | _ => flat_map (fun b => chars "(" ++ List.concat b ++ chars close)
                  (SHA256.chunks 1000 items)
  end.

Fixpoint save (v : pyval) : list Z :=
  match v with
  | PyNone => chars "N"
  | PyBool true => [NEWTRUE]
  | PyBool false => [NEWFALSE]
  | PyInt n => save_int n
  | PyStr s => save_str s
  | PyBytes bs => save_bytes bs
  | PyList l => chars "]" ++ [MEMOIZE] ++ batches "a" "e" (map save l)
  | PyDict d =>
      chars "}" ++ [MEMOIZE]
      ++ batches "s" "u" (map (fun kv => save_str (fst kv) ++ save (snd kv)) d)
  end.

Definition to_byte (z : Z) : byte :=
  match Byte.of_N (Z.to_N z) with Some b => b | None => x00 end.

(** [pickle.dumps(v)] *)
Definition dumps (v : pyval) : list byte :=
  let body := save v ++ chars "." in
  let k := Z.of_nat (List.length body) in
  map to_byte
    ([PROTO; 4%Z] ++ (if (k <? 4)%Z then [] else FRAME :: le_bytes 8 k) ++ body).

End Pickle.

(* ================================================================== *)
(** ** The database: PostgreSQL behind psycopg2 and pandas

    The server and the driver are not part of the repository.  The model
    holds what the scripts rely on: a table is a list of stored rows in
    insertion order; a parameter is converted to the type of its column;
    [INSERT ... ON CONFLICT (gene_id, transcript_id) DO NOTHING] skips a row
    whose key pair is present; [SELECT * ... ORDER BY protein_index] returns
    the rows by ascending position.

    Three limits of the model, which the statements on whole runs name in
    their hypotheses:
    - column names are taken as written.  The scripts splice them unquoted
      into SQL, where the server folds letters to lower case, cuts a name
      after 63 bytes and refuses a reserved word; [plain_name] holds of the
      names the server takes and reports as they are written;
    - a text parameter is followed into a bounded-text column only (the
      server would also read it as the literal of another type); elsewhere
      it is refused;
    - a NULL is handed back as [None].  In a text column pandas 3 hands
      back NaN instead, a float, which [pyval] does not have. *)

Module PG.

Inductive cell : Type :=
| CNull
| CInt (n : Z)
| CBool (b : bool)
| CText (s : string)
| CJsonb (j : Json.json)
| CTextArr (l : list string)
| CByteaArr (l : list (list byte)).

Definition row : Type := list (string * cell).

(** A column definition: name, type as written, [NOT NULL] suffix. *)
Record col_def : Type := mk_col { col_name : string; col_type : string; col_not_null : bool }.

Record table : Type := mk_table { schema : list col_def; rows : list row }.

(** What a statement passes for a placeholder: a Python value, the text
    [json.dumps] produced (held as its document), or a list of
    [psycopg2.Binary] wrappers. *)
Inductive param : Type :=
| Param (v : pyval)
| JsonText (doc : Json.json)
| Binaries (contents : list pyval).

Definition has_nul (s : string) : bool :=
  existsb (fun c => (nat_of_ascii c =? 0)%nat) (list_ascii_of_string s).

(** A JSON document with a NUL character in a string or a key: [json.dumps]
    writes it as an escape, which jsonb refuses. *)
Fixpoint json_has_nul (j : Json.json) : bool :=
  match j with
  | Json.JStr s => has_nul s
  | Json.JArr items => existsb json_has_nul items
  | Json.JObj members =>
      existsb (fun kj => has_nul (fst kj) || json_has_nul (snd kj)) members
  | _ => false
  end.

(** Characters of a text held as UTF-8: the bytes that do not continue a
    character. *)
Definition continuation (c : ascii) : bool :=
  (128 <=? nat_of_ascii c)%nat && (nat_of_ascii c <? 192)%nat.

Fixpoint utf8_length (s : string) : nat :=
  match s with
  | EmptyString => 0
  | String c r => if continuation c then utf8_length r else S (utf8_length r)
  end.

(** The first [n] characters of a text, and the text without them. *)
Fixpoint utf8_take (n : nat) (s : string) : string :=
  match s with
  | EmptyString => EmptyString
  | String c r =>
      if continuation c then String c (utf8_take n r)
      else match n with
           | O => EmptyString
           | S n' => String c (utf8_take n' r)
           end
  end.

Fixpoint utf8_drop (n : nat) (s : string) : string :=
  match s with
  | EmptyString => EmptyString
  | String c r =>
      if continuation c then utf8_drop n r
      else match n with
           | O => s
           | S n' => utf8_drop n' r
           end
  end.

Definition all_spaces (s : string) : bool :=
  forallb (fun c => (nat_of_ascii c =? 32)%nat) (list_ascii_of_string s).

(** A text assigned to a [VARCHAR(400)] column: at most 400 characters are
    kept, and only spaces may be cut off. *)
Definition varchar400 (s : string) : result string :=
  if (utf8_length s <=? 400)%nat then Ok s
  else if all_spaces (utf8_drop 400 s) then Ok (utf8_take 400 s)
  else Raise DataError.

Definition text_element (v : pyval) : result string :=
  match v with
  | PyStr s => if has_nul s then Raise ValueError else Ok s
  | _ => Raise DataError
  end.

Definition cell_eq_dec : forall a b : cell, {a = b} + {a <> b}.
Proof.
  assert (Hj : forall x y : Json.json, {x = y} + {x <> y}).
  { fix IH 1. intros x y. decide equality.
    - apply Bool.bool_dec.
    - apply Z.eq_dec.
    - apply string_dec.
    - apply (list_eq_dec IH).
    - apply list_eq_dec. intros [k1 j1] [k2 j2].
      destruct (string_dec k1 k2) as [->|]; [|right; congruence].
      destruct (IH j1 j2) as [->|]; [left; reflexivity|right; congruence]. }
  intros a b. decide equality.
  - apply Z.eq_dec.
  - apply Bool.bool_dec.
  - apply string_dec.
  - apply (list_eq_dec string_dec).
  - apply (list_eq_dec (list_eq_dec Byte.byte_eq_dec)).
Defined.

Definition cell_eqb (a b : cell) : bool := if cell_eq_dec a b then true else false.

(** The stored value of a parameter in a column of type [ty].  The driver
    refuses a text with a NUL character before anything is sent; an integer
    or a boolean assigned to a bounded-text column is stored as its text. *)
Definition store_cell (ty : string) (p : param) : result cell :=
  match p with
  | Param PyNone => Ok CNull
  | Param (PyInt n) =>
      if String.eqb ty "INTEGER NOT NULL"
         && (-2147483648 <=? n)%Z && (n <=? 2147483647)%Z
      then Ok (CInt n)
      else if String.eqb ty "VARCHAR(400)"
      then s <- varchar400 (Repr.decimal n) ;; Ok (CText s)
      else Raise DataError
  | Param (PyBool b) =>
      if String.eqb ty "BOOLEAN" then Ok (CBool b)
      else if String.eqb ty "VARCHAR(400)"
      then Ok (CText (if b then "true" else "false"))
      else Raise DataError
  | Param (PyStr s) =>
      if has_nul s then Raise ValueError
      else if String.eqb ty "VARCHAR(400)"
      then s' <- varchar400 s ;; Ok (CText s')
      else Raise DataError
  | Param (PyList l) =>
      if String.eqb ty "TEXT[]" then
        ids <- mapM text_element l ;; Ok (CTextArr ids)
      else Raise DataError
  | Param _ => Raise DataError
  | JsonText doc =>
      if String.eqb ty "JSONB" then
        if json_has_nul doc then Raise DataError else Ok (CJsonb (Json.jsonb doc))
      else Raise DataError
  | Binaries contents =>
      if String.eqb ty "BYTEA[]" then
        bs <- mapM as_bytes contents ;; Ok (CByteaArr bs)
      else Raise DataError
  end.

Definition primary_key : list string := ["gene_id"; "transcript_id"].

(** The words the server reserves, which cannot name a column, and the names
    of its system columns. *)
Definition reserved_words : list string :=
  ["all"; "analyse"; "analyze"; "and"; "any"; "array"; "as"; "asc"; "asymmetric";
   "authorization"; "binary"; "both"; "case"; "cast"; "check"; "collate";
   "collation"; "column"; "concurrently"; "constraint"; "create"; "cross";
   "current_catalog"; "current_date"; "current_role"; "current_schema";
   "current_time"; "current_timestamp"; "current_user"; "default"; "deferrable";
   "desc"; "distinct"; "do"; "else"; "end"; "except"; "false"; "fetch"; "for";
   "foreign"; "freeze"; "from"; "full"; "grant"; "group"; "having"; "ilike"; "in";
   "initially"; "inner"; "intersect"; "into"; "is"; "isnull"; "join"; "lateral";
   "leading"; "left"; "like"; "limit"; "localtime"; "localtimestamp"; "natural";
   "not"; "notnull"; "null"; "offset"; "on"; "only"; "or"; "order"; "outer";
   "overlaps"; "placing"; "primary"; "references"; "returning"; "right"; "select";
   "session_user"; "similar"; "some"; "symmetric"; "system_user"; "table";
   "tablesample"; "then"; "to"; "trailing"; "true"; "union"; "unique"; "user";
   "using"; "variadic"; "verbose"; "when"; "where"; "window"; "with";
   "oid"; "tableoid"; "xmin"; "cmin"; "xmax"; "cmax"; "ctid"].

Definition name_start (c : ascii) : bool :=
  let n := nat_of_ascii c in
  ((97 <=? n)%nat && (n <=? 122)%nat) || (n =? 95)%nat.

Definition name_part (c : ascii) : bool :=
  let n := nat_of_ascii c in
  name_start c || ((48 <=? n)%nat && (n <=? 57)%nat).

(** A column name the server takes and reports as it is written: a
    lower-case identifier (letters, digits and underscores, no digit first)
    of at most 63 bytes that is no reserved word. *)
Definition plain_name (s : string) : bool :=
  match s with
  | EmptyString => false
  | String c r => name_start c && forallb name_part (list_ascii_of_string r)
  end
  && (String.length s <=? 63)%nat
  && negb (existsb (String.eqb s) reserved_words).

Definition must_be_set (c : col_def) : bool :=
  col_not_null c
  || String.eqb (col_type c) "INTEGER NOT NULL"
  || existsb (String.eqb (col_name c)) primary_key.

Fixpoint distinct (l : list string) : bool :=
  match l with
  | [] => true
  | x :: r => negb (existsb (String.eqb x) r) && distinct r
  end.

(** [CREATE TABLE IF NOT EXISTS]: an existing table is left as it is. *)
Definition create_table_if_not_exists (db : option table) (defs : list col_def)
  : result table :=
  match db with
  | Some t => Ok t
  | None =>
      let names := map col_name defs in
      if distinct names
         && forallb (fun k => existsb (String.eqb k) names) primary_key
      then Ok (mk_table defs [])
      else Raise ProgrammingError
  end.

Definition key_of (r : row) : list (option cell) :=
  map (fun k => assoc_get String.eqb k r) primary_key.

Definition opt_cell_eqb (x y : option cell) : bool :=
  match x, y with
  | Some c, Some c' => cell_eqb c c'
  | None, None => true
  | _, _ => false
  end.

Fixpoint key_eqb (a b : list (option cell)) : bool :=
  match a, b with
  | [], [] => true
  | x :: a', y :: b' => opt_cell_eqb x y && key_eqb a' b'
  | _, _ => false
  end.

Definition conflicts (t : table) (r : row) : bool :=
  existsb (fun r' => key_eqb (key_of r') (key_of r)) (rows t).

(** The row a statement builds: each column named by the statement takes its
    converted parameter, any other column is NULL. *)
Definition build_row (t : table) (stmt_columns : list string)
    (row_dict : list (string * param)) : result row :=
  if forallb (fun c => existsb (fun d => String.eqb c (col_name d)) (schema t)) stmt_columns
  then
    mapM (fun d =>
            if existsb (String.eqb (col_name d)) stmt_columns then
              match assoc_get String.eqb (col_name d) row_dict with
              | Some p => c <- store_cell (col_type d) p ;; Ok (col_name d, c)
              | None => Raise KeyError
              end
            else Ok (col_name d, CNull))
         (schema t)
  else Raise ProgrammingError.

Definition not_null_ok (t : table) (r : row) : bool :=
  forallb (fun d =>
             negb (must_be_set d)
             || match assoc_get String.eqb (col_name d) r with
                | Some CNull | None => false
                | Some _ => true
                end)
          (schema t).

(** [cur.execute] of the insert statement. *)
Definition execute_insert (t : table) (stmt_columns : list string)
    (row_dict : list (string * param)) : result table :=
  r <- build_row t stmt_columns row_dict ;;
  if negb (not_null_ok t r) then Raise IntegrityError
  else if conflicts t r then Ok t
  else Ok (mk_table (schema t) (rows t ++ [r])).

Definition position (r : row) : result Z :=
  match assoc_get String.eqb "protein_index" r with
  | Some (CInt n) => Ok n
  | _ => Raise ProgrammingError
  end.

Fixpoint insert_by_position (k : Z) (r : row) (sorted : list (Z * row))
  : list (Z * row) :=
  match sorted with
  | [] => [(k, r)]
  | (k', r') :: rest =>
      if (k <=? k')%Z then (k, r) :: sorted
      else (k', r') :: insert_by_position k r rest
  end.

Definition order_by_position (l : list (Z * row)) : list (Z * row) :=
  fold_right (fun kr acc => insert_by_position (fst kr) (snd kr) acc) [] l.

(** The Python value the driver hands back for a stored value. *)
Definition cell_value (c : cell) : pyval :=
  match c with
  | CNull => PyNone
  | CInt n => PyInt n
  | CBool b => PyBool b
  | CText s => PyStr s
  | CJsonb j => Json.loads j
  | CTextArr l => PyList (map PyStr l)
  | CByteaArr l => PyList (map PyBytes l)
  end.

(** One row of the data frame. *)
Definition series : Type := list (string * pyval).

Definition fetch (r : row) : series := map (fun kc => (fst kc, cell_value (snd kc))) r.

(** [pd.read_sql("SELECT * FROM t ORDER BY protein_index")] *)
Definition select_all_ordered (t : table) : result (list series) :=
  keyed <- mapM (fun r => k <- position r ;; Ok (k, r)) (rows t) ;;
  Ok (map (fun kr => fetch (snd kr)) (order_by_position keyed)).

(** [column = %s] with a text parameter: a text cell compares by value, a
    NULL never matches. *)
Definition cell_matches (r : row) (cond : string * string) : result bool :=
  match assoc_get String.eqb (fst cond) r with
  | Some (CText s) => Ok (String.eqb s (snd cond))
  | Some CNull => Ok false
  | Some _ => Raise DataError
  | None => Raise ProgrammingError
  end.

Fixpoint row_matches (r : row) (conds : list (string * string)) : result bool :=
  match conds with
  | [] => Ok true
  | c :: rest =>
      b <- cell_matches r c ;;
      bs <- row_matches r rest ;;
      Ok (b && bs)
  end.

Fixpoint select_rows (conds : list (string * string)) (l : list row)
  : result (list row) :=
  match l with
  | [] => Ok []
  | r :: rest =>
      b <- row_matches r conds ;;
      rs <- select_rows conds rest ;;
      Ok (if b then r :: rs else rs)
  end.

(** [pd.read_sql("SELECT * FROM t WHERE c1 = %s AND ... ORDER BY
    protein_index", params)] *)
Definition select_where_ordered (t : table) (conds : list (string * string))
  : result (list series) :=
  matching <- select_rows conds (rows t) ;;
  keyed <- mapM (fun r => k <- position r ;; Ok (k, r)) matching ;;
  Ok (map (fun kr => fetch (snd kr)) (order_by_position keyed)).

(** [df.columns] of [SELECT * FROM t ORDER BY protein_index LIMIT 1]: the
    columns of the table, whether or not it holds a row. *)
Definition result_columns (t : table) : result (list string) :=
  if existsb (fun d => String.eqb (col_name d) "protein_index") (schema t)
  then Ok (map col_name (schema t))
  else Raise ProgrammingError.

(** [row[key]] *)
Definition column (row : series) (key : string) : result pyval :=
  match assoc_get String.eqb key row with
  | Some v => Ok v
  | None => Raise KeyError
  end.

End PG.

(** [bytes(v)] *)
Definition to_bytes (v : pyval) : result (list byte) :=
  match v with
  | PyBytes bs => Ok bs
  | PyInt n => if (0 <=? n)%Z then Ok (repeat x00 (Z.to_nat n)) else Raise ValueError
  | PyBool b => Ok (if b then [x00] else [])
  | PyList [] => Ok []
  | PyDict [] => Ok []
  | _ => Raise TypeError
  end.

Fixpoint zip {A B : Type} (xs : list A) (ys : list B) : list (A * B) :=
  match xs, ys with
  | x :: xs', y :: ys' => (x, y) :: zip xs' ys'
  | _, _ => []
  end.

(** What the scripts print, as structured lines.  The two
    [proof_compare_pkl] word their mismatch line differently: [MismatchAt] is
    the pipeline's, [MismatchDetectedAt] the checker's.  [Passed] is the
    closing line of the check that returns it. *)
Inductive message : Type :=
| Inserted (proteins total_pdbs : nat)
| Exported (proteins : nat)
| DifferentNumber (n1 n2 : nat)
| MismatchAt (index : nat)
| MismatchDetectedAt (index : nat)
| KeyMismatch
| FieldDifference (field : string)
| PdbCountDifference
| PdbIdMismatch (index : nat)
| PdbContentMismatch (index : nat)
| Passed.

(* ================================================================== *)
(** ** 01_pdb_pkltopsql_pipeline_v02.py *)

Module Pipeline.

(** STEP 1: the columns detected from the first protein. *)
Definition pdb_columns : list string := ["pdb_ids"; "pdb_files"].

Definition other_columns (first_entry : dict) : list string :=
  filter (fun k => negb (String.eqb k "pdb_files")) (keys first_entry).

Definition columns_of (other : list string) : list string :=
  ["protein_index"] ++ other ++ pdb_columns.

Definition is_container (v : pyval) : bool :=
  match v with
  | PyList _ | PyDict _ => true
  | _ => false
  end.

(** STEP 3 *)
Definition infer_pg_type (key : string) (value : pyval) : string :=
  if String.eqb key "protein_index" then "INTEGER NOT NULL"
  else if String.eqb key "pdb_ids" then "TEXT[]"
  else if String.eqb key "pdb_files" then "BYTEA[]"
  else match value with
       | PyBool _ => "BOOLEAN"
       | PyList _ | PyDict _ => "JSONB"
       | _ => "VARCHAR(400)"
       end.

Definition col_defs (first_entry : dict) : list PG.col_def :=
  map (fun col =>
         PG.mk_col col (infer_pg_type col (get first_entry col))
           (existsb (String.eqb col) ["gene_id"; "transcript_id"; "protein_index"]))
      (columns_of (other_columns first_entry)).

Definition bytes_marker (bs : list byte) : pyval :=
  PyDict [("__type__", PyStr "bytes");
          ("encoding", PyStr "base64");
          ("data", PyStr (Base64.b64encode bs))].

Fixpoint make_json_safe (obj : pyval) : pyval :=
  match obj with
  | PyBytes bs => bytes_marker bs
  | PyDict d => PyDict (map (fun kv => (fst kv, make_json_safe (snd kv))) d)
  | PyList l => PyList (map make_json_safe l)
  | _ => obj
  end.

(** The body of the insert loop up to [cur.execute]: the parameters of one
    row. *)
Definition field_param (value : pyval) : result PG.param :=
  if is_container value
  then doc <- Json.dumps (make_json_safe value) ;; Ok (PG.JsonText doc)
  else Ok (PG.Param value).

Fixpoint set_fields (other : list string) (entry : dict)
    (row_dict : list (string * PG.param)) : result (list (string * PG.param)) :=
  match other with
  | [] => Ok row_dict
  | key :: rest =>
      p <- field_param (get entry key) ;;
      set_fields rest entry (assoc_set String.eqb key p row_dict)
  end.

Definition build_row_dict (other : list string) (idx : nat) (entry : dict)
  : result (list (string * PG.param)) :=
  row_dict <- set_fields other entry [("protein_index", PG.Param (PyInt (Z.of_nat idx)))] ;;
  pdbs <- iter (get_default entry "pdb_files" (PyList [])) ;;
  ids <- mapM (fun p => subscript p "pdb_id") pdbs ;;
  let row_dict := assoc_set String.eqb "pdb_ids" (PG.Param (PyList ids)) row_dict in
  contents <- mapM (fun p => subscript p "content") pdbs ;;
  Ok (assoc_set String.eqb "pdb_files" (PG.Binaries contents) row_dict).

Definition binaries_len (p : option PG.param) : nat :=
  match p with
  | Some (PG.Binaries l) => List.length l
  | _ => 0
  end.

Fixpoint insert_loop (other : list string) (t : PG.table) (idx total_pdbs : nat)
    (data : list dict) : result (PG.table * nat) :=
  match data with
  | [] => Ok (t, total_pdbs)
  | entry :: rest =>
      row_dict <- build_row_dict other idx entry ;;
      let total_pdbs :=
        total_pdbs + binaries_len (assoc_get String.eqb "pdb_files" row_dict) in
      t' <- PG.execute_insert t (columns_of other) row_dict ;;
      insert_loop other t' (S idx) total_pdbs rest
  end.

(** What a call leaves behind: the committed table, the line it printed and
    the value it returned. *)
Record inserted : Type :=
  mk_inserted { committed : PG.table; printed : message; returned : pyval }.

(** [insert_proteins_with_pdbs(engine, data, table_name)].  An exception
    leaves the function before [conn.commit()], so [Raise] stands for a
    rolled-back transaction: the table stays as it was.  The function has no
    [return] statement. *)
Definition insert_proteins_with_pdbs (other : list string) (t : PG.table)
    (data : list dict) : result inserted :=
  r <- insert_loop other t 0 0 data ;;
  Ok (mk_inserted (fst r) (Inserted (List.length data) (snd r)) PyNone).

(** STEP 6 *)
Definition rebuild_pdbs (row : PG.series) : result pyval :=
  ids <- PG.column row "pdb_ids" ;;
  files <- PG.column row "pdb_files" ;;
  pids <- iter (py_or ids (PyList [])) ;;
  pbs <- iter (py_or files (PyList [])) ;;
  pdbs <- mapM (fun pp => content <- to_bytes (snd pp) ;;
                          Ok (PyDict [("pdb_id", fst pp); ("content", PyBytes content)]))
               (zip pids pbs) ;;
  Ok (PyList pdbs).

Fixpoint rebuild_entry (key_order : list string) (row : PG.series)
    (protein_entry : dict) : result dict :=
  match key_order with
  | [] => Ok protein_entry
  | key :: rest =>
      value <- (if String.eqb key "pdb_files" then rebuild_pdbs row
                else PG.column row key) ;;
      rebuild_entry rest row (assoc_set String.eqb key value protein_entry)
  end.

(** [export_table_to_pkl(engine, table_name, output_path, original_key_order)]:
    the collection written to the output file, and the line printed. *)
Definition export_table_to_pkl (t : PG.table) (original_key_order : list string)
  : result (list dict * message) :=
  df <- PG.select_all_ordered t ;;
  data_out <- mapM (fun row => rebuild_entry original_key_order row []) df ;;
  Ok (data_out, Exported (List.length data_out)).

(** STEP 7 *)
Definition hash_pdb (pdb : pyval) : result (list byte) :=
  pdb_id <- subscript pdb "pdb_id" ;;
  id_bytes <- encode pdb_id ;;
  content <- subscript pdb "content" ;;
  content_bytes <- as_bytes content ;;
  Ok (id_bytes ++ content_bytes).

Definition hash_protein (protein : dict) : result string :=
  gene_id <- getitem protein "gene_id" ;;
  u1 <- encode gene_id ;;
  transcript_id <- getitem protein "transcript_id" ;;
  u2 <- encode transcript_id ;;
  sequence <- getitem protein "sequence" ;;
  u3 <- encode (py_or sequence (PyStr "")) ;;
  let u4 := Pickle.dumps (get_default protein "exons" (PyList [])) in
  let u5 := list_byte_of_string
              (Repr.str (get_default protein "protein_coding" (PyBool false))) in
  let u6 := list_byte_of_string (Repr.str (get_default protein "nmd" (PyBool false))) in
  pdbs <- iter (get_default protein "pdb_files" (PyList [])) ;;
  u7 <- mapM hash_pdb pdbs ;;
  Ok (SHA256.hexdigest (u1 ++ u2 ++ u3 ++ u4 ++ u5 ++ u6 ++ List.concat u7)).

Fixpoint compare_hashes (i : nat) (pairs : list (dict * dict)) : result (bool * message) :=
  match pairs with
  | [] => Ok (true, Passed)
  | (p1, p2) :: rest =>
      h1 <- hash_protein p1 ;;
      h2 <- hash_protein p2 ;;
      if negb (String.eqb h1 h2) then Ok (false, MismatchAt i)
      else compare_hashes (S i) rest
  end.

Definition proof_compare_pkl (data1 data2 : list dict) : result (bool * message) :=
  if negb (List.length data1 =? List.length data2)%nat
  then Ok (false, DifferentNumber (List.length data1) (List.length data2))
  else compare_hashes 0 (zip data1 data2).

(** The notebook from top to bottom, on the collection loaded from the
    input file and the database as found; it ends with the exported
    collection and the verdict of the proof comparator. *)
Record run_result : Type :=
  mk_run { final_table : PG.table; exported : list dict; verdict : bool }.

Definition run (db : option PG.table) (data : list dict) : result run_result :=
  first_entry <- match data with e :: _ => Ok e | [] => Raise IndexError end ;;
  let ORIGINAL_KEY_ORDER := keys first_entry in
  _ <- mapM (fun e => len (get_default e "pdb_files" (PyList []))) data ;;
  t <- PG.create_table_if_not_exists db (col_defs first_entry) ;;
  ins <- insert_proteins_with_pdbs (other_columns first_entry) t data ;;
  out <- export_table_to_pkl (committed ins) ORIGINAL_KEY_ORDER ;;
  v <- proof_compare_pkl data (fst out) ;;
  Ok (mk_run (committed ins) (fst out) (fst v)).

End Pipeline.

(* ================================================================== *)
(** ** 02_pdb_checker_compare_two_pkl_files_v01.py *)

Module Checker.

Definition hashable (v : pyval) : bool :=
  match v with
  | PyList _ | PyDict _ => false
  | _ => true
  end.

Definition pair_eq (a b : pyval * pyval) : bool :=
  py_eq (fst a) (fst b) && py_eq (snd a) (snd b).

Definition index : Type := list ((pyval * pyval) * dict).

Fixpoint index_into (data : list dict) (acc : index) : result index :=
  match data with
  | [] => Ok acc
  | p :: rest =>
      g <- getitem p "gene_id" ;;
      t <- getitem p "transcript_id" ;;
      if hashable g && hashable t
      then index_into rest (assoc_set pair_eq (g, t) p acc)
      else Raise TypeError
  end.

(** [{(p["gene_id"], p["transcript_id"]): p for p in data}] *)
Definition index_by_key (data : list dict) : result index := index_into data [].

Definition key_set_eq (m1 m2 : index) : bool :=
  forallb (fun kv => assoc_mem pair_eq (fst kv) m2) m1
  && forallb (fun kv => assoc_mem pair_eq (fst kv) m1) m2.

Fixpoint compare_fields (fields : list string) (inp out : dict)
  : result (option message) :=
  match fields with
  | [] => Ok None
  | field :: rest =>
      a <- getitem inp field ;;
      b <- getitem out field ;;
      if py_neq a b then Ok (Some (FieldDifference field))
      else compare_fields rest inp out
  end.

Fixpoint compare_pdb_pairs (i : nat) (pairs : list (pyval * pyval))
  : result (option message) :=
  match pairs with
  | [] => Ok None
  | (p1, p2) :: rest =>
      a <- subscript p1 "pdb_id" ;;
      b <- subscript p2 "pdb_id" ;;
      if py_neq a b then Ok (Some (PdbIdMismatch i))
      else
        c <- subscript p1 "content" ;;
        d <- subscript p2 "content" ;;
        if py_neq c d then Ok (Some (PdbContentMismatch i))
        else compare_pdb_pairs (S i) rest
  end.

(** The body of the loop over the keys of the first map. *)
Definition compare_entry (inp out : dict) : result (option message) :=
  r <- compare_fields ["sequence"; "exons"; "protein_coding"; "nmd"] inp out ;;
  match r with
  | Some m => Ok (Some m)
  | None =>
      f1 <- getitem inp "pdb_files" ;;
      n1 <- len f1 ;;
      f2 <- getitem out "pdb_files" ;;
      n2 <- len f2 ;;
      if negb (n1 =? n2)%nat then Ok (Some PdbCountDifference)
      else
        l1 <- iter f1 ;;
        l2 <- iter f2 ;;
        compare_pdb_pairs 0 (zip l1 l2)
  end.

Fixpoint compare_maps (entries : index) (out_map : index) : result (bool * message) :=
  match entries with
  | [] => Ok (true, Passed)
  | (key, inp) :: rest =>
      out <- match assoc_get pair_eq key out_map with
             | Some o => Ok o
             | None => Raise KeyError
             end ;;
      r <- compare_entry inp out ;;
      match r with
      | Some m => Ok (false, m)
      | None => compare_maps rest out_map
      end
  end.

Definition compare_proteins (input_data output_data : list dict)
  : result (bool * message) :=
  in_map <- index_by_key input_data ;;
  out_map <- index_by_key output_data ;;
  if negb (key_set_eq in_map out_map) then Ok (false, KeyMismatch)
  else compare_maps in_map out_map.

(** [compare_pkl_files(file1, file2)], on the collections the two files
    hold. *)
Definition compare_pkl_files (data1 data2 : list dict) : result (bool * message) :=
  map1 <- index_by_key data1 ;;
  map2 <- index_by_key data2 ;;
  if negb (key_set_eq map1 map2) then Ok (false, KeyMismatch)
  else compare_maps map1 map2.

(** [quick_sanity_check]: prints the two lengths and the keys of the two
    first records. *)
Definition quick_sanity_check (input_data output_data : list dict)
  : result (nat * nat * list string * list string) :=
  first_in <- match input_data with e :: _ => Ok e | [] => Raise IndexError end ;;
  first_out <- match output_data with e :: _ => Ok e | [] => Raise IndexError end ;;
  Ok (List.length input_data, List.length output_data, keys first_in, keys first_out).

(** [sum(len(p["pdb_files"]) for p in data)] *)
Fixpoint total_pdbs (data : list dict) : result nat :=
  match data with
  | [] => Ok 0
  | p :: rest =>
      f <- getitem p "pdb_files" ;;
      n <- len f ;;
      m <- total_pdbs rest ;;
      Ok (n + m)
  end.

(** [compare_total_pdbs]: the verdict and the two totals it prints. *)
Definition compare_total_pdbs (input_data output_data : list dict)
  : result (bool * (nat * nat)) :=
  input_total <- total_pdbs input_data ;;
  output_total <- total_pdbs output_data ;;
  Ok ((input_total =? output_total)%nat, (input_total, output_total)).

Definition hash_protein (protein : dict) : result string :=
  gene_id <- getitem protein "gene_id" ;;
  u1 <- encode gene_id ;;
  transcript_id <- getitem protein "transcript_id" ;;
  u2 <- encode transcript_id ;;
  sequence <- getitem protein "sequence" ;;
  u3 <- encode (py_or sequence (PyStr "")) ;;
  exons <- getitem protein "exons" ;;
  let u4 := Pickle.dumps exons in
  protein_coding <- getitem protein "protein_coding" ;;
  let u5 := list_byte_of_string (Repr.str protein_coding) in
  nmd <- getitem protein "nmd" ;;
  let u6 := list_byte_of_string (Repr.str nmd) in
  pdb_files <- getitem protein "pdb_files" ;;
  pdbs <- iter pdb_files ;;
  u7 <- mapM Pipeline.hash_pdb pdbs ;;
  Ok (SHA256.hexdigest (u1 ++ u2 ++ u3 ++ u4 ++ u5 ++ u6 ++ List.concat u7)).

Fixpoint compare_hashes (i : nat) (pairs : list (dict * dict)) : result (bool * message) :=
  match pairs with
  | [] => Ok (true, Passed)
  | (p1, p2) :: rest =>
      h1 <- hash_protein p1 ;;
      h2 <- hash_protein p2 ;;
      if negb (String.eqb h1 h2) then Ok (false, MismatchDetectedAt i)
      else compare_hashes (S i) rest
  end.

Definition proof_compare_pkl (data1 data2 : list dict) : result (bool * message) :=
  if negb (List.length data1 =? List.length data2)%nat
  then Ok (false, DifferentNumber (List.length data1) (List.length data2))
  else compare_hashes 0 (zip data1 data2).

(** The [__main__] block, on the two collections loaded from the files:
    the verdicts of the four checks that return one, in the order they
    run. *)
Definition main (input_data output_data : list dict) : result (list bool) :=
  quick_sanity_check input_data output_data ;;;
  v1 <- compare_total_pdbs input_data output_data ;;
  v2 <- compare_proteins input_data output_data ;;
  v3 <- compare_pkl_files input_data output_data ;;
  v4 <- proof_compare_pkl input_data output_data ;;
  Ok [fst v1; fst v2; fst v3; fst v4].

End Checker.

(* ================================================================== *)
(** ** 03_pdb_filter_geneid_transcriptid_v01.py *)

Module Filter.

(** [detect_other_columns(engine, table_name)] *)
Definition detect_other_columns (t : PG.table) : result (list string) :=
  cols <- PG.result_columns t ;;
  Ok (filter (fun c => negb (existsb (String.eqb c)
                               ["protein_index"; "pdb_ids"; "pdb_files"])) cols).

Fixpoint copy_columns (other_columns : list string) (row : PG.series)
    (protein_entry : dict) : result dict :=
  match other_columns with
  | [] => Ok protein_entry
  | col :: rest =>
      v <- PG.column row col ;;
      let value := if String.eqb col "exons" then py_or v (PyList []) else v in
      copy_columns rest row (assoc_set String.eqb col value protein_entry)
  end.

(** The body of the loop of [rows_to_pkl]. *)
Definition row_to_entry (other_columns : list string) (row : PG.series) : result dict :=
  ids <- PG.column row "pdb_ids" ;;
  n_ids <- len (py_or ids (PyList [])) ;;
  files <- PG.column row "pdb_files" ;;
  n_files <- len (py_or files (PyList [])) ;;
  if negb (n_ids =? n_files)%nat then Raise AssertionError
  else
    protein_entry <- copy_columns other_columns row [] ;;
    pdbs <- Pipeline.rebuild_pdbs row ;;
    Ok (assoc_set String.eqb "pdb_files" pdbs protein_entry).

(** [rows_to_pkl(df, other_columns, output_path)]: the collection written. *)
Definition rows_to_pkl (df : list PG.series) (other_columns : list string)
  : result (list dict * message) :=
  data_out <- mapM (row_to_entry other_columns) df ;;
  Ok (data_out, Exported (List.length data_out)).

(** [export_by_gene]: [None] when no row matches (nothing is written),
    otherwise what [rows_to_pkl] writes. *)
Definition export_by_gene (t : PG.table) (gene_id : string)
    (other_columns : list string) : result (option (list dict * message)) :=
  df <- PG.select_where_ordered t [("gene_id", gene_id)] ;;
  match df with
  | [] => Ok None
  | _ => out <- rows_to_pkl df other_columns ;; Ok (Some out)
  end.

(** [export_by_gene_transcript] *)
Definition export_by_gene_transcript (t : PG.table) (gene_id transcript_id : string)
    (other_columns : list string) : result (option (list dict * message)) :=
  df <- PG.select_where_ordered t
          [("gene_id", gene_id); ("transcript_id", transcript_id)] ;;
  match df with
  | [] => Ok None
  | _ => out <- rows_to_pkl df other_columns ;; Ok (Some out)
  end.

End Filter.

(* ================================================================== *)
(** * Properties *)

(** Library code is evaluated on concrete inputs only. *)
Arguments SHA256.hexdigest : simpl never.
Arguments Pickle.dumps : simpl never.
Arguments Repr.str : simpl never.
Arguments Base64.b64encode : simpl never.
Arguments list_byte_of_string : simpl never.

(** ** The error monad and association lists *)

Lemma bind_ok {A B : Type} (m : result A) (f : A -> result B) (b : B) :
  bind m f = Ok b -> exists a, m = Ok a /\ f a = Ok b.
Proof.
  destruct m as [a|e]; simpl; intros H; [exists a; split; [reflexivity|exact H]|discriminate].
Qed.

(** Splits a hypothesis [x <- m ;; k = Ok v] into [m = Ok x] and [k = Ok v]. *)
Ltac bind_inv H :=
  let a := fresh "a" in
  let Ha := fresh "Hm" in
  apply bind_ok in H; destruct H as [a [Ha H]].

Lemma mapM_length {A B : Type} (f : A -> result B) (l : list A) (out : list B) :
  mapM f l = Ok out -> List.length out = List.length l.
Proof.
  revert out; induction l as [|x r IH]; simpl; intros out H.
  - injection H as <-. reflexivity.
  - bind_inv H. bind_inv H. injection H as <-. simpl. f_equal. apply IH. assumption.
Qed.

Lemma mapM_ext_in {A B : Type} (f g : A -> result B) (l : list A) :
  (forall x, In x l -> f x = g x) -> mapM f l = mapM g l.
Proof.
  induction l as [|x r IH]; simpl; intros H; [reflexivity|].
  rewrite (H x (or_introl eq_refl)), IH; [reflexivity|].
  intros y Hy. apply H. right. exact Hy.
Qed.

Lemma mapM_all_ok {A B : Type} (f : A -> result B) (g : A -> B) (l : list A) :
  (forall x, In x l -> f x = Ok (g x)) -> mapM f l = Ok (map g l).
Proof.
  induction l as [|x r IH]; simpl; intros H; [reflexivity|].
  rewrite (H x (or_introl eq_refl)). simpl.
  rewrite IH; [reflexivity|]. intros y Hy. apply H. right. exact Hy.
Qed.

Section AssocFacts.
Context {V : Type}.
Implicit Types (d : list (string * V)) (k : string) (v : V).

Lemma assoc_get_set_same d k v :
  assoc_get String.eqb k (assoc_set String.eqb k v d) = Some v.
Proof.
  induction d as [|[k' v'] r IH]; simpl.
  - rewrite String.eqb_refl. reflexivity.
  - destruct (String.eqb k k') eqn:E; simpl; rewrite E; [reflexivity|exact IH].
Qed.

Lemma assoc_get_set_other d k k' v :
  k <> k' ->
  assoc_get String.eqb k (assoc_set String.eqb k' v d) = assoc_get String.eqb k d.
Proof.
  intros Hne. induction d as [|[k0 v0] r IH]; simpl.
  - destruct (String.eqb k k') eqn:E; [apply String.eqb_eq in E; contradiction|reflexivity].
  - destruct (String.eqb k' k0) eqn:E; simpl.
    + apply String.eqb_eq in E. subst k0.
      destruct (String.eqb k k') eqn:E'; [apply String.eqb_eq in E'; contradiction|reflexivity].
    + rewrite IH. reflexivity.
Qed.

Lemma assoc_set_fresh d k v :
  assoc_get String.eqb k d = None -> assoc_set String.eqb k v d = d ++ [(k, v)].
Proof.
  induction d as [|[k' v'] r IH]; simpl; intros H; [reflexivity|].
  destruct (String.eqb k k'); [discriminate|]. rewrite IH by exact H. reflexivity.
Qed.

Lemma assoc_get_app_none d d' k :
  assoc_get String.eqb k d = None ->
  assoc_get String.eqb k (d ++ d') = assoc_get String.eqb k d'.
Proof.
  induction d as [|[k' v'] r IH]; simpl; intros H; [reflexivity|].
  destruct (String.eqb k k'); [discriminate|]. apply IH. exact H.
Qed.

Lemma assoc_get_none_iff d k :
  assoc_get String.eqb k d = None <-> ~ In k (map fst d).
Proof.
  induction d as [|[k' v'] r IH]; simpl.
  - split; [intros _ []|reflexivity].
  - destruct (String.eqb k k') eqn:E.
    + apply String.eqb_eq in E. subst. split; [discriminate|intros H; exfalso; apply H; left; reflexivity].
    + apply String.eqb_neq in E. rewrite IH. split.
      * intros H [H'|H']; [congruence|contradiction].
      * intros H H'. apply H. right. exact H'.
Qed.

End AssocFacts.

(** ** C5: type inference *)

(** The shape rule of [infer_pg_type], written on its own. *)
Definition shape_type (value : pyval) : string :=
  match value with
  | PyBool _ => "BOOLEAN"
  | PyList _ | PyDict _ => "JSONB"
  | _ => "VARCHAR(400)"
  end.

Lemma infer_pg_type_by_shape_aux (key : string) (value : pyval) :
  key <> "protein_index" -> key <> "pdb_ids" -> key <> "pdb_files" ->
  Pipeline.infer_pg_type key value = shape_type value.
Proof.
  intros H1 H2 H3. unfold Pipeline.infer_pg_type.
  apply String.eqb_neq in H1, H2, H3. rewrite H1, H2, H3.
  destruct value; reflexivity.
Qed.

(** C5.  A field other than the position field and the two subrecord
    fields gets its type from the shape of the sample value alone (boolean,
    JSON container, bounded text otherwise); the position field is always
    [INTEGER NOT NULL], the subrecord identifier and content fields are
    always [TEXT[]] and [BYTEA[]], whatever the sample value. *)
Theorem infer_pg_type_by_shape (key : string) (value other : pyval) :
  key <> "protein_index" -> key <> "pdb_ids" -> key <> "pdb_files" ->
  Pipeline.infer_pg_type key value = shape_type value
  /\ Pipeline.infer_pg_type "protein_index" other = "INTEGER NOT NULL"
  /\ Pipeline.infer_pg_type "pdb_ids" other = "TEXT[]"
  /\ Pipeline.infer_pg_type "pdb_files" other = "BYTEA[]".
Proof.
  intros H1 H2 H3. split; [apply infer_pg_type_by_shape_aux; assumption|].
  repeat split.
Qed.

Lemma infer_pg_type_by_shape_witness :
  Pipeline.infer_pg_type "nmd" (PyBool true) = shape_type (PyBool true)
  /\ Pipeline.infer_pg_type "protein_index" (PyList []) = "INTEGER NOT NULL"
  /\ Pipeline.infer_pg_type "pdb_ids" (PyList []) = "TEXT[]"
  /\ Pipeline.infer_pg_type "pdb_files" (PyList []) = "BYTEA[]".
Proof.
  apply (infer_pg_type_by_shape "nmd" (PyBool true) (PyList [])); discriminate.
Defined.

(** ** C9: the two [hash_protein] functions *)

Definition hashed_fields : list string :=
  ["gene_id"; "transcript_id"; "sequence"; "exons"; "protein_coding"; "nmd"; "pdb_files"].

Definition has_field (protein : dict) (k : string) : bool :=
  match dict_lookup k protein with Some _ => true | None => false end.

Lemma get_default_present (d : dict) (k : string) (default : pyval) :
  has_field d k = true ->
  getitem d k = Ok (get_default d k default).
Proof.
  unfold has_field, getitem, get_default.
  destruct (dict_lookup k d); [reflexivity|discriminate].
Qed.

(** C9.  On a record that has all of [gene_id], [transcript_id],
    [sequence], [exons], [protein_coding], [nmd] and [pdb_files], the
    [hash_protein] of the pipeline script and the [hash_protein] of the
    checker script give the same result: the same digest, or the same
    exception when a field has a type the hashing cannot take. *)
Theorem hash_protein_scripts_agree (protein : dict) :
  forallb (has_field protein) hashed_fields = true ->
  Pipeline.hash_protein protein = Checker.hash_protein protein.
Proof.
  intros H. simpl in H.
  repeat (apply andb_prop in H; destruct H as [?H H]).
  unfold Pipeline.hash_protein, Checker.hash_protein.
  destruct (getitem protein "gene_id") as [g|]; cbn [bind]; [|reflexivity].
  destruct (encode g) as [u1|]; cbn [bind]; [|reflexivity].
  destruct (getitem protein "transcript_id") as [t|]; cbn [bind]; [|reflexivity].
  destruct (encode t) as [u2|]; cbn [bind]; [|reflexivity].
  destruct (getitem protein "sequence") as [s|]; cbn [bind]; [|reflexivity].
  destruct (encode (py_or s (PyStr ""))) as [u3|]; cbn [bind]; [|reflexivity].
  rewrite (get_default_present protein "exons" (PyList [])) by assumption.
  rewrite (get_default_present protein "protein_coding" (PyBool false)) by assumption.
  rewrite (get_default_present protein "nmd" (PyBool false)) by assumption.
  rewrite (get_default_present protein "pdb_files" (PyList [])) by assumption.
  cbn [bind]. reflexivity.
Qed.

(** ** Sample collections *)

Definition subrecord (pdb_id : string) (content : list byte) : pyval :=
  PyDict [("pdb_id", PyStr pdb_id); ("content", PyBytes content)].

Definition protein (gene_id transcript_id : string) (pdbs : list pyval) : dict :=
  [("gene_id", PyStr gene_id); ("transcript_id", PyStr transcript_id);
   ("sequence", PyStr "MKV");
   ("exons", PyList [PyList [PyInt 100; PyInt 200]; PyList [PyInt 300; PyInt 450]]);
   ("protein_coding", PyBool true); ("nmd", PyBool false);
   ("pdb_files", PyList pdbs)].

Definition protein_A : dict :=
  protein "G1" "T1" [subrecord "1ABC" [x00; x01]; subrecord "1XYZ" [xff]].

Definition protein_B : dict := protein "G1" "T2" [].

Lemma hash_protein_scripts_agree_witness :
  Pipeline.hash_protein protein_A = Checker.hash_protein protein_A.
Proof.
  apply hash_protein_scripts_agree. reflexivity.
Defined.

(** ** C8: what the persist step returns and reports *)

Lemma insert_loop_total (other : list string) (data : list dict) :
  forall t idx total t' total',
    Pipeline.insert_loop other t idx total data = Ok (t', total') ->
    PG.schema t' = PG.schema t
    /\ List.length (PG.rows t') <= List.length (PG.rows t) + List.length data
    /\ total <= total'.
Proof.
  induction data as [|entry rest IH]; simpl; intros t idx total t' total' H.
  - injection H as <- <-. repeat split; lia.
  - bind_inv H. bind_inv H.
    apply IH in H. destruct H as [Hs [Hl Ht]].
    unfold PG.execute_insert in Hm0. bind_inv Hm0.
    destruct (negb (PG.not_null_ok t a1)); [discriminate|].
    destruct (PG.conflicts t a1); injection Hm0 as <-; simpl in *.
    + repeat split; [assumption|lia|lia].
    + rewrite length_app in Hl. simpl in Hl. repeat split; [assumption|lia|lia].
Qed.

(** C8, as the code has it.  [insert_proteins_with_pdbs] has no [return]
    statement: a call that completes returns [None].  The number of records
    attempted, [len(data)], is what its closing message reports, whatever
    the number of rows the table gained (at most [len(data)], fewer when
    inserts were skipped on a key conflict). *)
Theorem insert_reports_attempted (other : list string) (t : PG.table)
    (data : list dict) (ins : Pipeline.inserted) :
  Pipeline.insert_proteins_with_pdbs other t data = Ok ins ->
  Pipeline.returned ins = PyNone
  /\ (exists total_pdbs, Pipeline.printed ins = Inserted (List.length data) total_pdbs)
  /\ List.length (PG.rows (Pipeline.committed ins))
     <= List.length (PG.rows t) + List.length data.
Proof.
  unfold Pipeline.insert_proteins_with_pdbs. intros H.
  bind_inv H. injection H as <-. simpl.
  destruct a as [t' total]. apply insert_loop_total in Hm.
  split; [reflexivity|]. split; [exists total; reflexivity|]. simpl. tauto.
Qed.

(** A fresh table for a collection, as STEP 3 creates it. *)
Definition fresh_table (first_entry : dict) : PG.table :=
  PG.mk_table (Pipeline.col_defs first_entry) [].

Definition returned_of (r : result Pipeline.inserted) : result pyval :=
  ins <- r ;; Ok (Pipeline.returned ins).

Definition rows_after (r : result Pipeline.inserted) : result nat :=
  ins <- r ;; Ok (List.length (PG.rows (Pipeline.committed ins))).

Lemma insert_reports_attempted_witness :
  exists ins,
    Pipeline.insert_proteins_with_pdbs (Pipeline.other_columns protein_A)
      (fresh_table protein_A) [protein_A; protein_B; protein_A] = Ok ins
    /\ Pipeline.returned ins = PyNone
    /\ (exists total_pdbs, Pipeline.printed ins = Inserted 3 total_pdbs)
    /\ List.length (PG.rows (Pipeline.committed ins)) <= 0 + 3.
Proof.
  eexists. split.
  - vm_compute. reflexivity.
  - apply (insert_reports_attempted (Pipeline.other_columns protein_A)
             (fresh_table protein_A) [protein_A; protein_B; protein_A]).
    vm_compute. reflexivity.
Defined.

(** C8 as stated fails: two records with the same identity key are
    attempted, one row is stored, and the call returns [None], not 2. *)
Lemma insert_returns_none_not_count :
  let other := Pipeline.other_columns protein_A in
  let r := Pipeline.insert_proteins_with_pdbs other (fresh_table protein_A)
             [protein_A; protein_A] in
  returned_of r = Ok PyNone /\ rows_after r = Ok 1 /\ PyNone <> PyInt 2.
Proof.
  vm_compute. repeat split. discriminate.
Qed.

(** ** C6: the ordered fingerprint check on swapped records *)

Definition hashes (p : dict) : bool := is_ok (Checker.hash_protein p).

Lemma zip_same_prefix {A : Type} (pre xs ys : list A) :
  zip (pre ++ xs) (pre ++ ys) = zip pre pre ++ zip xs ys.
Proof.
  induction pre as [|x r IH]; simpl; [reflexivity|]. rewrite IH. reflexivity.
Qed.

Lemma compare_hashes_same_prefix (pre : list dict) (rest : list (dict * dict)) :
  forall i,
    forallb hashes pre = true ->
    Checker.compare_hashes i (zip pre pre ++ rest)
    = Checker.compare_hashes (i + List.length pre) rest.
Proof.
  induction pre as [|p r IH]; simpl; intros i H.
  - rewrite Nat.add_0_r. reflexivity.
  - apply andb_prop in H. destruct H as [Hp Hr].
    unfold hashes in Hp. destruct (Checker.hash_protein p) as [h|]; [simpl|discriminate].
    rewrite String.eqb_refl. simpl. rewrite IH by exact Hr.
    f_equal. lia.
Qed.

Lemma compare_hashes_identical (l : list dict) (i : nat) :
  forallb hashes l = true ->
  Checker.compare_hashes i (zip l l) = Ok (true, Passed).
Proof.
  intros H. rewrite <- (app_nil_r (zip l l)).
  rewrite compare_hashes_same_prefix by exact H. reflexivity.
Qed.

(** Two different records whose identity fields concatenate to the same
    bytes: [("AB", "C")] and [("A", "BC")]. *)
Definition protein_AB_C : dict := protein "AB" "C" [].
Definition protein_A_BC : dict := protein "A" "BC" [].

Definition verdict_of (r : result (bool * message)) : result bool :=
  v <- r ;; Ok (fst v).

(** C6.  The claim holds of what the checker announces ([Check 5:
    ... order-preserving], [PROOF PASSED: PKL files are identical (order +
    content)]) and fails on the code: [hash_protein] feeds the fields to the
    digest one after the other with nothing between them.  The two
    collections below hold the same two records under the same keys (the set
    and field checks pass), at swapped positions, and the ordered fingerprint
    check passes. *)
Theorem swapped_records_undetected :
  let c1 := [protein_AB_C; protein_A_BC] in
  let c2 := [protein_A_BC; protein_AB_C] in
  verdict_of (Checker.compare_proteins c1 c2) = Ok true
  /\ verdict_of (Checker.compare_pkl_files c1 c2) = Ok true
  /\ nth_error c1 0 = nth_error c2 1 /\ nth_error c1 1 = nth_error c2 0
  /\ nth_error c1 0 <> nth_error c1 1
  /\ verdict_of (Checker.proof_compare_pkl c1 c2) = Ok true.
Proof.
  vm_compute. repeat split. discriminate.
Qed.

(** ** C10: indexing by identity key *)

Lemma bytes_eqb_eq (x y : list byte) : bytes_eqb x y = true <-> x = y.
Proof.
  unfold bytes_eqb. destruct (list_eq_dec Byte.byte_eq_dec x y); split; congruence.
Qed.

Ltac eqb_to_eq :=
  repeat match goal with
    | H : (_ =? _)%Z = true |- _ => apply Z.eqb_eq in H
    | H : String.eqb _ _ = true |- _ => apply String.eqb_eq in H
    | H : Bool.eqb _ _ = true |- _ => apply Bool.eqb_prop in H
    | H : bytes_eqb _ _ = true |- _ => apply bytes_eqb_eq in H
    end.

Lemma py_eq_hashable_trans (a b c : pyval) :
  Checker.hashable a = true -> Checker.hashable b = true -> Checker.hashable c = true ->
  py_eq a b = true -> py_eq b c = true -> py_eq a c = true.
Proof.
  intros Ha Hb Hc Hab Hbc.
  destruct a, b; simpl in *; try discriminate;
    destruct c; simpl in *; try discriminate; eqb_to_eq; subst;
    try reflexivity;
    try (apply Z.eqb_eq); try (apply String.eqb_eq); try (apply bytes_eqb_eq);
    try reflexivity;
    repeat match goal with b : bool |- _ => destruct b end;
    simpl in *; try reflexivity; try lia; try discriminate.
Qed.

Lemma py_eq_hashable_sym (a b : pyval) :
  Checker.hashable a = true -> Checker.hashable b = true ->
  py_eq a b = py_eq b a.
Proof.
  intros Ha Hb.
  destruct a, b; simpl in *; try discriminate; try reflexivity.
  - destruct b, b0; reflexivity.
  - apply Z.eqb_sym.
  - apply String.eqb_sym.
  - unfold bytes_eqb.
    destruct (list_eq_dec Byte.byte_eq_dec bs bs0), (list_eq_dec Byte.byte_eq_dec bs0 bs);
      congruence.
Qed.

Definition hashable_pair (k : pyval * pyval) : bool :=
  Checker.hashable (fst k) && Checker.hashable (snd k).

Lemma pair_eq_trans (a b c : pyval * pyval) :
  hashable_pair a = true -> hashable_pair b = true -> hashable_pair c = true ->
  Checker.pair_eq a b = true -> Checker.pair_eq b c = true -> Checker.pair_eq a c = true.
Proof.
  unfold hashable_pair, Checker.pair_eq. intros Ha Hb Hc Hab Hbc.
  apply andb_prop in Ha, Hb, Hc, Hab, Hbc.
  destruct Ha as [Ha1 Ha2], Hb as [Hb1 Hb2], Hc as [Hc1 Hc2],
           Hab as [Hab1 Hab2], Hbc as [Hbc1 Hbc2].
  apply andb_true_intro; split.
  - exact (py_eq_hashable_trans _ _ _ Ha1 Hb1 Hc1 Hab1 Hbc1).
  - exact (py_eq_hashable_trans _ _ _ Ha2 Hb2 Hc2 Hab2 Hbc2).
Qed.

Lemma pair_eq_sym (a b : pyval * pyval) :
  hashable_pair a = true -> hashable_pair b = true ->
  Checker.pair_eq a b = Checker.pair_eq b a.
Proof.
  unfold hashable_pair, Checker.pair_eq. intros Ha Hb.
  apply andb_prop in Ha, Hb. destruct Ha, Hb.
  f_equal; apply py_eq_hashable_sym; assumption.
Qed.

Definition hashable_keys (m : Checker.index) : Prop :=
  Forall (fun kv => hashable_pair (fst kv) = true) m.

Lemma index_get_set (m : Checker.index) (k k0 : pyval * pyval) (v : dict) :
  hashable_keys m -> hashable_pair k = true -> hashable_pair k0 = true ->
  assoc_get Checker.pair_eq k (assoc_set Checker.pair_eq k0 v m)
  = if Checker.pair_eq k k0 then Some v else assoc_get Checker.pair_eq k m.
Proof.
  intros Hm Hk Hk0. induction Hm as [|[k1 v1] r Hk1 Hr IH]; simpl in *.
  - reflexivity.
  - destruct (Checker.pair_eq k0 k1) eqn:E01; simpl.
    + destruct (Checker.pair_eq k k0) eqn:E.
      * rewrite (pair_eq_trans k k0 k1) by assumption. reflexivity.
      * destruct (Checker.pair_eq k k1) eqn:E1; [|reflexivity].
        rewrite (pair_eq_sym k0 k1) in E01 by assumption.
        rewrite (pair_eq_trans k k1 k0) in E by assumption. discriminate.
    + destruct (Checker.pair_eq k k1) eqn:E1; [|exact IH].
      destruct (Checker.pair_eq k k0) eqn:E; [|reflexivity].
      rewrite (pair_eq_sym k k0) in E by assumption.
      rewrite (pair_eq_trans k0 k k1) in E01 by assumption. discriminate.
Qed.

Lemma hashable_keys_set (m : Checker.index) (k : pyval * pyval) (v : dict) :
  hashable_keys m -> hashable_pair k = true ->
  hashable_keys (assoc_set Checker.pair_eq k v m).
Proof.
  intros Hm Hk. induction Hm as [|[k1 v1] r Hk1 Hr IH]; simpl.
  - constructor; [exact Hk|constructor].
  - destruct (Checker.pair_eq k k1); constructor; assumption.
Qed.

(** The identity key of a record, and the last record of a collection that
    carries a given key. *)
Definition record_key (p : dict) : option (pyval * pyval) :=
  match dict_lookup "gene_id" p, dict_lookup "transcript_id" p with
  | Some g, Some t => Some (g, t)
  | _, _ => None
  end.

Definition carries (key : pyval * pyval) (p : dict) : bool :=
  match record_key p with
  | Some k => Checker.pair_eq key k
  | None => false
  end.

Definition last_with_key (key : pyval * pyval) (data : list dict) : option dict :=
  find (carries key) (rev data).

Lemma find_app {A : Type} (f : A -> bool) (l l' : list A) :
  find f (l ++ l') = match find f l with Some x => Some x | None => find f l' end.
Proof.
  induction l as [|x r IH]; simpl; [reflexivity|]. destruct (f x); [reflexivity|exact IH].
Qed.

Lemma index_into_last (data : list dict) :
  forall acc m key,
    Checker.index_into data acc = Ok m ->
    hashable_keys acc -> hashable_pair key = true ->
    assoc_get Checker.pair_eq key m
    = match last_with_key key data with
      | Some p => Some p
      | None => assoc_get Checker.pair_eq key acc
      end.
Proof.
  induction data as [|p rest IH]; simpl; intros acc m key H Hacc Hkey.
  - injection H as <-. reflexivity.
  - bind_inv H. bind_inv H.
    destruct (Checker.hashable a && Checker.hashable a0) eqn:Hh; [|discriminate].
    rewrite (IH _ _ key H) by (try apply hashable_keys_set; assumption).
    unfold last_with_key. simpl. rewrite find_app. simpl.
    destruct (find (carries key) (rev rest)); [reflexivity|].
    rewrite index_get_set by assumption.
    unfold carries, record_key. unfold getitem in Hm, Hm0.
    destruct (dict_lookup "gene_id" p); [|discriminate].
    destruct (dict_lookup "transcript_id" p); [|discriminate].
    injection Hm as ->. injection Hm0 as ->.
    destruct (Checker.pair_eq key (a, a0)); reflexivity.
Qed.

(** C10.  [index_by_key] keeps, for every identity key, the last record of
    the collection that carries it; so [compare_proteins] and
    [compare_pkl_files] pass on a collection that holds a record twice
    against one that holds it once, although the lengths differ. *)
Theorem duplicates_hidden_by_index :
  (forall data m key,
      Checker.index_by_key data = Ok m -> hashable_pair key = true ->
      assoc_get Checker.pair_eq key m = last_with_key key data)
  /\ (exists r : dict,
        List.length [r; r] <> List.length [r]
        /\ verdict_of (Checker.compare_proteins [r; r] [r]) = Ok true
        /\ verdict_of (Checker.compare_pkl_files [r; r] [r]) = Ok true).
Proof.
  split.
  - intros data m key H Hkey.
    rewrite (index_into_last data [] m key H) by (try constructor; assumption).
    destruct (last_with_key key data); reflexivity.
  - exists protein_A. vm_compute. repeat split. discriminate.
Qed.

Lemma duplicates_hidden_by_index_witness :
  (m <- Checker.index_by_key [protein_A; protein_B; protein "G1" "T1" []] ;;
   Ok (assoc_get Checker.pair_eq (PyStr "G1", PyStr "T1") m))
  = Ok (Some (protein "G1" "T1" [])).
Proof.
  destruct (Checker.index_by_key [protein_A; protein_B; protein "G1" "T1" []])
    as [m|e] eqn:E; [|vm_compute in E; discriminate].
  simpl.
  rewrite (proj1 duplicates_hidden_by_index _ m (PyStr "G1", PyStr "T1") E eq_refl).
  reflexivity.
Defined.

(** ** Rows: what the writer builds and what the readers rebuild *)

(** The row stored for a record (the spec's [toRow] followed by the
    conversion of the parameters), in a table created for [first_entry];
    and the record rebuilt from a stored row (the spec's [fromRow]). *)
Definition to_row (first_entry : dict) (idx : nat) (entry : dict) : result PG.row :=
  row_dict <- Pipeline.build_row_dict (Pipeline.other_columns first_entry) idx entry ;;
  PG.build_row (fresh_table first_entry)
    (Pipeline.columns_of (Pipeline.other_columns first_entry)) row_dict.

Definition from_row (key_order : list string) (r : PG.row) : result dict :=
  Pipeline.rebuild_entry key_order (PG.fetch r) [].

(** The identifier and the payload of a subrecord. *)
Definition is_subrecord (p : pyval) (ic : string * list byte) : Prop :=
  subscript p "pdb_id" = Ok (PyStr (fst ic))
  /\ subscript p "content" = Ok (PyBytes (snd ic)).

Definition subrecord_of (ic : string * list byte) : pyval :=
  subrecord (fst ic) (snd ic).

Lemma set_fields_other_key (other : list string) (entry : dict) (k : string) :
  forall acc row_dict,
    Pipeline.set_fields other entry acc = Ok row_dict ->
    ~ In k other ->
    assoc_get String.eqb k row_dict = assoc_get String.eqb k acc.
Proof.
  induction other as [|key rest IH]; simpl; intros acc row_dict H Hk.
  - injection H as <-. reflexivity.
  - bind_inv H. rewrite (IH _ _ H) by tauto.
    apply assoc_get_set_other. intros ->. apply Hk. left. reflexivity.
Qed.

Lemma set_fields_key (other : list string) (entry : dict) (k : string) :
  forall acc row_dict,
    Pipeline.set_fields other entry acc = Ok row_dict ->
    In k other ->
    exists p, Pipeline.field_param (get entry k) = Ok p
              /\ assoc_get String.eqb k row_dict = Some p.
Proof.
  induction other as [|key rest IH]; simpl; intros acc row_dict H Hk; [contradiction|].
  bind_inv H.
  destruct (in_dec string_dec k rest) as [Hin|Hout].
  - exact (IH _ _ H Hin).
  - destruct Hk as [->|Hk]; [|contradiction].
    exists a. split; [exact Hm|].
    rewrite (set_fields_other_key _ _ _ _ _ H Hout).
    apply assoc_get_set_same.
Qed.

(** What [build_row_dict] leaves under each key. *)
Lemma build_row_dict_spec (other : list string) (idx : nat) (entry : dict)
    (row_dict : list (string * PG.param)) :
  Pipeline.build_row_dict other idx entry = Ok row_dict ->
  exists pdbs ids contents,
    iter (get_default entry "pdb_files" (PyList [])) = Ok pdbs
    /\ mapM (fun p => subscript p "pdb_id") pdbs = Ok ids
    /\ mapM (fun p => subscript p "content") pdbs = Ok contents
    /\ assoc_get String.eqb "pdb_ids" row_dict = Some (PG.Param (PyList ids))
    /\ assoc_get String.eqb "pdb_files" row_dict = Some (PG.Binaries contents)
    /\ (forall k, k <> "pdb_ids" -> k <> "pdb_files" -> In k other ->
          exists p, Pipeline.field_param (get entry k) = Ok p
                    /\ assoc_get String.eqb k row_dict = Some p)
    /\ (~ In "protein_index" other ->
          assoc_get String.eqb "protein_index" row_dict
          = Some (PG.Param (PyInt (Z.of_nat idx)))).
Proof.
  unfold Pipeline.build_row_dict. intros H.
  bind_inv H. bind_inv H. bind_inv H. bind_inv H. injection H as <-.
  exists a0, a1, a2. repeat split; try assumption.
  - rewrite assoc_get_set_other by discriminate. apply assoc_get_set_same.
  - apply assoc_get_set_same.
  - intros k Hk1 Hk2 Hin.
    destruct (set_fields_key _ _ _ _ _ Hm Hin) as [p [Hp Hg]].
    exists p. split; [exact Hp|].
    rewrite !assoc_get_set_other by assumption. exact Hg.
  - intros Hpi. rewrite !assoc_get_set_other by discriminate.
    rewrite (set_fields_other_key _ _ _ _ _ Hm Hpi). reflexivity.
Qed.

(** ** C7: arity of the two subrecord arrays *)

(** A stored row whose identifier array is longer than its content array,
    as another writer could leave it in the table. *)
Definition lopsided_row : PG.row :=
  [("protein_index", PG.CInt 0); ("gene_id", PG.CText "G1");
   ("transcript_id", PG.CText "T1"); ("sequence", PG.CText "MKV");
   ("exons", PG.CJsonb (Json.JArr [])); ("protein_coding", PG.CBool true);
   ("nmd", PG.CBool false);
   ("pdb_ids", PG.CTextArr ["1ABC"; "1XYZ"]);
   ("pdb_files", PG.CByteaArr [[x00; x01]])].

Definition pdb_files_of (r : result (list dict * message)) : result (list pyval) :=
  out <- r ;; Ok (map (fun e => get e "pdb_files") (fst out)).


(** ** C3: the subrecord list through a row and back *)

(** The cell a statement leaves in column [d]. *)
Definition cell_source (stmt_columns : list string)
    (row_dict : list (string * PG.param)) (d : PG.col_def) : result PG.cell :=
  if existsb (String.eqb (PG.col_name d)) stmt_columns then
    match assoc_get String.eqb (PG.col_name d) row_dict with
    | Some p => PG.store_cell (PG.col_type d) p
    | None => Raise KeyError
    end
  else Ok PG.CNull.

Lemma build_row_cells (t : PG.table) (cols : list string)
    (row_dict : list (string * PG.param)) (r : PG.row) :
  PG.build_row t cols row_dict = Ok r ->
  mapM (fun d => c <- cell_source cols row_dict d ;; Ok (PG.col_name d, c))
       (PG.schema t) = Ok r.
Proof.
  unfold PG.build_row. destruct (forallb _ cols); [|discriminate].
  intros <-. apply mapM_ext_in. intros d _. unfold cell_source.
  destruct (existsb _ cols); [|reflexivity].
  destruct (assoc_get String.eqb (PG.col_name d) row_dict); reflexivity.
Qed.

Lemma named_cells_lookup (h : PG.col_def -> result PG.cell) (defs : list PG.col_def) :
  forall out k,
    mapM (fun d => c <- h d ;; Ok (PG.col_name d, c)) defs = Ok out ->
    match find (fun d => String.eqb k (PG.col_name d)) defs with
    | Some d => exists c, h d = Ok c /\ assoc_get String.eqb k out = Some c
    | None => assoc_get String.eqb k out = None
    end.
Proof.
  induction defs as [|d rest IH]; simpl; intros out k H.
  - injection H as <-. reflexivity.
  - bind_inv H. bind_inv H. injection H as <-. bind_inv Hm. injection Hm as <-.
    simpl. destruct (String.eqb k (PG.col_name d)).
    + exists a1. split; [assumption|reflexivity].
    + apply IH. assumption.
Qed.

Lemma find_col_def (mk : string -> PG.col_def) (cols : list string) (k : string) :
  (forall c, PG.col_name (mk c) = c) ->
  In k cols ->
  find (fun d => String.eqb k (PG.col_name d)) (map mk cols) = Some (mk k).
Proof.
  intros Hmk. induction cols as [|c rest IH]; simpl; intros Hin; [contradiction|].
  rewrite Hmk. destruct (String.eqb k c) eqn:E.
  - apply String.eqb_eq in E. subst. reflexivity.
  - apply IH. destruct Hin as [->|Hin]; [rewrite String.eqb_refl in E; discriminate|exact Hin].
Qed.

Lemma existsb_eqb_in (k : string) (l : list string) :
  In k l -> existsb (String.eqb k) l = true.
Proof.
  intros H. apply existsb_exists. exists k. split; [exact H|apply String.eqb_refl].
Qed.

Lemma in_columns_of (other : list string) (k : string) :
  In k (Pipeline.columns_of other)
  <-> k = "protein_index" \/ In k other \/ k = "pdb_ids" \/ k = "pdb_files".
Proof.
  unfold Pipeline.columns_of, Pipeline.pdb_columns. simpl. rewrite in_app_iff. simpl.
  intuition congruence.
Qed.

(** The cell stored under a column the statement names. *)
Lemma to_row_cell (first_entry entry : dict) (idx : nat) (r : PG.row) (k : string) :
  to_row first_entry idx entry = Ok r ->
  In k (Pipeline.columns_of (Pipeline.other_columns first_entry)) ->
  exists row_dict p c,
    Pipeline.build_row_dict (Pipeline.other_columns first_entry) idx entry = Ok row_dict
    /\ assoc_get String.eqb k row_dict = Some p
    /\ PG.store_cell (Pipeline.infer_pg_type k (get first_entry k)) p = Ok c
    /\ assoc_get String.eqb k r = Some c.
Proof.
  unfold to_row. intros H Hin. bind_inv H. rename a into row_dict.
  apply build_row_cells in H.
  pose proof (named_cells_lookup _ _ _ k H) as L.
  assert (F : find (fun d => String.eqb k (PG.col_name d))
                (PG.schema (fresh_table first_entry))
              = Some (PG.mk_col k (Pipeline.infer_pg_type k (get first_entry k))
                        (existsb (String.eqb k)
                           ["gene_id"; "transcript_id"; "protein_index"]))).
  { unfold fresh_table, Pipeline.col_defs. cbn [PG.schema].
    apply (find_col_def
             (fun col => PG.mk_col col (Pipeline.infer_pg_type col (get first_entry col))
                           (existsb (String.eqb col)
                              ["gene_id"; "transcript_id"; "protein_index"])));
      [reflexivity|exact Hin]. }
  rewrite F in L. destruct L as [c [Hc Hr]].
  unfold cell_source in Hc. cbn [PG.col_name PG.col_type] in Hc.
  rewrite (existsb_eqb_in k _ Hin) in Hc.
  destruct (assoc_get String.eqb k row_dict) as [p|] eqn:Hp; [|discriminate].
  exists row_dict, p, c. repeat split; assumption.
Qed.

Lemma fetch_lookup (r : PG.row) (k : string) :
  assoc_get String.eqb k (PG.fetch r)
  = option_map PG.cell_value (assoc_get String.eqb k r).
Proof.
  induction r as [|[k' c] rest IH]; simpl; [reflexivity|].
  destruct (String.eqb k k'); [reflexivity|exact IH].
Qed.

Lemma subscripts_of_subrecords (l : list pyval) (pdbs : list (string * list byte)) :
  Forall2 is_subrecord l pdbs ->
  mapM (fun p => subscript p "pdb_id") l = Ok (map (fun ic => PyStr (fst ic)) pdbs)
  /\ mapM (fun p => subscript p "content") l = Ok (map (fun ic => PyBytes (snd ic)) pdbs).
Proof.
  induction 1 as [|p ic l' pdbs' [Hi Hc] _ [IHi IHc]]; simpl; [split; reflexivity|].
  rewrite Hi, Hc, IHi, IHc. split; reflexivity.
Qed.

Lemma text_elements_of (pdbs : list (string * list byte)) (ids : list string) :
  mapM PG.text_element (map (fun ic => PyStr (fst ic)) pdbs) = Ok ids ->
  ids = map fst pdbs.
Proof.
  revert ids. induction pdbs as [|[i c] rest IH]; simpl; intros ids H.
  - injection H as <-. reflexivity.
  - bind_inv H. bind_inv H. injection H as <-.
    destruct (PG.has_nul i); [discriminate|]. injection Hm as <-.
    f_equal. apply IH. assumption.
Qed.

Lemma bytes_elements_of (pdbs : list (string * list byte)) :
  mapM as_bytes (map (fun ic => PyBytes (snd ic)) pdbs) = Ok (map snd pdbs).
Proof.
  induction pdbs as [|[i c] rest IH]; simpl; [reflexivity|]. rewrite IH. reflexivity.
Qed.

Lemma iter_list_or_empty (l : list pyval) :
  iter (py_or (PyList l) (PyList [])) = Ok l.
Proof.
  destruct l; reflexivity.
Qed.

Lemma rezip_subrecords (pdbs : list (string * list byte)) :
  mapM (fun pp => content <- to_bytes (snd pp) ;;
                  Ok (PyDict [("pdb_id", fst pp); ("content", PyBytes content)]))
       (zip (map PyStr (map fst pdbs)) (map PyBytes (map snd pdbs)))
  = Ok (map subrecord_of pdbs).
Proof.
  induction pdbs as [|[i c] rest IH]; simpl; [reflexivity|]. rewrite IH. reflexivity.
Qed.

(** The subrecord arrays of a stored row, read back. *)
Lemma rebuild_pdbs_of_row (first_entry entry : dict) (idx : nat) (r : PG.row)
    (l : list pyval) (pdbs : list (string * list byte)) :
  get_default entry "pdb_files" (PyList []) = PyList l ->
  Forall2 is_subrecord l pdbs ->
  to_row first_entry idx entry = Ok r ->
  Pipeline.rebuild_pdbs (PG.fetch r) = Ok (PyList (map subrecord_of pdbs)).
Proof.
  intros Hget Hsub Hrow.
  destruct (subscripts_of_subrecords _ _ Hsub) as [Hids Hcontents].
  assert (Hin1 : In "pdb_ids" (Pipeline.columns_of (Pipeline.other_columns first_entry)))
    by (apply in_columns_of; tauto).
  assert (Hin2 : In "pdb_files" (Pipeline.columns_of (Pipeline.other_columns first_entry)))
    by (apply in_columns_of; tauto).
  destruct (to_row_cell _ _ _ _ _ Hrow Hin1) as (rd & p1 & c1 & Hrd & Hp1 & Hc1 & Hr1).
  destruct (to_row_cell _ _ _ _ _ Hrow Hin2) as (rd' & p2 & c2 & Hrd' & Hp2 & Hc2 & Hr2).
  rewrite Hrd in Hrd'. injection Hrd' as <-.
  destruct (build_row_dict_spec _ _ _ _ Hrd)
    as (pdbs0 & ids & contents & Hiter & Hi & Hc & Hgi & Hgc & _).
  rewrite Hget in Hiter. simpl in Hiter. injection Hiter as <-.
  rewrite Hids in Hi. injection Hi as <-.
  rewrite Hcontents in Hc. injection Hc as <-.
  rewrite Hgi in Hp1. injection Hp1 as <-.
  rewrite Hgc in Hp2. injection Hp2 as <-.
  simpl in Hc1. bind_inv Hc1. injection Hc1 as <-.
  apply text_elements_of in Hm. subst a.
  simpl in Hc2. rewrite bytes_elements_of in Hc2. simpl in Hc2. injection Hc2 as <-.
  unfold Pipeline.rebuild_pdbs, PG.column.
  rewrite !fetch_lookup, Hr1, Hr2. cbn [option_map PG.cell_value bind].
  rewrite !iter_list_or_empty. cbn [bind].
  rewrite rezip_subrecords. reflexivity.
Qed.

(** The value [export_table_to_pkl] puts under a key. *)
Definition field_value (row : PG.series) (key : string) : result pyval :=
  if String.eqb key "pdb_files" then Pipeline.rebuild_pdbs row else PG.column row key.

Lemma rebuild_entry_spec (row : PG.series) (key_order : list string) :
  (forall k, In k key_order -> exists v, field_value row k = Ok v) ->
  forall acc, exists out,
    Pipeline.rebuild_entry key_order row acc = Ok out
    /\ (forall k v, In k key_order -> field_value row k = Ok v ->
          assoc_get String.eqb k out = Some v)
    /\ (forall k, ~ In k key_order ->
          assoc_get String.eqb k out = assoc_get String.eqb k acc).
Proof.
  induction key_order as [|key rest IH]; simpl; intros Hall acc.
  - exists acc. split; [reflexivity|]. split; [intros k v []|reflexivity].
  - destruct (Hall key (or_introl eq_refl)) as [v Hv].
    unfold field_value in Hv. rewrite Hv. cbn [bind].
    destruct (IH (fun k Hk => Hall k (or_intror Hk))
                 (assoc_set String.eqb key v acc)) as (out & Hout & Hin & Hnot).
    exists out. split; [exact Hout|]. split.
    + intros k w Hk Hw.
      destruct (in_dec string_dec k rest) as [Hr|Hr]; [exact (Hin k w Hr Hw)|].
      destruct Hk as [->|Hk]; [|contradiction].
      rewrite (Hnot k Hr). unfold field_value in Hw. rewrite Hv in Hw.
      injection Hw as <-. apply assoc_get_set_same.
    + intros k Hk. rewrite (Hnot k) by tauto.
      apply assoc_get_set_other. intros ->. apply Hk. left. reflexivity.
Qed.

Lemma other_columns_in (first_entry : dict) (k : string) :
  In k (keys first_entry) -> k <> "pdb_files" ->
  In k (Pipeline.other_columns first_entry).
Proof.
  intros Hin Hne. unfold Pipeline.other_columns. apply filter_In. split; [exact Hin|].
  apply String.eqb_neq in Hne. rewrite Hne. reflexivity.
Qed.



(** ** C4: running the persist step again *)

Lemma cell_eqb_refl (c : PG.cell) : PG.cell_eqb c c = true.
Proof.
  unfold PG.cell_eqb. destruct (PG.cell_eq_dec c c); [reflexivity|contradiction].
Qed.

Lemma key_eqb_refl (k : list (option PG.cell)) : PG.key_eqb k k = true.
Proof.
  induction k as [|[c|] r IH]; simpl; [reflexivity| |exact IH].
  rewrite cell_eqb_refl. exact IH.
Qed.

Lemma conflicts_incl (t T : PG.table) (r : PG.row) :
  PG.conflicts t r = true -> incl (PG.rows t) (PG.rows T) -> PG.conflicts T r = true.
Proof.
  unfold PG.conflicts. intros H Hincl.
  apply existsb_exists in H. destruct H as [r' [Hin Hk]].
  apply existsb_exists. exists r'. split; [apply Hincl; exact Hin|exact Hk].
Qed.

Lemma conflicts_in (T : PG.table) (r : PG.row) :
  In r (PG.rows T) -> PG.conflicts T r = true.
Proof.
  intros Hin. apply existsb_exists. exists r. split; [exact Hin|apply key_eqb_refl].
Qed.

(** The two outcomes of one [execute]. *)
Lemma execute_insert_spec (t t' : PG.table) (cols : list string)
    (row_dict : list (string * PG.param)) :
  PG.execute_insert t cols row_dict = Ok t' ->
  exists r,
    PG.build_row t cols row_dict = Ok r
    /\ PG.not_null_ok t r = true
    /\ ((PG.conflicts t r = true /\ t' = t)
        \/ (PG.conflicts t r = false
            /\ t' = PG.mk_table (PG.schema t) (PG.rows t ++ [r]))).
Proof.
  unfold PG.execute_insert. intros H. bind_inv H. exists a.
  split; [assumption|].
  destruct (PG.not_null_ok t a); [|discriminate]. split; [reflexivity|].
  simpl in H. destruct (PG.conflicts t a); injection H as <-; [left|right]; tauto.
Qed.

Lemma execute_insert_same_schema (t T : PG.table) (cols : list string)
    (row_dict : list (string * PG.param)) (r : PG.row) :
  PG.schema T = PG.schema t ->
  PG.build_row t cols row_dict = Ok r ->
  PG.not_null_ok t r = true ->
  PG.conflicts T r = true ->
  PG.execute_insert T cols row_dict = Ok T.
Proof.
  intros Hs Hb Hn Hc. unfold PG.execute_insert.
  unfold PG.build_row in *. rewrite Hs, Hb. cbn [bind].
  unfold PG.not_null_ok in *. rewrite Hs, Hn. simpl. rewrite Hc. reflexivity.
Qed.

Lemma insert_loop_rerun (other : list string) (data : list dict) :
  forall t idx total t' total',
    Pipeline.insert_loop other t idx total data = Ok (t', total') ->
    incl (PG.rows t) (PG.rows t')
    /\ PG.schema t' = PG.schema t
    /\ forall T total0,
         PG.schema T = PG.schema t -> incl (PG.rows t') (PG.rows T) ->
         exists total1, Pipeline.insert_loop other T idx total0 data = Ok (T, total1).
Proof.
  induction data as [|entry rest IH]; simpl; intros t idx total t' total' H.
  - injection H as <- <-. split; [apply incl_refl|]. split; [reflexivity|].
    intros T total0 _ _. exists total0. reflexivity.
  - bind_inv H. rename a into row_dict. bind_inv H. rename a into t1.
    apply IH in H. destruct H as (Hincl & Hschema & Hrerun).
    destruct (execute_insert_spec _ _ _ _ Hm0) as (r & Hb & Hn & Hcase).
    assert (H1 : incl (PG.rows t) (PG.rows t1) /\ PG.schema t1 = PG.schema t
                 /\ forall T, incl (PG.rows t1) (PG.rows T) -> PG.conflicts T r = true).
    { destruct Hcase as [[Hc ->]|[Hc ->]]; simpl.
      - split; [apply incl_refl|]. split; [reflexivity|].
        intros T HT. exact (conflicts_incl _ _ _ Hc HT).
      - split; [apply incl_appl, incl_refl|]. split; [reflexivity|].
        intros T HT. apply conflicts_in. apply HT. apply in_or_app. right. left. reflexivity. }
    destruct H1 as (Hincl1 & Hschema1 & Hconf).
    split; [exact (incl_tran Hincl1 Hincl)|].
    split; [congruence|].
    intros T total0 HsT HT. rewrite Hm. cbn [bind].
    rewrite (execute_insert_same_schema t T _ _ r HsT Hb Hn)
      by (apply Hconf; exact (incl_tran Hincl HT)).
    cbn [bind]. apply Hrerun; [congruence|exact HT].
Qed.



(** ** C2: a field value through its column and back *)

(** Induction on values, with the hypothesis on every element of a list and
    every value of a dictionary. *)
Section PyvalInduction.
Variable P : pyval -> Prop.
Hypothesis HNone : P PyNone.
Hypothesis HBool : forall b, P (PyBool b).
Hypothesis HInt : forall n, P (PyInt n).
Hypothesis HStr : forall s, P (PyStr s).
Hypothesis HBytes : forall bs, P (PyBytes bs).
Hypothesis HList : forall l, Forall P l -> P (PyList l).
Hypothesis HDict : forall d, Forall (fun kv => P (snd kv)) d -> P (PyDict d).

Fixpoint pyval_nested_ind (v : pyval) : P v :=
  match v with
  | PyNone => HNone
  | PyBool b => HBool b
  | PyInt n => HInt n
  | PyStr s => HStr s
  | PyBytes bs => HBytes bs
  | PyList l =>
      HList l ((fix go (l : list pyval) : Forall P l :=
                  match l with
                  | [] => Forall_nil P
                  | x :: r => Forall_cons x (pyval_nested_ind x) (go r)
                  end) l)
  | PyDict d =>
      HDict d ((fix go (d : list (string * pyval)) : Forall (fun kv => P (snd kv)) d :=
                  match d with
                  | [] => Forall_nil _
                  | kv :: r => Forall_cons kv (pyval_nested_ind (snd kv)) (go r)
                  end) d)
  end.
End PyvalInduction.

(** No raw bytes anywhere in the value. *)
Fixpoint bytes_free (v : pyval) : bool :=
  match v with
  | PyBytes _ => false
  | PyList l => forallb bytes_free l
  | PyDict d => forallb (fun kv => bytes_free (snd kv)) d
  | _ => true
  end.

(** Every dictionary in the value has pairwise different keys. *)
Fixpoint unique_keys (v : pyval) : bool :=
  match v with
  | PyList l => forallb unique_keys l
  | PyDict d => PG.distinct (map fst d) && forallb (fun kv => unique_keys (snd kv)) d
  | _ => true
  end.

(** What a jsonb column takes of a JSON-safe value: no NUL character in a
    text or a key, and integers [json.dumps] converts. *)
Fixpoint jsonb_accepts (v : pyval) : bool :=
  match v with
  | PyInt n => Json.digits_ok n
  | PyStr s => negb (PG.has_nul s)
  | PyList l => forallb jsonb_accepts l
  | PyDict d =>
      forallb (fun kv => negb (PG.has_nul (fst kv)) && jsonb_accepts (snd kv)) d
  | _ => true
  end.

(** The values the round trip of one field is stated for: a boolean, a text
    of at most 400 characters without NUL, a list or a dictionary without
    repeated keys that a jsonb column takes. *)
Definition storable (v : pyval) : bool :=
  match v with
  | PyBool _ => true
  | PyStr s => negb (PG.has_nul s) && (PG.utf8_length s <=? 400)%nat
  | PyList _ | PyDict _ => unique_keys v && jsonb_accepts v
  | PyNone | PyInt _ | PyBytes _ => false
  end.

(** What [export_table_to_pkl] assigns to a field that
    [insert_proteins_with_pdbs] wrote into a column typed from the value's
    own shape: the write-side encoding, the column, the read-side
    assignment. *)
Definition field_round_trip (key : string) (value : pyval) : result pyval :=
  p <- Pipeline.field_param value ;;
  c <- PG.store_cell (Pipeline.infer_pg_type key value) p ;;
  Ok (PG.cell_value c).

Lemma distinct_NoDup (l : list string) : PG.distinct l = true <-> NoDup l.
Proof.
  induction l as [|x r IH]; simpl.
  - split; [constructor|reflexivity].
  - rewrite andb_true_iff, negb_true_iff, IH. split.
    + intros [Hx Hr]. constructor; [|exact Hr]. intros Hin.
      rewrite (existsb_eqb_in x r Hin) in Hx. discriminate.
    + intros H. inversion H as [|? ? Hx Hr]; subst. split; [|exact Hr].
      destruct (existsb (String.eqb x) r) eqn:E; [|reflexivity].
      apply existsb_exists in E. destruct E as [y [Hy E]].
      apply String.eqb_eq in E. subst. contradiction.
Qed.

Section Lookup.
Context {V : Type}.
Implicit Types (l : list (string * V)).

Lemma lookup_in_nodup l k v :
  NoDup (map fst l) -> In (k, v) l -> assoc_get String.eqb k l = Some v.
Proof.
  induction l as [|[k' v'] r IH]; simpl; intros Hnd Hin; [contradiction|].
  inversion Hnd as [|? ? Hk Hr]; subst.
  destruct Hin as [E|Hin].
  - injection E as -> ->. rewrite String.eqb_refl. reflexivity.
  - destruct (String.eqb k k') eqn:E.
    + apply String.eqb_eq in E. subst. exfalso. apply Hk.
      apply (in_map fst) in Hin. exact Hin.
    + apply IH; assumption.
Qed.

Lemma fold_set_fresh l :
  forall acc,
    NoDup (map fst l) -> (forall k, In k (map fst l) -> ~ In k (map fst acc)) ->
    fold_left (fun d kv => assoc_set String.eqb (fst kv) (snd kv) d) l acc = acc ++ l.
Proof.
  induction l as [|[k v] r IH]; simpl; intros acc Hnd Hfresh.
  - rewrite app_nil_r. reflexivity.
  - inversion Hnd as [|? ? Hk Hr]; subst.
    rewrite assoc_set_fresh by (apply assoc_get_none_iff; apply Hfresh; left; reflexivity).
    rewrite IH; [rewrite <- app_assoc; reflexivity|exact Hr|].
    intros k' Hk' Hin. rewrite map_app, in_app_iff in Hin. simpl in Hin.
    destruct Hin as [Hin|[<-|[]]]; [|contradiction].
    apply (Hfresh k'); [right; exact Hk'|exact Hin].
Qed.

End Lookup.

Lemma dict_of_pairs_nodup (l : list (string * pyval)) :
  NoDup (map fst l) -> Json.dict_of_pairs l = l.
Proof.
  intros H. unfold Json.dict_of_pairs.
  rewrite fold_set_fresh; [reflexivity|exact H|intros k _ []].
Qed.

Lemma jsonb_insert_perm (k : string) (v : Json.json) (s : list (string * Json.json)) :
  ~ In k (map fst s) -> Permutation (Json.jsonb_insert k v s) ((k, v) :: s).
Proof.
  induction s as [|[k' v'] r IH]; simpl; intros Hk; [apply Permutation_refl|].
  destruct (String.eqb k k') eqn:E.
  - apply String.eqb_eq in E. subst. exfalso. apply Hk. left. reflexivity.
  - destruct (Json.key_ltb k k'); [apply Permutation_refl|].
    eapply perm_trans; [apply perm_skip, IH; tauto|apply perm_swap].
Qed.

Lemma jsonb_members_perm (ms : list (string * Json.json)) :
  forall acc,
    NoDup (map fst ms) -> (forall k, In k (map fst ms) -> ~ In k (map fst acc)) ->
    Permutation
      (fold_left (fun acc kv => Json.jsonb_insert (fst kv) (snd kv) acc) ms acc)
      (acc ++ ms).
Proof.
  induction ms as [|[k v] r IH]; simpl; intros acc Hnd Hfresh.
  - rewrite app_nil_r. apply Permutation_refl.
  - inversion Hnd as [|? ? Hk Hr]; subst.
    assert (Hp : Permutation (Json.jsonb_insert k v acc) ((k, v) :: acc))
      by (apply jsonb_insert_perm; apply Hfresh; left; reflexivity).
    eapply perm_trans.
    + apply IH; [exact Hr|]. intros k' Hk' Hin.
      apply (Permutation_in _ (Permutation_map fst Hp)) in Hin. simpl in Hin.
      destruct Hin as [<-|Hin]; [contradiction|].
      apply (Hfresh k'); [right; exact Hk'|exact Hin].
    + eapply perm_trans; [apply Permutation_app_tail; exact Hp|].
      simpl. apply Permutation_middle.
Qed.

Lemma dumps_list (l : list pyval) :
  Json.dumps (PyList l) = items <- mapM Json.dumps l ;; Ok (Json.JArr items).
Proof.
  simpl. f_equal. induction l as [|x r IH]; [reflexivity|]. rewrite IH. reflexivity.
Qed.

Lemma dumps_dict (d : list (string * pyval)) :
  Json.dumps (PyDict d)
  = members <- mapM (fun kv => j <- Json.dumps (snd kv) ;; Ok (fst kv, j)) d ;;
    Ok (Json.JObj members).
Proof.
  simpl. f_equal. induction d as [|[k x] r IH]; [reflexivity|].
  rewrite IH. simpl. destruct (Json.dumps x); reflexivity.
Qed.

Lemma py_eq_list (l l' : list pyval) :
  Forall2 (fun x y => py_eq x y = true) l l' -> py_eq (PyList l) (PyList l') = true.
Proof.
  simpl. induction 1 as [|x y r r' Hxy _ IH]; [reflexivity|]. rewrite Hxy. exact IH.
Qed.

Lemma py_eq_dict (d d' : list (string * pyval)) :
  List.length d = List.length d' ->
  Forall (fun kv => exists v', dict_lookup (fst kv) d' = Some v'
                               /\ py_eq (snd kv) v' = true) d ->
  py_eq (PyDict d) (PyDict d') = true.
Proof.
  intros Hlen H. simpl. rewrite Hlen, Nat.eqb_refl. simpl. clear Hlen.
  induction H as [|[k v] r [v' [Hl He]] _ IH]; [reflexivity|].
  simpl in Hl, He. rewrite Hl, He. exact IH.
Qed.

(** A document read back from a jsonb column equals ([==]) the value that
    was dumped, when the value holds no bytes and no repeated key. *)
Lemma jsonb_round_trip (w : pyval) :
  bytes_free w = true -> unique_keys w = true -> jsonb_accepts w = true ->
  exists doc, Json.dumps w = Ok doc
              /\ py_eq w (Json.loads (Json.jsonb doc)) = true.
Proof.
  induction w as [| b | n | s | bs | l IH | d IH] using pyval_nested_ind;
    intros Hb Hu Ha; try discriminate.
  - eexists. split; reflexivity.
  - eexists. split; [reflexivity|]. destruct b; reflexivity.
  - cbn [jsonb_accepts] in Ha. cbn [Json.dumps]. rewrite Ha.
    eexists. split; [reflexivity|]. apply Z.eqb_refl.
  - eexists. split; [reflexivity|]. apply String.eqb_refl.
  - (* lists *)
    simpl in Hb, Hu, Ha. rewrite dumps_list.
    assert (H : exists docs, mapM Json.dumps l = Ok docs
                 /\ Forall2 (fun x y => py_eq x y = true) l
                      (map (fun j => Json.loads (Json.jsonb j)) docs)).
    { induction IH as [|x r Hx _ IHr]; simpl in *.
      - exists []. split; [reflexivity|constructor].
      - apply andb_prop in Hb, Hu, Ha.
        destruct Hb as [Hb1 Hb2], Hu as [Hu1 Hu2], Ha as [Ha1 Ha2].
        destruct (Hx Hb1 Hu1 Ha1) as [doc [Hd He]].
        destruct (IHr Hb2 Hu2 Ha2) as [docs [Hds Hes]].
        exists (doc :: docs). rewrite Hd, Hds. split; [reflexivity|].
        constructor; assumption. }
    destruct H as [docs [Hds Hes]]. rewrite Hds. cbn [bind].
    eexists. split; [reflexivity|]. cbn [Json.jsonb Json.loads].
    rewrite map_map. apply py_eq_list. exact Hes.
  - (* dictionaries *)
    simpl in Hb, Hu, Ha. apply andb_prop in Hu. destruct Hu as [Hnd Hu].
    apply distinct_NoDup in Hnd. rewrite dumps_dict.
    assert (H : exists ms, mapM (fun kv => j <- Json.dumps (snd kv) ;; Ok (fst kv, j)) d = Ok ms
                 /\ map fst ms = map fst d
                 /\ Forall (fun kv => exists j, In (fst kv, j) ms
                              /\ py_eq (snd kv) (Json.loads (Json.jsonb j)) = true) d).
    { clear Hnd. induction IH as [|[k x] r Hx _ IHr]; simpl in *.
      - exists []. repeat split; constructor.
      - apply andb_prop in Hb, Hu, Ha.
        destruct Hb as [Hb1 Hb2], Hu as [Hu1 Hu2], Ha as [Ha1 Ha2].
        apply andb_prop in Ha1. destruct Ha1 as [_ Ha1].
        destruct (Hx Hb1 Hu1 Ha1) as [doc [Hd He]].
        destruct (IHr Hb2 Hu2 Ha2) as [ms [Hms [Hk Hall]]].
        exists ((k, doc) :: ms). rewrite Hd. cbn [bind]. rewrite Hms. cbn [bind].
        split; [reflexivity|]. split; [simpl; f_equal; exact Hk|].
        constructor.
        + exists doc. split; [left; reflexivity|exact He].
        + eapply Forall_impl; [|exact Hall]. intros kv [j [Hj Hej]].
          exists j. split; [right; exact Hj|exact Hej]. }
    destruct H as [ms [Hms [Hkeys Hall]]]. rewrite Hms. cbn [bind].
    eexists. split; [reflexivity|]. cbn [Json.jsonb Json.loads].
    set (ms1 := map (fun kj => (fst kj, Json.jsonb (snd kj))) ms).
    assert (Hk1 : map fst ms1 = map fst d)
      by (unfold ms1; rewrite map_map; simpl; exact Hkeys).
    assert (Hp : Permutation (Json.jsonb_members ms1) ms1).
    { unfold Json.jsonb_members.
      apply (jsonb_members_perm ms1 []); [rewrite Hk1; exact Hnd|intros k _ []]. }
    set (pairs := map (fun kj => (fst kj, Json.loads (snd kj))) (Json.jsonb_members ms1)).
    assert (Hpp : Permutation pairs
                    (map (fun kj => (fst kj, Json.loads (Json.jsonb (snd kj)))) ms)).
    { unfold pairs. eapply perm_trans; [apply Permutation_map; exact Hp|].
      unfold ms1. rewrite map_map. apply Permutation_refl. }
    assert (Hkp : Permutation (map fst pairs) (map fst d)).
    { eapply perm_trans; [apply Permutation_map; exact Hpp|].
      rewrite <- Hkeys, map_map. apply Permutation_refl. }
    assert (Hndp : NoDup (map fst pairs))
      by (apply (Permutation_NoDup (Permutation_sym Hkp)); exact Hnd).
    rewrite dict_of_pairs_nodup by exact Hndp.
    apply py_eq_dict.
    + rewrite <- (length_map fst d), <- (length_map fst pairs).
      apply Permutation_length, Permutation_sym, Hkp.
    + eapply Forall_impl; [|exact Hall]. intros [k x] [j [Hin He]]. simpl in *.
      exists (Json.loads (Json.jsonb j)). split; [|exact He].
      apply lookup_in_nodup; [exact Hndp|].
      apply (Permutation_in _ (Permutation_sym Hpp)).
      apply (in_map (fun kj => (fst kj, Json.loads (Json.jsonb (snd kj)))) _ _ Hin).
Qed.

Lemma make_json_safe_bytes_free (v : pyval) :
  bytes_free (Pipeline.make_json_safe v) = true.
Proof.
  induction v as [| b | n | s | bs | l IH | d IH] using pyval_nested_ind;
    try reflexivity; simpl.
  - induction IH as [|x r Hx _ IHr]; [reflexivity|]. simpl. rewrite Hx. exact IHr.
  - induction IH as [|kv r Hx _ IHr]; [reflexivity|]. simpl. rewrite Hx. exact IHr.
Qed.

Lemma make_json_safe_unique_keys (v : pyval) :
  unique_keys v = true -> unique_keys (Pipeline.make_json_safe v) = true.
Proof.
  induction v as [| b | n | s | bs | l IH | d IH] using pyval_nested_ind;
    try reflexivity; simpl; intros H.
  - induction IH as [|x r Hx _ IHr]; [reflexivity|]. simpl in *.
    apply andb_prop in H. destruct H as [H1 H2]. rewrite (Hx H1). exact (IHr H2).
  - apply andb_prop in H. destruct H as [Hd H].
    assert (Hk : map fst (map (fun kv => (fst kv, Pipeline.make_json_safe (snd kv))) d)
                 = map fst d) by (rewrite map_map; reflexivity).
    rewrite Hk, Hd. simpl. clear Hd Hk.
    induction IH as [|kv r Hx _ IHr]; [reflexivity|]. simpl in *.
    apply andb_prop in H. destruct H as [H1 H2]. rewrite (Hx H1). exact (IHr H2).
Qed.

Lemma make_json_safe_bytes_free_id (v : pyval) :
  bytes_free v = true -> Pipeline.make_json_safe v = v.
Proof.
  induction v as [| b | n | s | bs | l IH | d IH] using pyval_nested_ind;
    try reflexivity; simpl; intros H; [discriminate| |]; f_equal.
  - induction IH as [|x r Hx _ IHr]; [reflexivity|]. simpl in *.
    apply andb_prop in H. destruct H as [H1 H2]. rewrite (Hx H1), (IHr H2). reflexivity.
  - induction IH as [|[k x] r Hx _ IHr]; [reflexivity|]. simpl in *.
    apply andb_prop in H. destruct H as [H1 H2]. rewrite (Hx H1), (IHr H2). reflexivity.
Qed.

Arguments Repr.decimal : simpl never.

Lemma digit_not_nul (n : Z) : (nat_of_ascii (Base64.digit n) =? 0)%nat = false.
Proof.
  unfold Base64.digit.
  assert (H : forallb (fun c => negb (nat_of_ascii c =? 0)%nat) Base64.alphabet = true)
    by (vm_compute; reflexivity).
  rewrite forallb_forall in H.
  destruct (nth_in_or_default (Z.to_nat n) Base64.alphabet "="%char) as [Hin | ->].
  - apply negb_true_iff. apply H. exact Hin.
  - reflexivity.
Qed.

Lemma b64encode_nul_free (bs : list byte) : PG.has_nul (Base64.b64encode bs) = false.
Proof.
  unfold Base64.b64encode. generalize (map SHA256.byte_to_Z bs). intros zs.
  assert (H : forall n zs, List.length zs <= n -> PG.has_nul (Base64.encodeZ zs) = false).
  { induction n as [|n IH]; intros [|a [|b [|c r]]] Hlen; simpl in Hlen; try lia;
      try reflexivity; unfold PG.has_nul;
      cbn [Base64.encodeZ list_ascii_of_string existsb];
      rewrite ?digit_not_nul; cbn [orb]; try reflexivity.
    apply (IH r). lia. }
  apply (H (List.length zs)). lia.
Qed.

(** The marker that replaces raw bytes holds nothing a jsonb column
    refuses. *)
Lemma make_json_safe_accepts (v : pyval) :
  jsonb_accepts v = true -> jsonb_accepts (Pipeline.make_json_safe v) = true.
Proof.
  induction v as [| b | n | s | bs | l IH | d IH] using pyval_nested_ind;
    intros H; try exact H.
  - unfold Pipeline.make_json_safe, Pipeline.bytes_marker.
    cbn [jsonb_accepts forallb fst snd]. rewrite b64encode_nul_free. reflexivity.
  - cbn [Pipeline.make_json_safe jsonb_accepts] in *.
    induction IH as [|x r Hx _ IHr]; [reflexivity|]. cbn [map forallb] in *.
    apply andb_prop in H. destruct H as [H1 H2]. rewrite (Hx H1). exact (IHr H2).
  - cbn [Pipeline.make_json_safe jsonb_accepts] in *.
    induction IH as [|[k x] r Hx _ IHr]; [reflexivity|]. cbn [map forallb fst snd] in *.
    apply andb_prop in H. destruct H as [H1 H2].
    apply andb_prop in H1. destruct H1 as [Hk H1].
    rewrite Hk, (Hx H1). exact (IHr H2).
Qed.

(** [json.dumps] converts a value without raw bytes that a jsonb column
    takes, and the column takes the document. *)
Lemma dumps_accepted (w : pyval) :
  bytes_free w = true -> jsonb_accepts w = true ->
  exists doc, Json.dumps w = Ok doc /\ PG.json_has_nul doc = false.
Proof.
  induction w as [| b | n | s | bs | l IH | d IH] using pyval_nested_ind;
    intros Hb Ha; try discriminate.
  - eexists. split; reflexivity.
  - eexists. split; reflexivity.
  - cbn [jsonb_accepts] in Ha. cbn [Json.dumps]. rewrite Ha.
    eexists. split; reflexivity.
  - cbn [jsonb_accepts] in Ha. apply negb_true_iff in Ha.
    eexists. split; [reflexivity|exact Ha].
  - cbn [bytes_free jsonb_accepts] in Hb, Ha. rewrite dumps_list.
    assert (H : exists docs, mapM Json.dumps l = Ok docs
                 /\ existsb PG.json_has_nul docs = false).
    { induction IH as [|x r Hx _ IHr]; cbn [forallb] in *.
      - exists []. split; reflexivity.
      - apply andb_prop in Hb, Ha. destruct Hb as [Hb1 Hb2], Ha as [Ha1 Ha2].
        destruct (Hx Hb1 Ha1) as [doc [Hd Hn]].
        destruct (IHr Hb2 Ha2) as [docs [Hds Hns]].
        exists (doc :: docs). cbn [mapM]. rewrite Hd. cbn [bind]. rewrite Hds.
        split; [reflexivity|]. cbn [existsb]. rewrite Hn, Hns. reflexivity. }
    destruct H as [docs [Hds Hns]]. rewrite Hds. cbn [bind].
    eexists. split; [reflexivity|exact Hns].
  - cbn [bytes_free jsonb_accepts] in Hb, Ha. rewrite dumps_dict.
    assert (H : exists ms,
                 mapM (fun kv => j <- Json.dumps (snd kv) ;; Ok (fst kv, j)) d = Ok ms
                 /\ existsb (fun kj => PG.has_nul (fst kj) || PG.json_has_nul (snd kj)) ms
                    = false).
    { induction IH as [|[k x] r Hx _ IHr]; cbn [forallb fst snd] in *.
      - exists []. split; reflexivity.
      - apply andb_prop in Hb, Ha. destruct Hb as [Hb1 Hb2], Ha as [Ha1 Ha2].
        apply andb_prop in Ha1. destruct Ha1 as [Hk Ha1]. apply negb_true_iff in Hk.
        destruct (Hx Hb1 Ha1) as [doc [Hd Hn]].
        destruct (IHr Hb2 Ha2) as [ms [Hms Hns]].
        exists ((k, doc) :: ms). cbn [mapM fst snd]. rewrite Hd. cbn [bind]. rewrite Hms.
        split; [reflexivity|]. cbn [existsb fst snd]. rewrite Hk, Hn, Hns. reflexivity. }
    destruct H as [ms [Hms Hns]]. rewrite Hms. cbn [bind].
    eexists. split; [reflexivity|exact Hns].
Qed.

Lemma utf8_length_le (s : string) : PG.utf8_length s <= String.length s.
Proof.
  induction s as [|c r IH]; simpl; [lia|]. destruct (PG.continuation c); lia.
Qed.

Lemma varchar400_short (s : string) :
  (PG.utf8_length s <=? 400)%nat = true -> PG.varchar400 s = Ok s.
Proof.
  unfold PG.varchar400. intros ->. reflexivity.
Qed.

Lemma container_round_trip (key : string) (v : pyval) :
  Pipeline.infer_pg_type key v = "JSONB" ->
  Pipeline.is_container v = true -> unique_keys v = true -> jsonb_accepts v = true ->
  exists v', field_round_trip key v = Ok v'
             /\ py_eq (Pipeline.make_json_safe v) v' = true.
Proof.
  intros Hty Hc Hu Ha.
  destruct (jsonb_round_trip (Pipeline.make_json_safe v)
              (make_json_safe_bytes_free v) (make_json_safe_unique_keys v Hu)
              (make_json_safe_accepts v Ha))
    as [doc [Hd He]].
  destruct (dumps_accepted (Pipeline.make_json_safe v)
              (make_json_safe_bytes_free v) (make_json_safe_accepts v Ha))
    as [doc' [Hd' Hn]].
  rewrite Hd in Hd'. injection Hd' as <-.
  exists (Json.loads (Json.jsonb doc)). split; [|exact He].
  unfold field_round_trip, Pipeline.field_param. rewrite Hc, Hd. cbn [bind].
  rewrite Hty. cbn [PG.store_cell]. rewrite String.eqb_refl, Hn. reflexivity.
Qed.

(** X22.  One field through its column.  A field value that is a boolean, a
    text of at most 400 characters without NUL, or a list or dictionary
    (of [None], booleans, integers, texts, bytes, lists and text-keyed
    dictionaries) whose texts and keys hold no NUL and whose integers
    [json.dumps] converts, written under a key that is none of the three
    columns the pipeline adds to the column typed from its own shape and
    read back, comes back equal ([==]) to its JSON-safe form: equal to the
    value itself when it holds no raw bytes, and with every nested
    raw-bytes value left as the base64-tagged marker object the writer put
    in its place. *)
Theorem field_round_trip_value (key : string) (v : pyval) :
  key <> "protein_index" -> key <> "pdb_ids" -> key <> "pdb_files" ->
  storable v = true ->
  exists v',
    field_round_trip key v = Ok v'
    /\ py_eq (Pipeline.make_json_safe v) v' = true
    /\ (bytes_free v = true -> py_eq v v' = true).
Proof.
  intros H1 H2 H3 Hs.
  pose proof (infer_pg_type_by_shape_aux key v H1 H2 H3) as Hty.
  destruct v as [| b | n | s | bs | l | d]; cbn [storable] in Hs; try discriminate.
  - exists (PyBool b). unfold field_round_trip. cbn [Pipeline.field_param
      Pipeline.is_container bind]. rewrite Hty. cbn.
    repeat split; destruct b; reflexivity.
  - apply andb_prop in Hs. destruct Hs as [Hn Hl]. apply negb_true_iff in Hn.
    exists (PyStr s). unfold field_round_trip. cbn [Pipeline.field_param
      Pipeline.is_container bind]. rewrite Hty.
    cbn [shape_type PG.store_cell]. rewrite Hn, String.eqb_refl, (varchar400_short s Hl).
    cbn [bind PG.cell_value Pipeline.make_json_safe py_eq]. rewrite String.eqb_refl.
    repeat split.
  - apply andb_prop in Hs. destruct Hs as [Hu Ha].
    destruct (container_round_trip key (PyList l) Hty eq_refl Hu Ha) as [v' [Hr He]].
    exists v'. repeat split; try assumption.
    intros Hb. rewrite <- (make_json_safe_bytes_free_id _ Hb). exact He.
  - apply andb_prop in Hs. destruct Hs as [Hu Ha].
    destruct (container_round_trip key (PyDict d) Hty eq_refl Hu Ha) as [v' [Hr He]].
    exists v'. repeat split; try assumption.
    intros Hb. rewrite <- (make_json_safe_bytes_free_id _ Hb). exact He.
Qed.

Lemma field_round_trip_value_witness :
  exists v',
    field_round_trip "exons"
      (PyDict [("start", PyList [PyInt 100; PyInt 300]); ("end", PyNone)]) = Ok v'
    /\ py_eq (Pipeline.make_json_safe
                (PyDict [("start", PyList [PyInt 100; PyInt 300]); ("end", PyNone)])) v'
       = true
    /\ (bytes_free (PyDict [("start", PyList [PyInt 100; PyInt 300]); ("end", PyNone)])
        = true ->
        py_eq (PyDict [("start", PyList [PyInt 100; PyInt 300]); ("end", PyNone)]) v'
        = true).
Proof.
  apply (field_round_trip_value "exons"
           (PyDict [("start", PyList [PyInt 100; PyInt 300]); ("end", PyNone)]));
    try discriminate.
  vm_compute. reflexivity.
Defined.

(** A record whose [exons] holds raw bytes. *)
Definition protein_with_bytes : dict :=
  [("gene_id", PyStr "G1"); ("transcript_id", PyStr "T1"); ("sequence", PyStr "MKV");
   ("exons", PyList [PyBytes [x00; x01]]);
   ("protein_coding", PyBool true); ("nmd", PyBool false); ("pdb_files", PyList [])].

Definition exons_of (r : result Pipeline.run_result) : result (list pyval * bool) :=
  out <- r ;;
  Ok (map (fun e => get e "exons") (Pipeline.exported out), Pipeline.verdict out).

(** C2.  The claim holds of what [export_table_to_pkl] announces ([Exact
    value identity]) and fails on the code: [make_json_safe] puts the
    base64-tagged marker in the place of nested raw bytes, and the export
    assigns the column value as it is; no step recognises a marker.  The
    list [[b"\x00\x01"]] comes back as a list holding the marker dictionary
    (keys in jsonb order), which is not equal to the bytes that went in, and
    the notebook's own fingerprint check fails on the record. *)
Theorem nested_bytes_not_restored :
  field_round_trip "exons" (PyList [PyBytes [x00; x01]])
  = Ok (PyList [PyDict [("data", PyStr "AAE="); ("__type__", PyStr "bytes");
                        ("encoding", PyStr "base64")]])
  /\ py_eq (PyList [PyBytes [x00; x01]])
           (PyList [PyDict [("data", PyStr "AAE="); ("__type__", PyStr "bytes");
                            ("encoding", PyStr "base64")]]) = false
  /\ exons_of (Pipeline.run None [protein_with_bytes])
     = Ok ([PyList [PyDict [("data", PyStr "AAE="); ("__type__", PyStr "bytes");
                            ("encoding", PyStr "base64")]]], false).
Proof.
  vm_compute. repeat split.
Qed.

(** ** C1: persist, retrieve, compare *)

(** Keys in jsonb order, each before all that follow. *)
Fixpoint ascending (ks : list string) : bool :=
  match ks with
  | [] => true
  | k :: r => forallb (Json.key_ltb k) r && ascending r
  end.

(** A value a jsonb column gives back as it was: no raw bytes, and the keys
    of every dictionary in jsonb order. *)
Fixpoint canonical (v : pyval) : bool :=
  match v with
  | PyBytes _ => false
  | PyList l => forallb canonical l
  | PyDict d => ascending (map fst d) && forallb (fun kv => canonical (snd kv)) d
  | _ => true
  end.

Lemma key_ltb_asym (a b : string) :
  Json.key_ltb a b = true -> String.eqb b a = false /\ Json.key_ltb b a = false.
Proof.
  unfold Json.key_ltb. intros H. apply orb_prop in H. destruct H as [H|H].
  - apply Nat.ltb_lt in H. split.
    + apply String.eqb_neq. intros ->. lia.
    + apply orb_false_intro; [apply Nat.ltb_ge; lia|].
      apply andb_false_intro1. apply Nat.eqb_neq. lia.
  - apply andb_prop in H. destruct H as [Hl Hc]. apply Nat.eqb_eq in Hl.
    unfold String.ltb in *. rewrite (String.compare_antisym b a).
    destruct (String.compare a b) eqn:E; try discriminate. simpl. split.
    + apply String.eqb_neq. intros ->.
      pose proof (String.compare_antisym a a) as Hr. rewrite E in Hr. discriminate.
    + apply orb_false_intro; [apply Nat.ltb_ge; lia|]. apply andb_false_r.
Qed.

Lemma jsonb_insert_last (k : string) (v : Json.json) (s : list (string * Json.json)) :
  (forall k', In k' (map fst s) -> Json.key_ltb k' k = true) ->
  Json.jsonb_insert k v s = s ++ [(k, v)].
Proof.
  induction s as [|[k1 v1] r IH]; simpl; intros H; [reflexivity|].
  destruct (key_ltb_asym k1 k (H k1 (or_introl eq_refl))) as [He Hl].
  rewrite He, Hl, IH; [reflexivity|]. intros k' Hk'. apply H. right. exact Hk'.
Qed.

Lemma jsonb_members_ascending (ms : list (string * Json.json)) :
  forall acc,
    ascending (map fst ms) = true ->
    (forall k' k, In k' (map fst acc) -> In k (map fst ms) -> Json.key_ltb k' k = true) ->
    fold_left (fun acc kv => Json.jsonb_insert (fst kv) (snd kv) acc) ms acc = acc ++ ms.
Proof.
  induction ms as [|[k v] r IH]; simpl; intros acc Ha Hlt.
  - rewrite app_nil_r. reflexivity.
  - apply andb_prop in Ha. destruct Ha as [Hk Hr].
    rewrite jsonb_insert_last by (intros k' Hk'; apply Hlt; [exact Hk'|left; reflexivity]).
    rewrite IH; [rewrite <- app_assoc; reflexivity|exact Hr|].
    intros k' k0 Hk' Hk0. rewrite map_app, in_app_iff in Hk'. simpl in Hk'.
    destruct Hk' as [Hk'|[<-|[]]].
    + apply Hlt; [exact Hk'|right; exact Hk0].
    + rewrite forallb_forall in Hk. apply Hk. exact Hk0.
Qed.

Lemma ascending_NoDup (ks : list string) : ascending ks = true -> NoDup ks.
Proof.
  induction ks as [|k r IH]; simpl; intros H; [constructor|].
  apply andb_prop in H. destruct H as [Hk Hr]. constructor; [|exact (IH Hr)].
  intros Hin. rewrite forallb_forall in Hk.
  destruct (key_ltb_asym k k (Hk k Hin)) as [He _].
  rewrite String.eqb_refl in He. discriminate.
Qed.

(** A canonical value is read back from a jsonb column as it was. *)
Lemma canonical_exact (v : pyval) :
  canonical v = true -> jsonb_accepts v = true ->
  exists doc, Json.dumps v = Ok doc /\ Json.loads (Json.jsonb doc) = v.
Proof.
  induction v as [| b | n | s | bs | l IH | d IH] using pyval_nested_ind;
    intros Hc Ha; try discriminate.
  - eexists. split; reflexivity.
  - eexists. split; reflexivity.
  - cbn [jsonb_accepts] in Ha. cbn [Json.dumps]. rewrite Ha.
    eexists. split; reflexivity.
  - eexists. split; reflexivity.
  - simpl in Hc, Ha. rewrite dumps_list.
    assert (H : exists docs, mapM Json.dumps l = Ok docs
                 /\ map (fun j => Json.loads (Json.jsonb j)) docs = l).
    { induction IH as [|x r Hx _ IHr]; simpl in *.
      - exists []. split; reflexivity.
      - apply andb_prop in Hc, Ha. destruct Hc as [H1 H2], Ha as [A1 A2].
        destruct (Hx H1 A1) as [doc [Hd He]]. destruct (IHr H2 A2) as [docs [Hds Hes]].
        exists (doc :: docs). rewrite Hd, Hds. split; [reflexivity|].
        simpl. rewrite He, Hes. reflexivity. }
    destruct H as [docs [Hds Hes]]. rewrite Hds. cbn [bind].
    eexists. split; [reflexivity|]. cbn [Json.jsonb Json.loads].
    rewrite map_map, Hes. reflexivity.
  - simpl in Hc, Ha. rename Ha into Hacc.
    apply andb_prop in Hc. destruct Hc as [Ha Hc]. rewrite dumps_dict.
    assert (H : exists ms, mapM (fun kv => j <- Json.dumps (snd kv) ;; Ok (fst kv, j)) d = Ok ms
                 /\ map (fun kj => (fst kj, Json.loads (Json.jsonb (snd kj)))) ms = d).
    { clear Ha. induction IH as [|[k x] r Hx _ IHr]; simpl in *.
      - exists []. split; reflexivity.
      - apply andb_prop in Hc, Hacc. destruct Hc as [H1 H2], Hacc as [A1 A2].
        apply andb_prop in A1. destruct A1 as [_ A1].
        destruct (Hx H1 A1) as [doc [Hd He]]. destruct (IHr H2 A2) as [ms [Hms Hes]].
        exists ((k, doc) :: ms). rewrite Hd. cbn [bind]. rewrite Hms. cbn [bind].
        split; [reflexivity|]. simpl. rewrite He, Hes. reflexivity. }
    destruct H as [ms [Hms Hes]]. rewrite Hms. cbn [bind].
    eexists. split; [reflexivity|]. cbn [Json.jsonb Json.loads].
    assert (Hk : map fst (map (fun kj => (fst kj, Json.jsonb (snd kj))) ms) = map fst d)
      by (rewrite <- Hes, !map_map; reflexivity).
    unfold Json.jsonb_members.
    rewrite jsonb_members_ascending; [|rewrite Hk; exact Ha|intros k' k []].
    simpl. rewrite map_map. simpl.
    replace (map (fun x => (fst x, Json.loads (Json.jsonb (snd x)))) ms) with d
      by (symmetry; exact Hes).
    rewrite dict_of_pairs_nodup by (apply ascending_NoDup; exact Ha). reflexivity.
Qed.

Lemma canonical_bytes_free (v : pyval) : canonical v = true -> bytes_free v = true.
Proof.
  induction v as [| b | n | s | bs | l IH | d IH] using pyval_nested_ind;
    try reflexivity; simpl; intros H; [discriminate| |].
  - induction IH as [|x r Hx _ IHr]; [reflexivity|]. simpl in *.
    apply andb_prop in H. destruct H as [H1 H2]. rewrite (Hx H1). exact (IHr H2).
  - apply andb_prop in H. destruct H as [_ H].
    induction IH as [|kv r Hx _ IHr]; [reflexivity|]. simpl in *.
    apply andb_prop in H. destruct H as [H1 H2]. rewrite (Hx H1). exact (IHr H2).
Qed.

(** *** Well-formed collections *)

Definition is_text (v : pyval) : bool :=
  match v with PyStr _ => true | _ => false end.

Definition text_or_none (v : pyval) : bool :=
  match v with PyStr _ | PyNone => true | _ => false end.

(** A subrecord as the exporter rebuilds it: exactly an identifier text and
    a payload of bytes, in that order. *)
Definition plain_subrecord (p : pyval) : bool :=
  match p with
  | PyDict [(k1, PyStr i); (k2, PyBytes _)] =>
      String.eqb k1 "pdb_id" && String.eqb k2 "content" && negb (PG.has_nul i)
  | _ => false
  end.

Definition pdb_list (v : pyval) : bool :=
  match v with
  | PyList l => forallb plain_subrecord l
  | _ => false
  end.

(** A field value that a column of type [ty] takes and gives back as it
    was. *)
Definition exact_field (ty : string) (v : pyval) : bool :=
  match v with
  | PyNone => true
  | PyBool _ => String.eqb ty "BOOLEAN"
  | PyStr s =>
      String.eqb ty "VARCHAR(400)" && negb (PG.has_nul s)
      && (String.length s <=? 400)%nat
  | PyList _ | PyDict _ => String.eqb ty "JSONB" && canonical v
  | PyInt _ | PyBytes _ => false
  end.

Definition field_ok (first : dict) (kv : string * pyval) : bool :=
  if String.eqb (fst kv) "pdb_files" then pdb_list (snd kv)
  else exact_field (Pipeline.infer_pg_type (fst kv) (get first (fst kv))) (snd kv).

Definition strings_eqb (a b : list string) : bool :=
  if list_eq_dec string_dec a b then true else false.

(** A record with the keys of the first record, in the same order, every
    field of a shape its column gives back unchanged, text identity fields
    and a [sequence] that is text or [None]. *)
Definition wf_record (first r : dict) : bool :=
  strings_eqb (keys r) (keys first)
  && forallb (field_ok first) r
  && is_text (get r "gene_id") && is_text (get r "transcript_id")
  && has_field r "sequence" && text_or_none (get r "sequence").

Definition same_identity (r r' : dict) : bool :=
  py_eq (get r "gene_id") (get r' "gene_id")
  && py_eq (get r "transcript_id") (get r' "transcript_id").

Fixpoint identities_distinct (data : list dict) : bool :=
  match data with
  | [] => true
  | r :: rest => negb (existsb (same_identity r) rest) && identities_distinct rest
  end.

(** A non-empty collection of well-formed records with pairwise different
    identity keys, whose field names are different from each other and from
    the three column names the pipeline adds, short enough for the position
    column. *)
Definition wf_collection (data : list dict) : bool :=
  match data with
  | [] => false
  | first :: _ =>
      PG.distinct (keys first)
      && PG.distinct (Pipeline.columns_of (Pipeline.other_columns first))
      && forallb (wf_record first) data
      && identities_distinct data
      && (Z.of_nat (List.length data) <=? 2147483648)%Z
  end.

(** *** The collections the round trip is stated for *)

(** The type of the column the pipeline creates for a field. *)
Definition column_type (first : dict) (k : string) : string :=
  Pipeline.infer_pg_type k (get first k).

(** A value a column of type [ty] takes: [None] (stored as NULL); a boolean
    in a boolean or bounded-text column; an integer of at most 400 digits or
    a text of at most 400 characters without NUL in a bounded-text column; a
    list or dictionary that a jsonb column takes. *)
Definition accepted (ty : string) (v : pyval) : bool :=
  match v with
  | PyNone => true
  | PyBool _ => String.eqb ty "BOOLEAN" || String.eqb ty "VARCHAR(400)"
  | PyInt n =>
      String.eqb ty "VARCHAR(400)" && (String.length (Repr.decimal n) <=? 400)%nat
  | PyStr s =>
      String.eqb ty "VARCHAR(400)" && negb (PG.has_nul s)
      && (PG.utf8_length s <=? 400)%nat
  | PyBytes _ => false
  | PyList _ | PyDict _ => String.eqb ty "JSONB" && jsonb_accepts v
  end.

(** A value a column of type [ty] takes and hands back as it was: a boolean
    or [None] in a boolean column; a text of at most 400 characters without
    NUL in a bounded-text column; in a jsonb column [None], or a list or
    dictionary without raw bytes, with the keys of every dictionary in jsonb
    order, that the column takes.  ([None] in a bounded-text column is left
    out: it is read back as NaN by pandas 3.) *)
Definition kept (ty : string) (v : pyval) : bool :=
  match v with
  | PyNone => String.eqb ty "BOOLEAN" || String.eqb ty "JSONB"
  | PyBool _ => String.eqb ty "BOOLEAN"
  | PyStr s =>
      String.eqb ty "VARCHAR(400)" && negb (PG.has_nul s)
      && (PG.utf8_length s <=? 400)%nat
  | PyList _ | PyDict _ => String.eqb ty "JSONB" && canonical v && jsonb_accepts v
  | PyInt _ | PyBytes _ => false
  end.

(** The objects the pickler remembers while it writes a value: every text,
    bytes, list and dictionary in it, keys included. *)
Fixpoint memo_nodes (v : pyval) : list pyval :=
  match v with
  | PyStr _ | PyBytes _ => [v]
  | PyList l => v :: flat_map memo_nodes l
  | PyDict d => v :: flat_map (fun kv => PyStr (fst kv) :: memo_nodes (snd kv)) d
  | _ => []
  end.

Fixpoint no_equal_pair (l : list pyval) : bool :=
  match l with
  | [] => true
  | x :: r => negb (existsb (py_eq x) r) && no_equal_pair r
  end.

(** No two of the remembered objects are equal, so none can be one object
    met twice: the bytes [pickle.dumps] writes for the value do not depend
    on which of its parts are shared. *)
Definition pickle_stable (v : pyval) : bool := no_equal_pair (memo_nodes v).

(** A subrecord the writer can store: a text identifier without NUL and a
    payload of bytes. *)
Definition subrecord_ok (p : pyval) : bool :=
  match subscript p "pdb_id", subscript p "content" with
  | Ok (PyStr i), Ok (PyBytes _) => negb (PG.has_nul i)
  | _, _ => false
  end.

(** The six fields the fingerprint reads besides the subrecords. *)
Definition fingerprint_fields : list string :=
  ["gene_id"; "transcript_id"; "sequence"; "exons"; "protein_coding"; "nmd"].

(** A record that fits the table created for [first]: every field of the
    first record holds a value its column takes; the three fields the
    fingerprint encodes are texts; the six fields the fingerprint reads are
    present and handed back as they were; [exons], the pickled field, is
    pickled the same whatever its parts share; [pdb_files] is a list of
    subrecords. *)
Definition fits (first e : dict) : bool :=
  forallb (fun k => accepted (column_type first k) (get e k))
          (Pipeline.other_columns first)
  && forallb (fun k => is_text (get e k)) ["gene_id"; "transcript_id"; "sequence"]
  && forallb (fun k => has_field e k && kept (column_type first k) (get e k))
             fingerprint_fields
  && pickle_stable (get e "exons")
  && match dict_lookup "pdb_files" e with
     | Some (PyList l) => forallb subrecord_ok l
     | _ => false
     end.

(** A non-empty collection of records that fit the table of the first one,
    with pairwise different identity keys; the field names of the first
    record are plain column names, different from each other and from the
    three columns the pipeline adds; the positions fit the position
    column. *)
Definition persistable (data : list dict) : bool :=
  match data with
  | [] => false
  | first :: _ =>
      PG.distinct (keys first)
      && PG.distinct (Pipeline.columns_of (Pipeline.other_columns first))
      && forallb PG.plain_name (keys first)
      && forallb (fits first) data
      && identities_distinct data
      && (Z.of_nat (List.length data) <=? 2147483648)%Z
  end.

Definition identity (e : dict) : pyval * pyval :=
  (get e "gene_id", get e "transcript_id").

(** Every field of the record is handed back by its column as it was. *)
Definition returned_exactly (first e : dict) : bool :=
  forallb (fun k => kept (column_type first k) (get e k))
          (Pipeline.other_columns first).

(** *** One field *)

Lemma decimal_fits (n : Z) :
  (String.length (Repr.decimal n) <=? 400)%nat = true ->
  PG.varchar400 (Repr.decimal n) = Ok (Repr.decimal n).
Proof.
  intros H. apply varchar400_short. apply Nat.leb_le. apply Nat.leb_le in H.
  pose proof (utf8_length_le (Repr.decimal n)). lia.
Qed.

Lemma accepted_cell (ty : string) (v : pyval) :
  accepted ty v = true ->
  exists p c, Pipeline.field_param v = Ok p /\ PG.store_cell ty p = Ok c.
Proof.
  destruct v as [| b | n | s | bs | l | d]; cbn [accepted]; intros H;
    try discriminate.
  - exists (PG.Param PyNone), PG.CNull. split; reflexivity.
  - exists (PG.Param (PyBool b)). cbn [PG.store_cell].
    destruct (String.eqb ty "BOOLEAN"); [eexists; split; reflexivity|].
    cbn [orb] in H. rewrite H. eexists. split; reflexivity.
  - apply andb_prop in H. destruct H as [Hty Hl]. apply String.eqb_eq in Hty. subst ty.
    exists (PG.Param (PyInt n)), (PG.CText (Repr.decimal n)).
    split; [reflexivity|]. cbn [PG.store_cell].
    change (String.eqb "VARCHAR(400)" "INTEGER NOT NULL") with false.
    cbn [andb]. rewrite String.eqb_refl, (decimal_fits n Hl). reflexivity.
  - apply andb_prop in H. destruct H as [H Hl]. apply andb_prop in H.
    destruct H as [Hty Hn]. apply negb_true_iff in Hn.
    exists (PG.Param (PyStr s)), (PG.CText s). split; [reflexivity|].
    cbn [PG.store_cell]. rewrite Hn, Hty, (varchar400_short s Hl). reflexivity.
  - apply andb_prop in H. destruct H as [Hty Ha].
    destruct (dumps_accepted (Pipeline.make_json_safe (PyList l))
                (make_json_safe_bytes_free _) (make_json_safe_accepts _ Ha))
      as [doc [Hd Hn]].
    exists (PG.JsonText doc), (PG.CJsonb (Json.jsonb doc)).
    unfold Pipeline.field_param. cbn [Pipeline.is_container]. rewrite Hd.
    cbn [bind PG.store_cell]. rewrite Hty, Hn. split; reflexivity.
  - apply andb_prop in H. destruct H as [Hty Ha].
    destruct (dumps_accepted (Pipeline.make_json_safe (PyDict d))
                (make_json_safe_bytes_free _) (make_json_safe_accepts _ Ha))
      as [doc [Hd Hn]].
    exists (PG.JsonText doc), (PG.CJsonb (Json.jsonb doc)).
    unfold Pipeline.field_param. cbn [Pipeline.is_container]. rewrite Hd.
    cbn [bind PG.store_cell]. rewrite Hty, Hn. split; reflexivity.
Qed.

Lemma kept_container_cell (ty : string) (v : pyval) :
  Pipeline.is_container v = true ->
  String.eqb ty "JSONB" = true -> canonical v = true -> jsonb_accepts v = true ->
  exists p c, Pipeline.field_param v = Ok p
              /\ PG.store_cell ty p = Ok c
              /\ PG.cell_value c = v.
Proof.
  intros Hcont Hty Hc Ha.
  destruct (canonical_exact v Hc Ha) as [doc [Hd He]].
  destruct (dumps_accepted v (canonical_bytes_free v Hc) Ha) as [doc' [Hd' Hn]].
  rewrite Hd in Hd'. injection Hd' as <-.
  exists (PG.JsonText doc), (PG.CJsonb (Json.jsonb doc)).
  unfold Pipeline.field_param. rewrite Hcont.
  rewrite (make_json_safe_bytes_free_id _ (canonical_bytes_free _ Hc)), Hd.
  cbn [bind PG.store_cell PG.cell_value]. rewrite Hty, Hn, He. repeat split.
Qed.

Lemma kept_cell (ty : string) (v : pyval) :
  kept ty v = true ->
  exists p c, Pipeline.field_param v = Ok p
              /\ PG.store_cell ty p = Ok c
              /\ PG.cell_value c = v
              /\ (forall s, v = PyStr s -> c = PG.CText s).
Proof.
  destruct v as [| b | n | s | bs | l | d]; cbn [kept]; intros H;
    try discriminate.
  - exists (PG.Param PyNone), PG.CNull. repeat split. intros s0 E. discriminate.
  - exists (PG.Param (PyBool b)), (PG.CBool b). cbn [PG.store_cell]. rewrite H.
    repeat split. intros s0 E. discriminate.
  - apply andb_prop in H. destruct H as [H Hl]. apply andb_prop in H.
    destruct H as [Hty Hn]. apply negb_true_iff in Hn.
    exists (PG.Param (PyStr s)), (PG.CText s). cbn [PG.store_cell].
    rewrite Hn, Hty, (varchar400_short s Hl).
    repeat split. intros s0 E. injection E as <-. reflexivity.
  - apply andb_prop in H. destruct H as [H Ha]. apply andb_prop in H.
    destruct H as [Hty Hc].
    destruct (kept_container_cell ty (PyList l) eq_refl Hty Hc Ha)
      as (p & c & Hp & Hs & Hv).
    exists p, c. repeat split; try assumption. intros s0 E. discriminate.
  - apply andb_prop in H. destruct H as [H Ha]. apply andb_prop in H.
    destruct H as [Hty Hc].
    destruct (kept_container_cell ty (PyDict d) eq_refl Hty Hc Ha)
      as (p & c & Hp & Hs & Hv).
    exists p, c. repeat split; try assumption. intros s0 E. discriminate.
Qed.

Lemma kept_accepted (ty : string) (v : pyval) :
  kept ty v = true -> accepted ty v = true.
Proof.
  destruct v as [| b | n | s | bs | l | d]; cbn [kept accepted]; intros H;
    try discriminate; try reflexivity; try exact H.
  - rewrite H. reflexivity.
  - apply andb_prop in H. destruct H as [H Ha]. apply andb_prop in H.
    destruct H as [Hty _]. rewrite Hty, Ha. reflexivity.
  - apply andb_prop in H. destruct H as [H Ha]. apply andb_prop in H.
    destruct H as [Hty _]. rewrite Hty, Ha. reflexivity.
Qed.

Lemma lookup_some_in (d : dict) (k : string) (v : pyval) :
  dict_lookup k d = Some v -> In (k, v) d.
Proof.
  unfold dict_lookup. induction d as [|[k' v'] r IH]; simpl; [discriminate|].
  destruct (String.eqb k k') eqn:E.
  - apply String.eqb_eq in E. subst. intros [= ->]. left. reflexivity.
  - intros H. right. exact (IH H).
Qed.

Lemma lookup_of_key (d : dict) (k : string) :
  In k (keys d) -> exists v, dict_lookup k d = Some v.
Proof.
  intros Hin. destruct (dict_lookup k d) as [v|] eqn:E; [exists v; reflexivity|].
  apply assoc_get_none_iff in E. contradiction.
Qed.

Lemma has_field_key (d : dict) (k : string) : has_field d k = true -> In k (keys d).
Proof.
  unfold has_field. destruct (dict_lookup k d) as [v|] eqn:E; [|discriminate].
  intros _. apply lookup_some_in in E. apply (in_map fst) in E. exact E.
Qed.

Lemma plain_subrecords_shape (l : list pyval) :
  forallb plain_subrecord l = true ->
  exists pdbs, l = map subrecord_of pdbs
               /\ Forall (fun ic => PG.has_nul (fst ic) = false) pdbs.
Proof.
  induction l as [|p r IH]; simpl; intros H.
  - exists []. split; [reflexivity|constructor].
  - apply andb_prop in H. destruct H as [Hp Hr].
    destruct (IH Hr) as [pdbs [-> Hn]].
    destruct p as [| | | | |?|d]; try discriminate.
    destruct d as [|[k1 [| | |i| | |]] [|[k2 [| | | |c| |]] [|? ?]]]; try discriminate.
    simpl in Hp. apply andb_prop in Hp. destruct Hp as [Hp Hnul].
    apply andb_prop in Hp. destruct Hp as [H1 H2].
    apply String.eqb_eq in H1, H2. subst. apply negb_true_iff in Hnul.
    exists ((i, c) :: pdbs). split; [reflexivity|]. constructor; assumption.
Qed.

Lemma subrecords_are_subrecords (pdbs : list (string * list byte)) :
  Forall2 is_subrecord (map subrecord_of pdbs) pdbs.
Proof.
  induction pdbs as [|[i c] r IH]; simpl; constructor; [|exact IH].
  split; reflexivity.
Qed.

Lemma subrecords_ok_shape (l : list pyval) :
  forallb subrecord_ok l = true ->
  exists pdbs, Forall2 is_subrecord l pdbs
               /\ Forall (fun ic => PG.has_nul (fst ic) = false) pdbs.
Proof.
  induction l as [|p r IH]; cbn [forallb]; intros H.
  - exists []. split; constructor.
  - apply andb_prop in H. destruct H as [Hp Hr].
    destruct (IH Hr) as [pdbs [Hs Hn]].
    unfold subrecord_ok in Hp.
    destruct (subscript p "pdb_id") as [[| | |i| | |]|] eqn:Hi; try discriminate.
    destruct (subscript p "content") as [[| | | |c| |]|] eqn:Hc; try discriminate.
    apply negb_true_iff in Hp.
    exists ((i, c) :: pdbs). split; constructor; try assumption.
    split; assumption.
Qed.

Lemma mapM_exists {A B : Type} (f : A -> result B) (l : list A) :
  (forall x, In x l -> exists y, f x = Ok y) -> exists ys, mapM f l = Ok ys.
Proof.
  induction l as [|x r IH]; simpl; intros H; [exists []; reflexivity|].
  destruct (H x (or_introl eq_refl)) as [y Hy].
  destruct (IH (fun z Hz => H z (or_intror Hz))) as [ys Hys].
  exists (y :: ys). rewrite Hy, Hys. reflexivity.
Qed.

Lemma text_elements_ok (pdbs : list (string * list byte)) :
  Forall (fun ic => PG.has_nul (fst ic) = false) pdbs ->
  mapM PG.text_element (map (fun ic => PyStr (fst ic)) pdbs) = Ok (map fst pdbs).
Proof.
  induction 1 as [|[i c] r Hi _ IH]; simpl; [reflexivity|].
  simpl in Hi. rewrite Hi. simpl. rewrite IH. reflexivity.
Qed.

(** *** One record *)

Lemma set_fields_exists (other : list string) (entry : dict) :
  (forall k, In k other -> exists p, Pipeline.field_param (get entry k) = Ok p) ->
  forall acc, exists row_dict, Pipeline.set_fields other entry acc = Ok row_dict.
Proof.
  induction other as [|key rest IH]; simpl; intros H acc; [exists acc; reflexivity|].
  destruct (H key (or_introl eq_refl)) as [p Hp]. rewrite Hp. cbn [bind].
  apply IH. intros k Hk. apply H. right. exact Hk.
Qed.

Lemma columns_in_schema (first : dict) :
  forallb (fun c => existsb (fun d => String.eqb c (PG.col_name d))
                      (PG.schema (fresh_table first)))
          (Pipeline.columns_of (Pipeline.other_columns first)) = true.
Proof.
  apply forallb_forall. intros c Hc. apply existsb_exists.
  exists (PG.mk_col c (Pipeline.infer_pg_type c (get first c))
            (existsb (String.eqb c) ["gene_id"; "transcript_id"; "protein_index"])).
  split; [|apply String.eqb_refl].
  unfold fresh_table, Pipeline.col_defs. cbn [PG.schema].
  apply (in_map (fun col => PG.mk_col col (Pipeline.infer_pg_type col (get first col))
                              (existsb (String.eqb col)
                                 ["gene_id"; "transcript_id"; "protein_index"]))).
  exact Hc.
Qed.

Lemma added_columns_fresh (first : dict) :
  NoDup (Pipeline.columns_of (Pipeline.other_columns first)) ->
  ~ In "protein_index" (Pipeline.other_columns first)
  /\ ~ In "pdb_ids" (Pipeline.other_columns first)
  /\ ~ In "pdb_files" (Pipeline.other_columns first).
Proof.
  intros Hcols.
  unfold Pipeline.columns_of, Pipeline.pdb_columns in Hcols. simpl in Hcols.
  inversion Hcols as [|? ? Hpi Hrest]; subst.
  split; [intros H; apply Hpi; apply in_or_app; left; exact H|].
  apply NoDup_app_remove_l in Hrest as Hpdb.
  split; intros H.
  - apply NoDup_remove_2 in Hrest. apply Hrest.
    apply in_or_app. left. exact H.
  - unfold Pipeline.other_columns in H. apply filter_In in H.
    destruct H as [_ H]. discriminate.
Qed.

Lemma must_be_set_columns (col : string) (v : pyval) :
  PG.must_be_set
    (PG.mk_col col (Pipeline.infer_pg_type col v)
       (existsb (String.eqb col) ["gene_id"; "transcript_id"; "protein_index"])) = true ->
  col = "gene_id" \/ col = "transcript_id" \/ col = "protein_index".
Proof.
  unfold PG.must_be_set, PG.primary_key, Pipeline.infer_pg_type. simpl.
  destruct (String.eqb col "gene_id") eqn:E1; [apply String.eqb_eq in E1; tauto|].
  destruct (String.eqb col "transcript_id") eqn:E2; [apply String.eqb_eq in E2; tauto|].
  destruct (String.eqb col "protein_index") eqn:E3; [apply String.eqb_eq in E3; tauto|].
  simpl. destruct (String.eqb col "pdb_ids"); [discriminate|].
  destruct (String.eqb col "pdb_files"); [discriminate|].
  destruct v; discriminate.
Qed.

Definition text_cell (v : pyval) : option PG.cell :=
  match v with
  | PyStr s => Some (PG.CText s)
  | _ => None
  end.

(** The key pair PostgreSQL compares for a record with text identity
    fields. *)
Definition entry_key (e : dict) : list (option PG.cell) :=
  [text_cell (get e "gene_id"); text_cell (get e "transcript_id")].

(** The row of a record whose fields the columns take, in the table created
    for [first]. *)
Section StoredRow.
Variable first : dict.
Hypothesis Hcols : NoDup (Pipeline.columns_of (Pipeline.other_columns first)).
Variable entry : dict.
Hypothesis Hacc :
  forall k, In k (Pipeline.other_columns first) ->
            accepted (column_type first k) (get entry k) = true.
Variable l : list pyval.
Variable pdbs : list (string * list byte).
Hypothesis Hget : get_default entry "pdb_files" (PyList []) = PyList l.
Hypothesis Hsub : Forall2 is_subrecord l pdbs.
Hypothesis Hnul : Forall (fun ic => PG.has_nul (fst ic) = false) pdbs.
Variable idx : nat.
Hypothesis Hidx : (Z.of_nat idx <= 2147483647)%Z.

Lemma stored_row_dict :
  exists row_dict,
    Pipeline.build_row_dict (Pipeline.other_columns first) idx entry = Ok row_dict.
Proof.
  unfold Pipeline.build_row_dict.
  destruct (set_fields_exists (Pipeline.other_columns first) entry) with
    (acc := [("protein_index", PG.Param (PyInt (Z.of_nat idx)))]) as [rd Hrd].
  { intros k Hk. destruct (accepted_cell _ _ (Hacc k Hk)) as (p & _ & Hp & _).
    exists p. exact Hp. }
  rewrite Hrd. cbn [bind]. rewrite Hget. cbn [iter bind].
  destruct (subscripts_of_subrecords _ _ Hsub) as [Hi Hc].
  rewrite Hi. cbn [bind]. rewrite Hc. cbn [bind]. eexists. reflexivity.
Qed.

Lemma stored_row_exists : exists r, to_row first idx entry = Ok r.
Proof.
  unfold to_row. destruct stored_row_dict as [rd Hrd]. rewrite Hrd. cbn [bind].
  destruct (build_row_dict_spec _ _ _ _ Hrd)
    as (pdbs0 & ids & contents & Hiter & Hi & Hc & Hgi & Hgc & Hother & Hpi).
  rewrite Hget in Hiter. cbn [iter] in Hiter. injection Hiter as <-.
  destruct (subscripts_of_subrecords _ _ Hsub) as [Hi' Hc'].
  rewrite Hi' in Hi. injection Hi as <-. rewrite Hc' in Hc. injection Hc as <-.
  destruct (added_columns_fresh first Hcols) as (Fpi & Fids & Ffiles).
  unfold PG.build_row. rewrite columns_in_schema.
  apply mapM_exists. intros d Hd.
  unfold fresh_table, Pipeline.col_defs in Hd. cbn [PG.schema] in Hd.
  apply in_map_iff in Hd. destruct Hd as [col [<- Hcol]]. cbn [PG.col_name PG.col_type].
  rewrite (existsb_eqb_in col _ Hcol).
  apply in_columns_of in Hcol. destruct Hcol as [-> | [Hcol | [-> | ->]]].
  - rewrite (Hpi Fpi). simpl.
    assert (Hr : ((-2147483648 <=? Z.of_nat idx)%Z && (Z.of_nat idx <=? 2147483647)%Z) = true)
      by (apply andb_true_intro; split; [apply Z.leb_le; lia|apply Z.leb_le; exact Hidx]).
    rewrite Hr. eexists. reflexivity.
  - assert (Hne1 : col <> "pdb_ids") by (intros ->; contradiction).
    assert (Hne2 : col <> "pdb_files") by (intros ->; contradiction).
    destruct (Hother col Hne1 Hne2 Hcol) as [p [Hp Hg]]. rewrite Hg.
    destruct (accepted_cell _ _ (Hacc col Hcol)) as (p' & c & Hp' & Hs).
    rewrite Hp in Hp'. injection Hp' as <-.
    unfold column_type in Hs. rewrite Hs. eexists. reflexivity.
  - rewrite Hgi. simpl. rewrite (text_elements_ok _ Hnul). eexists. reflexivity.
  - rewrite Hgc. simpl. rewrite bytes_elements_of. eexists. reflexivity.
Qed.

Variable r : PG.row.
Hypothesis Hrow : to_row first idx entry = Ok r.

Lemma stored_position :
  assoc_get String.eqb "protein_index" r = Some (PG.CInt (Z.of_nat idx)).
Proof.
  destruct (added_columns_fresh first Hcols) as (Fpi & _).
  assert (Hin : In "protein_index" (Pipeline.columns_of (Pipeline.other_columns first)))
    by (apply in_columns_of; tauto).
  destruct (to_row_cell _ _ _ _ _ Hrow Hin) as (rd & p & c & Hrd & Hp & Hc & Hr).
  destruct (build_row_dict_spec _ _ _ _ Hrd) as (_ & _ & _ & _ & _ & _ & _ & _ & _ & Hpi).
  rewrite (Hpi Fpi) in Hp. injection Hp as <-. simpl in Hc.
  destruct ((-2147483648 <=? Z.of_nat idx)%Z && (Z.of_nat idx <=? 2147483647)%Z);
    [|discriminate].
  injection Hc as <-. exact Hr.
Qed.

(** A field its column hands back as it was. *)
Lemma stored_kept (k : string) :
  In k (Pipeline.other_columns first) ->
  kept (column_type first k) (get entry k) = true ->
  exists c, assoc_get String.eqb k r = Some c
            /\ (forall s, get entry k = PyStr s -> c = PG.CText s)
            /\ PG.cell_value c = get entry k.
Proof.
  intros Hk Hkept. destruct (added_columns_fresh first Hcols) as (Fpi & Fids & Ffiles).
  assert (Hin : In k (Pipeline.columns_of (Pipeline.other_columns first)))
    by (apply in_columns_of; tauto).
  destruct (to_row_cell _ _ _ _ _ Hrow Hin) as (rd & p & c & Hrd & Hp & Hc & Hr).
  destruct (build_row_dict_spec _ _ _ _ Hrd)
    as (_ & _ & _ & _ & _ & _ & _ & _ & Hother & _).
  assert (Hne1 : k <> "pdb_ids") by (intros ->; contradiction).
  assert (Hne2 : k <> "pdb_files") by (intros ->; contradiction).
  destruct (Hother k Hne1 Hne2 Hk) as [p' [Hp' Hg]].
  rewrite Hg in Hp. injection Hp as <-.
  destruct (kept_cell _ _ Hkept) as (p'' & c' & Hp'' & Hs & Hv & Ht).
  rewrite Hp' in Hp''. injection Hp'' as <-.
  unfold column_type in Hs. rewrite Hs in Hc. injection Hc as <-.
  exists c'. split; [exact Hr|]. split; [exact Ht|exact Hv].
Qed.

Lemma stored_pdbs :
  Pipeline.rebuild_pdbs (PG.fetch r) = Ok (PyList (map subrecord_of pdbs)).
Proof.
  exact (rebuild_pdbs_of_row _ _ _ _ _ _ Hget Hsub Hrow).
Qed.

Lemma stored_position_key : PG.position r = Ok (Z.of_nat idx).
Proof.
  unfold PG.position. rewrite stored_position. reflexivity.
Qed.

(** Every column of the table has a cell in the row. *)
Lemma stored_column (k : string) :
  In k (Pipeline.other_columns first) ->
  exists v, PG.column (PG.fetch r) k = Ok v.
Proof.
  intros Hk.
  assert (Hin : In k (Pipeline.columns_of (Pipeline.other_columns first)))
    by (apply in_columns_of; tauto).
  destruct (to_row_cell _ _ _ _ _ Hrow Hin) as (_ & _ & c & _ & _ & _ & Hr).
  unfold PG.column. rewrite fetch_lookup, Hr. eexists. reflexivity.
Qed.

Hypothesis Hgene : In "gene_id" (Pipeline.other_columns first).
Hypothesis Htrans : In "transcript_id" (Pipeline.other_columns first).
Variables g t : string.
Hypothesis Hg : get entry "gene_id" = PyStr g.
Hypothesis Ht : get entry "transcript_id" = PyStr t.
Hypothesis Hkg : kept (column_type first "gene_id") (get entry "gene_id") = true.
Hypothesis Hkt :
  kept (column_type first "transcript_id") (get entry "transcript_id") = true.

Lemma stored_gene : assoc_get String.eqb "gene_id" r = Some (PG.CText g).
Proof.
  destruct (stored_kept "gene_id" Hgene Hkg) as (c & Hc & Htext & _).
  rewrite (Htext g Hg) in Hc. exact Hc.
Qed.

Lemma stored_transcript : assoc_get String.eqb "transcript_id" r = Some (PG.CText t).
Proof.
  destruct (stored_kept "transcript_id" Htrans Hkt) as (c & Hc & Htext & _).
  rewrite (Htext t Ht) in Hc. exact Hc.
Qed.

Lemma stored_key : PG.key_of r = entry_key entry.
Proof.
  unfold PG.key_of, PG.primary_key, entry_key. cbn [map].
  rewrite stored_gene, stored_transcript, Hg, Ht. reflexivity.
Qed.

Lemma stored_not_null (rows0 : list PG.row) :
  PG.not_null_ok (PG.mk_table (Pipeline.col_defs first) rows0) r = true.
Proof.
  unfold PG.not_null_ok. cbn [PG.schema]. apply forallb_forall. intros d Hd.
  unfold Pipeline.col_defs in Hd. apply in_map_iff in Hd. destruct Hd as [col [<- Hcol]].
  destruct (PG.must_be_set _) eqn:Hm; [|reflexivity]. simpl.
  destruct (must_be_set_columns _ _ Hm) as [-> | [-> | ->]].
  - rewrite stored_gene. reflexivity.
  - rewrite stored_transcript. reflexivity.
  - rewrite stored_position. reflexivity.
Qed.

End StoredRow.

(** *** One record, read back *)

Lemma rebuild_entry_exact (row : PG.series) (g : string -> pyval)
    (key_order : list string) :
  NoDup key_order ->
  (forall k, In k key_order -> field_value row k = Ok (g k)) ->
  forall acc,
    (forall k, In k key_order -> ~ In k (map fst acc)) ->
    Pipeline.rebuild_entry key_order row acc
    = Ok (acc ++ map (fun k => (k, g k)) key_order).
Proof.
  induction key_order as [|key rest IH]; simpl; intros Hnd Hval acc Hfresh.
  - rewrite app_nil_r. reflexivity.
  - inversion Hnd as [|? ? Hk Hr]; subst.
    pose proof (Hval key (or_introl eq_refl)) as Hv. unfold field_value in Hv.
    rewrite Hv. cbn [bind].
    rewrite assoc_set_fresh
      by (apply assoc_get_none_iff; apply Hfresh; left; reflexivity).
    rewrite IH; [rewrite <- app_assoc; reflexivity|exact Hr| |].
    + intros k Hin. apply Hval. right. exact Hin.
    + intros k Hin Hacc. rewrite map_app, in_app_iff in Hacc. simpl in Hacc.
      destruct Hacc as [Hacc|[<-|[]]]; [|contradiction].
      apply (Hfresh k); [right; exact Hin|exact Hacc].
Qed.

Lemma dict_rebuild (d : dict) :
  NoDup (keys d) -> map (fun k => (k, get d k)) (keys d) = d.
Proof.
  unfold keys. induction d as [|[k v] r IH]; simpl; intros Hnd; [reflexivity|].
  inversion Hnd as [|? ? Hk Hr]; subst. f_equal.
  - unfold get, get_default, dict_lookup. simpl. rewrite String.eqb_refl. reflexivity.
  - rewrite <- (IH Hr) at 2. apply map_ext_in. intros k' Hk'.
    unfold get, get_default, dict_lookup. simpl.
    destruct (String.eqb k' k) eqn:E; [|reflexivity].
    apply String.eqb_eq in E. subst. contradiction.
Qed.

Lemma get_text_present (d : dict) (k s : string) :
  get d k = PyStr s -> dict_lookup k d = Some (PyStr s) /\ In k (keys d).
Proof.
  unfold get, get_default. destruct (dict_lookup k d) as [v|] eqn:E; [|discriminate].
  intros ->. split; [reflexivity|].
  apply lookup_some_in in E. apply (in_map fst) in E. exact E.
Qed.

(** *** Well-formed records *)

Section OneRecord.
Variable first : dict.
Variable entry : dict.
Hypothesis Hwf : wf_record first entry = true.

Lemma wf_record_parts :
  keys entry = keys first
  /\ forallb (field_ok first) entry = true
  /\ (exists g, get entry "gene_id" = PyStr g)
  /\ (exists t, get entry "transcript_id" = PyStr t)
  /\ has_field entry "sequence" = true
  /\ text_or_none (get entry "sequence") = true.
Proof.
  unfold wf_record in Hwf.
  repeat (apply andb_prop in Hwf; destruct Hwf as [Hwf ?H]).
  unfold strings_eqb in Hwf.
  destruct (list_eq_dec string_dec (keys entry) (keys first)); [|discriminate].
  repeat split; try assumption.
  - destruct (get entry "gene_id"); try discriminate. eexists. reflexivity.
  - destruct (get entry "transcript_id"); try discriminate. eexists. reflexivity.
Qed.

Lemma wf_pdbs :
  exists pdbs,
    get_default entry "pdb_files" (PyList []) = PyList (map subrecord_of pdbs)
    /\ Forall (fun ic => PG.has_nul (fst ic) = false) pdbs.
Proof.
  destruct wf_record_parts as (_ & Hall & _).
  unfold get_default. destruct (dict_lookup "pdb_files" entry) as [v|] eqn:Hv.
  - rewrite forallb_forall in Hall. specialize (Hall _ (lookup_some_in _ _ _ Hv)).
    unfold field_ok in Hall. simpl in Hall.
    destruct v; try discriminate. simpl in Hall.
    destruct (plain_subrecords_shape _ Hall) as [pdbs [-> Hn]].
    exists pdbs. split; [reflexivity|exact Hn].
  - exists []. split; [reflexivity|constructor].
Qed.

End OneRecord.

(** The row of a well-formed record whose fields its columns hand back as
    they were, and the record rebuilt from it. *)
Section WellFormedRow.
Variable first : dict.
Hypothesis Hkeys : NoDup (keys first).
Hypothesis Hcols : NoDup (Pipeline.columns_of (Pipeline.other_columns first)).
Variable entry : dict.
Hypothesis Hwf : wf_record first entry = true.
Hypothesis Hret : returned_exactly first entry = true.
Variable idx : nat.
Hypothesis Hidx : (Z.of_nat idx <= 2147483647)%Z.

Lemma returned_kept (k : string) :
  In k (Pipeline.other_columns first) ->
  kept (column_type first k) (get entry k) = true.
Proof.
  unfold returned_exactly in Hret. rewrite forallb_forall in Hret. apply Hret.
Qed.

Lemma returned_accepted (k : string) :
  In k (Pipeline.other_columns first) ->
  accepted (column_type first k) (get entry k) = true.
Proof.
  intros Hk. apply kept_accepted, returned_kept, Hk.
Qed.

(** The stored row exists. *)
Lemma row_exists : exists r, to_row first idx entry = Ok r.
Proof.
  destruct (wf_pdbs first entry Hwf) as [pdbs [Hget Hnul]].
  exact (stored_row_exists first Hcols entry returned_accepted _ pdbs Hget
           (subrecords_are_subrecords pdbs) Hnul idx Hidx).
Qed.

Variable r : PG.row.
Hypothesis Hrow : to_row first idx entry = Ok r.

(** What a stored row holds, and what is rebuilt from it. *)
Lemma row_spec :
  assoc_get String.eqb "protein_index" r = Some (PG.CInt (Z.of_nat idx))
  /\ (forall k, In k (Pipeline.other_columns first) ->
        exists c, assoc_get String.eqb k r = Some c
                  /\ (forall s, get entry k = PyStr s -> c = PG.CText s)
                  /\ PG.cell_value c = get entry k)
  /\ Pipeline.rebuild_pdbs (PG.fetch r)
     = Ok (get_default entry "pdb_files" (PyList [])).
Proof.
  split; [exact (stored_position first Hcols entry idx r Hrow)|]. split.
  - intros k Hk.
    exact (stored_kept first Hcols entry idx r Hrow k Hk (returned_kept k Hk)).
  - destruct (wf_pdbs first entry Hwf) as [pdbs [Hget _]]. rewrite Hget.
    exact (rebuild_pdbs_of_row _ _ _ _ _ _ Hget (subrecords_are_subrecords pdbs) Hrow).
Qed.

Lemma identity_column (k s : string) :
  get entry k = PyStr s -> k <> "pdb_files" ->
  assoc_get String.eqb k r = Some (PG.CText s).
Proof.
  intros Hg Hne.
  destruct (wf_record_parts first entry Hwf) as (Hk & _).
  destruct (get_text_present _ _ _ Hg) as [_ Hin]. rewrite Hk in Hin.
  destruct row_spec as (_ & Hother & _).
  destruct (Hother k (other_columns_in _ _ Hin Hne)) as (c & Hc & Ht & _).
  rewrite (Ht s Hg) in Hc. exact Hc.
Qed.

Lemma key_of_row : PG.key_of r = entry_key entry.
Proof.
  destruct (wf_record_parts first entry Hwf) as (_ & _ & [g Hg] & [t Ht] & _).
  unfold PG.key_of, PG.primary_key, entry_key. simpl.
  rewrite (identity_column _ _ Hg), (identity_column _ _ Ht) by discriminate.
  rewrite Hg, Ht. reflexivity.
Qed.

Lemma position_of_row : PG.position r = Ok (Z.of_nat idx).
Proof.
  destruct row_spec as (Hpi & _).
  unfold PG.position. rewrite Hpi. reflexivity.
Qed.

Lemma not_null_of_row (rows0 : list PG.row) :
  PG.not_null_ok (PG.mk_table (Pipeline.col_defs first) rows0) r = true.
Proof.
  unfold PG.not_null_ok. cbn [PG.schema]. apply forallb_forall. intros d Hd.
  unfold Pipeline.col_defs in Hd. apply in_map_iff in Hd. destruct Hd as [col [<- Hcol]].
  destruct (PG.must_be_set _) eqn:Hm; [|reflexivity]. simpl.
  destruct (wf_record_parts first entry Hwf) as (_ & _ & [g Hg] & [t Ht] & _).
  destruct row_spec as (Hpi & _).
  destruct (must_be_set_columns _ _ Hm) as [-> | [-> | ->]].
  - rewrite (identity_column _ _ Hg) by discriminate. reflexivity.
  - rewrite (identity_column _ _ Ht) by discriminate. reflexivity.
  - rewrite Hpi. reflexivity.
Qed.

(** The record rebuilt from its stored row is the record itself. *)
Lemma from_row_exact : from_row (keys first) r = Ok entry.
Proof.
  destruct (wf_record_parts first entry Hwf) as (Hk & _).
  destruct row_spec as (_ & Hother & Hpdbs).
  unfold from_row.
  rewrite (rebuild_entry_exact (PG.fetch r) (get entry) (keys first) Hkeys).
  - simpl. rewrite <- Hk. rewrite dict_rebuild by (rewrite Hk; exact Hkeys). reflexivity.
  - intros k Hin. unfold field_value. destruct (String.eqb k "pdb_files") eqn:E.
    + apply String.eqb_eq in E. subst k. rewrite Hpdbs. f_equal.
      rewrite <- Hk in Hin. destruct (lookup_of_key _ _ Hin) as [v Hv].
      unfold get, get_default. rewrite Hv. reflexivity.
    + apply String.eqb_neq in E.
      destruct (Hother k (other_columns_in _ _ Hin E)) as (c & Hc & _ & Hv).
      unfold PG.column. rewrite fetch_lookup, Hc. simpl. rewrite Hv. reflexivity.
  - intros k _ [].
Qed.

End WellFormedRow.

(** *** The whole collection *)

(** The rows of a collection, positions counted from [idx]. *)
Fixpoint to_rows (first : dict) (idx : nat) (data : list dict) : result (list PG.row) :=
  match data with
  | [] => Ok []
  | e :: rest =>
      r <- to_row first idx e ;;
      rs <- to_rows first (S idx) rest ;;
      Ok (r :: rs)
  end.

Fixpoint keyed (idx : nat) (rs : list PG.row) : list (Z * PG.row) :=
  match rs with
  | [] => []
  | r :: rest => (Z.of_nat idx, r) :: keyed (S idx) rest
  end.

Fixpoint keys_distinct (keys : list (list (option PG.cell))) : bool :=
  match keys with
  | [] => true
  | k :: rest => negb (existsb (fun k' => PG.key_eqb k' k) rest) && keys_distinct rest
  end.

Lemma order_keyed (rs : list PG.row) :
  forall idx, PG.order_by_position (keyed idx rs) = keyed idx rs.
Proof.
  induction rs as [|r rest IH]; intros idx; [reflexivity|].
  change (PG.order_by_position (keyed idx (r :: rest)))
    with (PG.insert_by_position (Z.of_nat idx) r
            (PG.order_by_position (keyed (S idx) rest))).
  rewrite IH. destruct rest as [|r' rest']; [reflexivity|].
  change (keyed (S idx) (r' :: rest'))
    with ((Z.of_nat (S idx), r') :: keyed (S (S idx)) rest').
  cbn [PG.insert_by_position].
  assert (H : (Z.of_nat idx <=? Z.of_nat (S idx))%Z = true) by (apply Z.leb_le; lia).
  rewrite H. reflexivity.
Qed.

Lemma keyed_rows (rs : list PG.row) :
  forall idx, map (fun kr => PG.fetch (snd kr)) (keyed idx rs) = map PG.fetch rs.
Proof.
  induction rs as [|r rest IH]; intros idx; simpl; [reflexivity|]. rewrite IH. reflexivity.
Qed.

Lemma mapM_map {A B C : Type} (f : B -> result C) (g : A -> B) (l : list A) :
  mapM f (map g l) = mapM (fun x => f (g x)) l.
Proof.
  induction l as [|x r IH]; simpl; [reflexivity|]. rewrite IH. reflexivity.
Qed.

Lemma collection_rows (first : dict) (data : list dict) :
  NoDup (keys first) ->
  NoDup (Pipeline.columns_of (Pipeline.other_columns first)) ->
  forallb (wf_record first) data = true ->
  forallb (returned_exactly first) data = true ->
  forall idx,
    (Z.of_nat (idx + List.length data) <= 2147483648)%Z ->
    exists rs,
      to_rows first idx data = Ok rs
      /\ mapM (from_row (keys first)) rs = Ok data
      /\ mapM (fun r => k <- PG.position r ;; Ok (k, r)) rs = Ok (keyed idx rs)
      /\ map PG.key_of rs = map entry_key data
      /\ Forall (fun r => forall rows0,
                   PG.not_null_ok (PG.mk_table (Pipeline.col_defs first) rows0) r = true) rs.
Proof.
  intros Hkeys Hcols. induction data as [|e rest IH]; simpl; intros Hwf Hret idx Hlen.
  - exists []. repeat split. constructor.
  - apply andb_prop in Hwf, Hret. destruct Hwf as [He Hrest], Hret as [Re Rrest].
    assert (Hidx : (Z.of_nat idx <= 2147483647)%Z) by lia.
    destruct (row_exists first Hcols e He Re idx Hidx) as [r Hr].
    destruct (IH Hrest Rrest (S idx)) as (rs & Hrs & Hfrom & Hpos & Hkey & Hnn); [lia|].
    exists (r :: rs). rewrite Hr, Hrs. cbn [bind mapM map keyed].
    rewrite (from_row_exact first Hkeys Hcols e He Re idx r Hr), Hfrom.
    rewrite (position_of_row first Hcols e He Re idx r Hr), Hpos.
    rewrite (key_of_row first Hcols e He Re idx r Hr), Hkey.
    repeat split. constructor; [|exact Hnn].
    intros rows0. exact (not_null_of_row first Hcols e He Re idx r Hr rows0).
Qed.

Lemma conflicts_of_keys (s : list PG.col_def) (rows0 : list PG.row) (r : PG.row) :
  PG.conflicts (PG.mk_table s rows0) r
  = existsb (fun k' => PG.key_eqb k' (PG.key_of r)) (map PG.key_of rows0).
Proof.
  unfold PG.conflicts. cbn [PG.rows].
  induction rows0 as [|r' rest IH]; cbn [existsb map]; [reflexivity|].
  rewrite IH. reflexivity.
Qed.

Lemma key_eqb_sym (a b : list (option PG.cell)) : PG.key_eqb a b = PG.key_eqb b a.
Proof.
  revert b. induction a as [|x a' IH]; intros [|y b']; simpl; try reflexivity.
  rewrite IH. f_equal.
  destruct x as [c|], y as [c'|]; simpl; try reflexivity.
  unfold PG.cell_eqb.
  destruct (PG.cell_eq_dec c c'), (PG.cell_eq_dec c' c); congruence.
Qed.

Lemma keys_distinct_last (ks : list (list (option PG.cell))) (k : list (option PG.cell)) :
  forall rest,
    keys_distinct (ks ++ k :: rest) = true ->
    existsb (fun k' => PG.key_eqb k' k) ks = false.
Proof.
  induction ks as [|k0 ks' IH]; simpl; intros rest H; [reflexivity|].
  apply andb_prop in H. destruct H as [H0 Hr]. apply negb_true_iff in H0.
  rewrite (IH _ Hr), orb_false_r.
  rewrite existsb_app in H0. apply orb_false_elim in H0. destruct H0 as [_ H0].
  simpl in H0. apply orb_false_elim in H0. destruct H0 as [H0 _].
  rewrite key_eqb_sym. exact H0.
Qed.

(** With no key conflict, the loop appends the row of every record. *)
Lemma insert_loop_appends (first : dict) (data : list dict) :
  forall rs rows0 idx total,
    to_rows first idx data = Ok rs ->
    Forall (fun r => forall rows1,
              PG.not_null_ok (PG.mk_table (Pipeline.col_defs first) rows1) r = true) rs ->
    keys_distinct (map PG.key_of (rows0 ++ rs)) = true ->
    exists total',
      Pipeline.insert_loop (Pipeline.other_columns first)
        (PG.mk_table (Pipeline.col_defs first) rows0) idx total data
      = Ok (PG.mk_table (Pipeline.col_defs first) (rows0 ++ rs), total').
Proof.
  induction data as [|e rest IH]; simpl; intros rs rows0 idx total Hrs Hnn Hd.
  - injection Hrs as <-. rewrite app_nil_r. exists total. reflexivity.
  - bind_inv Hrs. rename a into r. bind_inv Hrs. rename a into rs'.
    injection Hrs as <-. inversion Hnn as [|? ? Hr Hnn']; subst.
    unfold to_row in Hm. bind_inv Hm. rename a into row_dict.
    rewrite Hm1. cbn [bind]. unfold PG.execute_insert.
    change (PG.build_row (PG.mk_table (Pipeline.col_defs first) rows0))
      with (PG.build_row (fresh_table first)).
    rewrite Hm. cbn [bind]. rewrite (Hr rows0). cbn [negb].
    rewrite conflicts_of_keys.
    rewrite map_app in Hd. simpl in Hd.
    rewrite (keys_distinct_last _ _ _ Hd). cbn [bind PG.schema PG.rows].
    destruct (IH rs' (rows0 ++ [r]) (S idx)
                (total + Pipeline.binaries_len (assoc_get String.eqb "pdb_files" row_dict))
                Hm0 Hnn') as [total' Ht].
    { rewrite <- app_assoc. simpl. rewrite map_app. exact Hd. }
    exists total'. rewrite Ht, <- app_assoc. reflexivity.
Qed.

Lemma cell_eqb_text (s s' : string) :
  PG.cell_eqb (PG.CText s) (PG.CText s') = String.eqb s s'.
Proof.
  unfold PG.cell_eqb. destruct (PG.cell_eq_dec (PG.CText s) (PG.CText s')) as [E|E].
  - injection E as ->. symmetry. apply String.eqb_refl.
  - symmetry. apply String.eqb_neq. intros ->. apply E. reflexivity.
Qed.

(** Records whose two identity fields are texts. *)
Definition text_identity (e : dict) : bool :=
  is_text (get e "gene_id") && is_text (get e "transcript_id").

Lemma text_identity_parts (e : dict) :
  text_identity e = true ->
  exists g t, get e "gene_id" = PyStr g /\ get e "transcript_id" = PyStr t.
Proof.
  unfold text_identity. intros H. apply andb_prop in H. destruct H as [Hg Ht].
  destruct (get e "gene_id"); try discriminate.
  destruct (get e "transcript_id"); try discriminate.
  eexists. eexists. split; reflexivity.
Qed.

Lemma wf_text_identity (first e : dict) :
  wf_record first e = true -> text_identity e = true.
Proof.
  intros Hwf. destruct (wf_record_parts first e Hwf) as (_ & _ & [g Hg] & [t Ht] & _).
  unfold text_identity. rewrite Hg, Ht. reflexivity.
Qed.

Lemma entry_key_eqb (e e' : dict) :
  text_identity e = true -> text_identity e' = true ->
  PG.key_eqb (entry_key e') (entry_key e) = same_identity e e'.
Proof.
  intros He He'.
  destruct (text_identity_parts e He) as (g & t & Hg & Ht).
  destruct (text_identity_parts e' He') as (g' & t' & Hg' & Ht').
  unfold entry_key, same_identity. rewrite Hg, Ht, Hg', Ht'. simpl.
  rewrite !cell_eqb_text, andb_true_r, (String.eqb_sym g' g), (String.eqb_sym t' t).
  reflexivity.
Qed.

Lemma keys_distinct_of_identities (data : list dict) :
  forallb text_identity data = true ->
  keys_distinct (map entry_key data) = identities_distinct data.
Proof.
  induction data as [|e rest IH];
    cbn [map keys_distinct identities_distinct forallb]; intros H; [reflexivity|].
  apply andb_prop in H. destruct H as [He Hrest]. rewrite (IH Hrest). f_equal. f_equal.
  clear IH. induction rest as [|e' rest' IH']; cbn [map existsb]; [reflexivity|].
  cbn [forallb] in Hrest. apply andb_prop in Hrest. destruct Hrest as [He' Hrest'].
  rewrite (entry_key_eqb e e' He He'), (IH' Hrest'). reflexivity.
Qed.

Lemma wf_text_identities (first : dict) (data : list dict) :
  forallb (wf_record first) data = true -> forallb text_identity data = true.
Proof.
  intros H. apply forallb_forall. intros e He. rewrite forallb_forall in H.
  exact (wf_text_identity first e (H e He)).
Qed.

(** *** Fingerprints of well-formed records *)

Lemma hash_pdbs_ok (pdbs : list (string * list byte)) :
  exists bs, mapM Pipeline.hash_pdb (map subrecord_of pdbs) = Ok bs.
Proof.
  apply mapM_exists. intros x Hx. apply in_map_iff in Hx. destruct Hx as [[i c] [<- _]].
  eexists. reflexivity.
Qed.

Lemma hash_protein_ok (first e : dict) :
  wf_record first e = true -> exists h, Pipeline.hash_protein e = Ok h.
Proof.
  intros Hwf.
  destruct (wf_record_parts first e Hwf) as (_ & _ & [g Hg] & [t Ht] & Hseq & Hs).
  destruct (wf_pdbs first e Hwf) as [pdbs [Hp _]].
  destruct (get_text_present _ _ _ Hg) as [Hlg _].
  destruct (get_text_present _ _ _ Ht) as [Hlt _].
  unfold Pipeline.hash_protein, getitem. rewrite Hlg, Hlt. cbn [bind encode].
  unfold has_field in Hseq. unfold get, get_default in Hs.
  destruct (dict_lookup "sequence" e) as [s|]; [|discriminate]. cbn [bind].
  assert (Henc : exists u, encode (py_or s (PyStr "")) = Ok u).
  { destruct s; try discriminate; unfold py_or; simpl.
    - eexists. reflexivity.
    - destruct (negb (String.eqb s "")); eexists; reflexivity. }
  destruct Henc as [u Hu]. rewrite Hu. cbn [bind]. rewrite Hp. cbn [iter bind].
  destruct (hash_pdbs_ok pdbs) as [bs Hbs]. rewrite Hbs. cbn [bind].
  eexists. reflexivity.
Qed.

Lemma col_def_names (first : dict) :
  map PG.col_name (Pipeline.col_defs first)
  = Pipeline.columns_of (Pipeline.other_columns first).
Proof.
  unfold Pipeline.col_defs. rewrite map_map. cbn [PG.col_name]. apply map_id.
Qed.

(** *** Fingerprints of records that fit *)

(** The digest [hash_protein] computes from the seven fields it reads. *)
Definition fingerprint (g t s : string) (exons protein_coding nmd : pyval)
    (pdbs : list (string * list byte)) : string :=
  SHA256.hexdigest
    (list_byte_of_string g ++ list_byte_of_string t ++ list_byte_of_string s
     ++ Pickle.dumps exons
     ++ list_byte_of_string (Repr.str protein_coding)
     ++ list_byte_of_string (Repr.str nmd)
     ++ List.concat (map (fun ic => list_byte_of_string (fst ic) ++ snd ic) pdbs)).

Lemma encode_text_or_empty (s : string) :
  encode (py_or (PyStr s) (PyStr "")) = Ok (list_byte_of_string s).
Proof.
  unfold py_or. cbn [truthy]. destruct (String.eqb s "") eqn:E; cbn [negb encode].
  - apply String.eqb_eq in E. subst s. reflexivity.
  - reflexivity.
Qed.

Lemma hash_pdbs_of (l : list pyval) (pdbs : list (string * list byte)) :
  Forall2 is_subrecord l pdbs ->
  mapM Pipeline.hash_pdb l
  = Ok (map (fun ic => list_byte_of_string (fst ic) ++ snd ic) pdbs).
Proof.
  induction 1 as [|p ic l' pdbs' [Hi Hc] _ IH]; [reflexivity|].
  cbn [mapM map]. unfold Pipeline.hash_pdb at 1. rewrite Hi, Hc.
  cbn [bind encode as_bytes]. rewrite IH. reflexivity.
Qed.

Lemma hash_protein_of (e : dict) (g t s : string) (x pc n : pyval)
    (l : list pyval) (pdbs : list (string * list byte)) :
  dict_lookup "gene_id" e = Some (PyStr g) ->
  dict_lookup "transcript_id" e = Some (PyStr t) ->
  dict_lookup "sequence" e = Some (PyStr s) ->
  dict_lookup "exons" e = Some x ->
  dict_lookup "protein_coding" e = Some pc ->
  dict_lookup "nmd" e = Some n ->
  dict_lookup "pdb_files" e = Some (PyList l) ->
  Forall2 is_subrecord l pdbs ->
  Pipeline.hash_protein e = Ok (fingerprint g t s x pc n pdbs).
Proof.
  intros Hg Ht Hs Hx Hpc Hn Hl Hsub.
  unfold Pipeline.hash_protein, getitem, get_default.
  rewrite Hg, Ht, Hs, Hx, Hpc, Hn, Hl. cbn [bind encode].
  rewrite encode_text_or_empty. cbn [bind iter].
  rewrite (hash_pdbs_of l pdbs Hsub). cbn [bind]. reflexivity.
Qed.

Lemma has_field_get (d : dict) (k : string) :
  has_field d k = true -> dict_lookup k d = Some (get d k).
Proof.
  unfold has_field, get, get_default.
  destruct (dict_lookup k d); [reflexivity|discriminate].
Qed.

(** *** Records that fit *)

Section FittingRecord.
Variable first : dict.
Hypothesis Hcols : NoDup (Pipeline.columns_of (Pipeline.other_columns first)).
Hypothesis Hfirst : fits first first = true.
Variable entry : dict.
Hypothesis Hfit : fits first entry = true.

Lemma fits_parts (e : dict) :
  fits first e = true ->
  (forall k, In k (Pipeline.other_columns first) ->
             accepted (column_type first k) (get e k) = true)
  /\ (exists g t s, get e "gene_id" = PyStr g /\ get e "transcript_id" = PyStr t
                    /\ get e "sequence" = PyStr s)
  /\ (forall k, In k fingerprint_fields ->
                has_field e k = true /\ kept (column_type first k) (get e k) = true)
  /\ (exists l pdbs, dict_lookup "pdb_files" e = Some (PyList l)
                     /\ Forall2 is_subrecord l pdbs
                     /\ Forall (fun ic => PG.has_nul (fst ic) = false) pdbs).
Proof.
  unfold fits. intros H.
  repeat (apply andb_prop in H; destruct H as [H ?H]).
  rename H into Hacc, H3 into Htext, H2 into Hfp, H1 into Hst, H0 into Hpdb.
  split; [rewrite forallb_forall in Hacc; exact Hacc|]. split; [|split].
  - cbn [forallb] in Htext.
    repeat (apply andb_prop in Htext; destruct Htext as [?H Htext]).
    destruct (get e "gene_id"); try discriminate.
    destruct (get e "transcript_id"); try discriminate.
    destruct (get e "sequence"); try discriminate.
    do 3 eexists. repeat split.
  - rewrite forallb_forall in Hfp. intros k Hk.
    apply andb_prop. exact (Hfp k Hk).
  - destruct (dict_lookup "pdb_files" e) as [[| | | | |l|]|]; try discriminate.
    destruct (subrecords_ok_shape l Hpdb) as [pdbs [Hs Hn]].
    exists l, pdbs. repeat split; assumption.
Qed.

(** The columns of the fields the fingerprint reads. *)
Lemma fingerprint_columns (k : string) :
  In k fingerprint_fields -> In k (Pipeline.other_columns first).
Proof.
  intros Hk. destruct (fits_parts first Hfirst) as (_ & _ & Hfp & _).
  destruct (Hfp k Hk) as [Hhas _].
  apply other_columns_in; [exact (has_field_key _ _ Hhas)|].
  intros ->. simpl in Hk. intuition discriminate.
Qed.

Lemma subrecords_column : In "pdb_files" (keys first).
Proof.
  destruct (fits_parts first Hfirst) as (_ & _ & _ & (l & pdbs & Hl & _)).
  apply has_field_key. unfold has_field. rewrite Hl. reflexivity.
Qed.

Lemma fits_text_identity : text_identity entry = true.
Proof.
  destruct (fits_parts entry Hfit) as (_ & (g & t & s & Hg & Ht & _) & _).
  unfold text_identity. rewrite Hg, Ht. reflexivity.
Qed.

Lemma fits_subrecord_count :
  exists n, len (get_default entry "pdb_files" (PyList [])) = Ok n.
Proof.
  destruct (fits_parts entry Hfit) as (_ & _ & _ & (l & pdbs & Hl & _)).
  unfold get_default. rewrite Hl. eexists. reflexivity.
Qed.

Variable idx : nat.
Hypothesis Hidx : (Z.of_nat idx <= 2147483647)%Z.

Lemma fits_row_exists : exists r, to_row first idx entry = Ok r.
Proof.
  destruct (fits_parts entry Hfit) as (Hacc & _ & _ & (l & pdbs & Hl & Hsub & Hnul)).
  assert (Hget : get_default entry "pdb_files" (PyList []) = PyList l)
    by (unfold get_default; rewrite Hl; reflexivity).
  exact (stored_row_exists first Hcols entry Hacc l pdbs Hget Hsub Hnul idx Hidx).
Qed.

Variable r : PG.row.
Hypothesis Hrow : to_row first idx entry = Ok r.

Lemma fits_key_of_row : PG.key_of r = entry_key entry.
Proof.
  destruct (fits_parts entry Hfit) as (_ & (g & t & s & Hg & Ht & _) & Hfp & _).
  apply (stored_key first Hcols entry idx r Hrow
           (fingerprint_columns "gene_id" ltac:(simpl; tauto))
           (fingerprint_columns "transcript_id" ltac:(simpl; tauto)) g t Hg Ht).
  - exact (proj2 (Hfp "gene_id" ltac:(simpl; tauto))).
  - exact (proj2 (Hfp "transcript_id" ltac:(simpl; tauto))).
Qed.

Lemma fits_not_null (rows0 : list PG.row) :
  PG.not_null_ok (PG.mk_table (Pipeline.col_defs first) rows0) r = true.
Proof.
  destruct (fits_parts entry Hfit) as (_ & (g & t & s & Hg & Ht & _) & Hfp & _).
  apply (stored_not_null first Hcols entry idx r Hrow
           (fingerprint_columns "gene_id" ltac:(simpl; tauto))
           (fingerprint_columns "transcript_id" ltac:(simpl; tauto)) g t Hg Ht).
  - exact (proj2 (Hfp "gene_id" ltac:(simpl; tauto))).
  - exact (proj2 (Hfp "transcript_id" ltac:(simpl; tauto))).
Qed.

(** The record rebuilt from the row has the identity key and the
    fingerprint of the record that was stored. *)
Lemma fits_from_row :
  exists out h,
    from_row (keys first) r = Ok out
    /\ identity out = identity entry
    /\ Pipeline.hash_protein entry = Ok h
    /\ Pipeline.hash_protein out = Ok h.
Proof.
  destruct (fits_parts entry Hfit)
    as (Hacc & (g & t & s & Hg & Ht & Hs) & Hfp & (l & pdbs & Hl & Hsub & Hnul)).
  assert (Hget : get_default entry "pdb_files" (PyList []) = PyList l)
    by (unfold get_default; rewrite Hl; reflexivity).
  pose proof (rebuild_pdbs_of_row _ _ _ _ _ _ Hget Hsub Hrow) as Hpdbs.
  assert (Hval : forall k, In k fingerprint_fields ->
                   field_value (PG.fetch r) k = Ok (get entry k)).
  { intros k Hk. unfold field_value.
    assert (Hne : k <> "pdb_files") by (intros ->; simpl in Hk; intuition discriminate).
    apply String.eqb_neq in Hne. rewrite Hne.
    destruct (stored_kept first Hcols entry idx r Hrow k (fingerprint_columns k Hk)
                (proj2 (Hfp k Hk))) as (c & Hc & _ & Hv).
    unfold PG.column. rewrite fetch_lookup, Hc. cbn [option_map]. rewrite Hv.
    reflexivity. }
  destruct (rebuild_entry_spec (PG.fetch r) (keys first)) with (acc := @nil (string * pyval))
    as (out & Hout & Hin & _).
  { intros k Hk. unfold field_value.
    destruct (String.eqb k "pdb_files") eqn:E; [eexists; exact Hpdbs|].
    apply String.eqb_neq in E.
    exact (stored_column first entry idx r Hrow k (other_columns_in _ _ Hk E)). }
  assert (Hfield : forall k, In k fingerprint_fields ->
                     dict_lookup k out = Some (get entry k)).
  { intros k Hk. apply Hin; [|exact (Hval k Hk)].
    destruct (fits_parts first Hfirst) as (_ & _ & Hfp1 & _).
    exact (has_field_key _ _ (proj1 (Hfp1 k Hk))). }
  assert (Hfiles : dict_lookup "pdb_files" out = Some (PyList (map subrecord_of pdbs))).
  { apply Hin; [exact subrecords_column|]. unfold field_value. exact Hpdbs. }
  exists out, (fingerprint g t s (get entry "exons") (get entry "protein_coding")
                 (get entry "nmd") pdbs).
  split; [exact Hout|]. split; [|split].
  - unfold identity, get, get_default.
    rewrite (Hfield "gene_id"), (Hfield "transcript_id") by (simpl; tauto).
    reflexivity.
  - apply (hash_protein_of entry g t s _ _ _ l pdbs); try assumption.
    + rewrite <- Hg. apply has_field_get.
      exact (proj1 (Hfp "gene_id" ltac:(simpl; tauto))).
    + rewrite <- Ht. apply has_field_get.
      exact (proj1 (Hfp "transcript_id" ltac:(simpl; tauto))).
    + rewrite <- Hs. apply has_field_get.
      exact (proj1 (Hfp "sequence" ltac:(simpl; tauto))).
    + apply has_field_get. exact (proj1 (Hfp "exons" ltac:(simpl; tauto))).
    + apply has_field_get. exact (proj1 (Hfp "protein_coding" ltac:(simpl; tauto))).
    + apply has_field_get. exact (proj1 (Hfp "nmd" ltac:(simpl; tauto))).
  - apply (hash_protein_of out g t s _ _ _ (map subrecord_of pdbs) pdbs).
    + rewrite <- Hg. apply Hfield. simpl; tauto.
    + rewrite <- Ht. apply Hfield. simpl; tauto.
    + rewrite <- Hs. apply Hfield. simpl; tauto.
    + apply Hfield. simpl; tauto.
    + apply Hfield. simpl; tauto.
    + apply Hfield. simpl; tauto.
    + exact Hfiles.
    + apply subrecords_are_subrecords.
Qed.

End FittingRecord.

(** Two records with the same fingerprint, position by position. *)
Definition same_fingerprint (e out : dict) : Prop :=
  exists h, Pipeline.hash_protein e = Ok h /\ Pipeline.hash_protein out = Ok h.

Lemma compare_equal_fingerprints (l l' : list dict) :
  Forall2 same_fingerprint l l' ->
  forall i, Pipeline.compare_hashes i (zip l l') = Ok (true, Passed).
Proof.
  induction 1 as [|e o r r' [h [He Ho]] _ IH]; intros i; [reflexivity|].
  cbn [zip Pipeline.compare_hashes]. rewrite He, Ho. cbn [bind].
  rewrite String.eqb_refl. cbn [negb]. apply IH.
Qed.

Lemma fitting_rows (first : dict) (data : list dict) :
  NoDup (Pipeline.columns_of (Pipeline.other_columns first)) ->
  fits first first = true ->
  forallb (fits first) data = true ->
  forall idx,
    (Z.of_nat (idx + List.length data) <= 2147483648)%Z ->
    exists rs outs,
      to_rows first idx data = Ok rs
      /\ mapM (from_row (keys first)) rs = Ok outs
      /\ mapM (fun r => k <- PG.position r ;; Ok (k, r)) rs = Ok (keyed idx rs)
      /\ map PG.key_of rs = map entry_key data
      /\ Forall (fun r => forall rows0,
                   PG.not_null_ok (PG.mk_table (Pipeline.col_defs first) rows0) r = true) rs
      /\ map identity outs = map identity data
      /\ Forall2 same_fingerprint data outs.
Proof.
  intros Hcols Hfirst. induction data as [|e rest IH]; cbn [forallb]; intros Hfit idx Hlen.
  - exists [], []. repeat split; constructor.
  - apply andb_prop in Hfit. destruct Hfit as [He Hrest].
    assert (Hidx : (Z.of_nat idx <= 2147483647)%Z) by (cbn [List.length] in Hlen; lia).
    destruct (fits_row_exists first Hcols e He idx Hidx) as [r Hr].
    destruct (IH Hrest (S idx)) as (rs & outs & Hrs & Hfrom & Hpos & Hkey & Hnn & Hid & Hfp);
      [cbn [List.length] in Hlen; lia|].
    destruct (fits_from_row first Hcols Hfirst e He idx r Hr)
      as (out & h & Hout & Hido & Hhe & Hho).
    exists (r :: rs), (out :: outs). cbn [to_rows mapM map keyed].
    rewrite Hr, Hrs, Hout, Hfrom. cbn [bind].
    rewrite (stored_position_key first Hcols e idx r Hr), Hpos. cbn [bind].
    rewrite (fits_key_of_row first Hcols Hfirst e He idx r Hr), Hkey, Hido, Hid.
    repeat split.
    + constructor; [|exact Hnn].
      intros rows0. exact (fits_not_null first Hcols Hfirst e He idx r Hr rows0).
    + constructor; [|exact Hfp]. exists h. split; assumption.
Qed.

Lemma fits_text_identities (first : dict) (data : list dict) :
  forallb (fits first) data = true -> forallb text_identity data = true.
Proof.
  intros H. apply forallb_forall. intros e He. rewrite forallb_forall in H.
  exact (fits_text_identity first e (H e He)).
Qed.



Definition run_summary (r : result Pipeline.run_result) : result (nat * nat * bool) :=
  out <- r ;;
  Ok (List.length (PG.rows (Pipeline.final_table out)),
      List.length (Pipeline.exported out), Pipeline.verdict out).


(** The other conditions of [persistable] are each needed as well.  A
    dictionary whose keys are not in jsonb order comes back with its keys
    reordered, which [pickle.dumps] tells apart: the fingerprint check
    fails.  A text longer than its column is refused by the server, and
    the notebook stops at the insert. *)
Definition protein_keyed_exons : dict :=
  [("gene_id", PyStr "G1"); ("transcript_id", PyStr "T1"); ("sequence", PyStr "MKV");
   ("exons", PyDict [("start", PyInt 100); ("end", PyInt 200)]);
   ("protein_coding", PyBool true); ("nmd", PyBool false); ("pdb_files", PyList [])].

Definition protein_long_sequence : dict :=
  [("gene_id", PyStr "G1"); ("transcript_id", PyStr "T1");
   ("sequence", PyStr (String.concat "" (repeat "M" 401)));
   ("exons", PyList []);
   ("protein_coding", PyBool true); ("nmd", PyBool false); ("pdb_files", PyList [])].

Lemma reordered_keys_fail_fingerprint :
  run_summary (Pipeline.run None [protein_keyed_exons]) = Ok (1, 1, false).
Proof.
  vm_compute. reflexivity.
Qed.

Lemma long_text_stops_insert :
  run_summary (Pipeline.run None [protein_long_sequence]) = Raise DataError.
Proof.
  vm_compute. reflexivity.
Qed.

(** ** Library models against known values *)

Example sha256_empty :
  SHA256.hexdigest [] =
  "e3b0c44298fc1c149afbf4c8996fb92427ae41e4649b934ca495991b7852b855".
Proof. vm_compute. reflexivity. Qed.

Example sha256_abc :
  SHA256.hexdigest (list_byte_of_string "abc") =
  "ba7816bf8f01cfea414140de5dae2223b00361a396177a9cb410ff61f20015ad".
Proof. vm_compute. reflexivity. Qed.

Example sha256_two_blocks :
  SHA256.hexdigest (list_byte_of_string
    "abcdbcdecdefdefgefghfghighijhijkijkljklmklmnlmnomnopnopq") =
  "248d6a61d20638b8e5c026930c3e6039a33ce45964ff2167f6ecedd419db06c1".
Proof. vm_compute. reflexivity. Qed.

Example b64encode_padding :
  map Base64.b64encode
    [list_byte_of_string "Man"; list_byte_of_string "Ma"; list_byte_of_string "M"; []]
  = ["TWFu"; "TWE="; "TQ=="; ""].
Proof. vm_compute. reflexivity. Qed.

Example pickle_small_values :
  map (fun v => map SHA256.byte_to_Z (Pickle.dumps v))
    [PyNone; PyList []; PyList [PyInt 1; PyInt 2]]
  = [[128; 4; 78; 46]; [128; 4; 93; 148; 46];
     [128; 4; 149; 9; 0; 0; 0; 0; 0; 0; 0; 93; 148; 40; 75; 1; 75; 2; 101; 46]]%Z.
Proof. vm_compute. reflexivity. Qed.

Example str_of_booleans :
  map Repr.str [PyBool true; PyBool false; PyNone; PyInt (-5)]
  = ["True"; "False"; "None"; "-5"].
Proof. vm_compute. reflexivity. Qed.

(* ================================================================== *)
(** * Further properties of the scripts *)

(** ** [make_json_safe] *)

Lemma mapM_ok_or {A B : Type} (f : A -> result B) (e0 : exn) (l : list A) :
  (forall x, In x l -> (exists y, f x = Ok y) \/ f x = Raise e0) ->
  (exists ys, mapM f l = Ok ys) \/ mapM f l = Raise e0.
Proof.
  induction l as [|x r IH]; simpl; intros H; [left; exists []; reflexivity|].
  destruct (H x (or_introl eq_refl)) as [[y Hy] | Hy]; rewrite Hy; simpl;
    [|right; reflexivity].
  destruct (IH (fun z Hz => H z (or_intror Hz))) as [[ys Hys] | Hys];
    rewrite Hys; simpl; [left; eexists; reflexivity | right; reflexivity].
Qed.

Lemma dumps_bytes_free (w : pyval) :
  bytes_free w = true ->
  (exists doc, Json.dumps w = Ok doc) \/ Json.dumps w = Raise ValueError.
Proof.
  induction w as [| b | n | s | bs | l IH | d IH] using pyval_nested_ind;
    intros Hb; try (left; eexists; reflexivity); try discriminate.
  - cbn [Json.dumps]. destruct (Json.digits_ok n);
      [left; eexists; reflexivity | right; reflexivity].
  - cbn [bytes_free] in Hb. rewrite dumps_list.
    destruct (mapM_ok_or Json.dumps ValueError l) as [[docs Hdocs] | Hdocs].
    { rewrite Forall_forall in IH. rewrite forallb_forall in Hb.
      intros x Hx. exact (IH x Hx (Hb x Hx)). }
    + rewrite Hdocs. left. eexists. reflexivity.
    + rewrite Hdocs. right. reflexivity.
  - cbn [bytes_free] in Hb. rewrite dumps_dict.
    destruct (mapM_ok_or (fun kv => j <- Json.dumps (snd kv) ;; Ok (fst kv, j))
                ValueError d) as [[ms Hms] | Hms].
    { rewrite Forall_forall in IH. rewrite forallb_forall in Hb.
      intros kv Hkv. destruct (IH kv Hkv (Hb kv Hkv)) as [[j Hj] | Hj];
        rewrite Hj; [left; eexists; reflexivity | right; reflexivity]. }
    + rewrite Hms. left. eexists. reflexivity.
    + rewrite Hms. right. reflexivity.
Qed.

(** X1.  For a value built of [None], booleans, integers, texts, bytes,
    lists and dictionaries with text keys, the output of [make_json_safe]
    holds no raw bytes at any depth, and [json.dumps] of it either returns
    a document or raises [ValueError], which it does for an integer of more
    than 4300 digits: the [TypeError] that [json.dumps] raises on bytes
    cannot reach the insert loop.  Values outside [pyval] are not covered:
    [make_json_safe] leaves a tuple, a set or a dictionary key as it is, so
    bytes inside one of them still reach [json.dumps]. *)
Theorem make_json_safe_always_serializable (v : pyval) :
  bytes_free (Pipeline.make_json_safe v) = true
  /\ ((exists doc, Json.dumps (Pipeline.make_json_safe v) = Ok doc)
      \/ Json.dumps (Pipeline.make_json_safe v) = Raise ValueError).
Proof.
  split; [apply make_json_safe_bytes_free|].
  apply dumps_bytes_free, make_json_safe_bytes_free.
Qed.

(** X2.  [make_json_safe] changes nothing in a value without raw bytes, and
    applying it twice is the same as applying it once: a marker object is
    itself JSON-safe and is left alone. *)
Theorem make_json_safe_idempotent (v : pyval) :
  (bytes_free v = true -> Pipeline.make_json_safe v = v)
  /\ Pipeline.make_json_safe (Pipeline.make_json_safe v) = Pipeline.make_json_safe v.
Proof.
  split; [apply make_json_safe_bytes_free_id|].
  apply make_json_safe_bytes_free_id, make_json_safe_bytes_free.
Qed.

(** X3.  Raw bytes and the dictionary that is their marker have the same
    JSON-safe form, so no function at all can recover every value from its
    JSON-safe form: the encoding cannot be inverted exactly. *)
Theorem make_json_safe_has_no_inverse :
  (forall bs, Pipeline.make_json_safe (Pipeline.bytes_marker bs)
              = Pipeline.make_json_safe (PyBytes bs))
  /\ ~ exists decode : pyval -> pyval,
         forall v, decode (Pipeline.make_json_safe v) = v.
Proof.
  split; [intros bs; reflexivity|].
  intros [decode H].
  pose proof (H (PyBytes [])) as H1.
  pose proof (H (Pipeline.bytes_marker [])) as H2.
  assert (E : Pipeline.make_json_safe (Pipeline.bytes_marker [])
              = Pipeline.make_json_safe (PyBytes [])) by reflexivity.
  rewrite E, H1 in H2. discriminate.
Qed.

(** ** [hash_protein] and [proof_compare_pkl] *)

Lemma lookup_set_other (d : dict) (k k' : string) (v : pyval) :
  k' <> k -> dict_lookup k' (assoc_set String.eqb k v d) = dict_lookup k' d.
Proof.
  intros H. unfold dict_lookup. apply assoc_get_set_other. exact H.
Qed.

(** X4.  Both [hash_protein] functions read the seven fields [gene_id],
    [transcript_id], [sequence], [exons], [protein_coding], [nmd] and
    [pdb_files] and nothing else: setting any other field of a record to any
    value leaves the result unchanged, so the fingerprint check cannot see a
    difference in such a field. *)
Theorem hash_protein_ignores_other_fields (p : dict) (k : string) (v : pyval) :
  ~ In k hashed_fields ->
  Checker.hash_protein (assoc_set String.eqb k v p) = Checker.hash_protein p
  /\ Pipeline.hash_protein (assoc_set String.eqb k v p) = Pipeline.hash_protein p.
Proof.
  intros Hk.
  assert (L : forall k', In k' hashed_fields ->
                dict_lookup k' (assoc_set String.eqb k v p) = dict_lookup k' p).
  { intros k' Hk'. apply lookup_set_other. intros ->. contradiction. }
  unfold hashed_fields in L.
  pose proof (L "gene_id") as L1. pose proof (L "transcript_id") as L2.
  pose proof (L "sequence") as L3. pose proof (L "exons") as L4.
  pose proof (L "protein_coding") as L5. pose proof (L "nmd") as L6.
  pose proof (L "pdb_files") as L7.
  unfold Checker.hash_protein, Pipeline.hash_protein, getitem, get_default.
  rewrite L1, L2, L3, L4, L5, L6, L7 by (simpl; tauto).
  split; reflexivity.
Qed.

Lemma hash_protein_ignores_other_fields_witness :
  Checker.hash_protein (assoc_set String.eqb "length" (PyInt 3) protein_A)
  = Checker.hash_protein protein_A
  /\ Pipeline.hash_protein (assoc_set String.eqb "length" (PyInt 3) protein_A)
     = Pipeline.hash_protein protein_A.
Proof.
  apply hash_protein_ignores_other_fields. simpl.
  intros H; repeat (destruct H as [H|H]; [discriminate|]); exact H.
Defined.

Definition optional_fields : list string :=
  ["exons"; "protein_coding"; "nmd"; "pdb_files"].

(** X5.  The pipeline's [hash_protein] fills a missing [exons],
    [protein_coding], [nmd] or [pdb_files] with a default; the checker's
    [hash_protein] subscripts them: on a record the pipeline's function
    hashes and that lacks one of these four fields, the checker's function
    raises [KeyError]. *)
Theorem checker_hash_needs_optional_fields (p : dict) (h : string) :
  Pipeline.hash_protein p = Ok h ->
  existsb (fun k => negb (has_field p k)) optional_fields = true ->
  Checker.hash_protein p = Raise KeyError.
Proof.
  unfold Pipeline.hash_protein, Checker.hash_protein. intros H Hmiss.
  bind_inv H. rewrite Hm. cbn [bind]. bind_inv H. rewrite Hm0. cbn [bind].
  bind_inv H. rewrite Hm1. cbn [bind]. bind_inv H. rewrite Hm2. cbn [bind].
  bind_inv H. rewrite Hm3. cbn [bind]. bind_inv H. rewrite Hm4. cbn [bind].
  clear H Hm Hm0 Hm1 Hm2 Hm3 Hm4.
  unfold optional_fields, has_field in Hmiss. cbn [existsb] in Hmiss.
  unfold getitem.
  destruct (dict_lookup "exons" p); [cbn [bind]|reflexivity].
  destruct (dict_lookup "protein_coding" p); [cbn [bind]|reflexivity].
  destruct (dict_lookup "nmd" p); [cbn [bind]|reflexivity].
  destruct (dict_lookup "pdb_files" p); [discriminate|reflexivity].
Qed.

Definition bare_protein : dict :=
  [("gene_id", PyStr "G1"); ("transcript_id", PyStr "T9"); ("sequence", PyNone)].

Lemma checker_hash_needs_optional_fields_witness :
  Checker.hash_protein bare_protein = Raise KeyError.
Proof.
  destruct (Pipeline.hash_protein bare_protein) as [h|e] eqn:E;
    [|vm_compute in E; discriminate].
  apply (checker_hash_needs_optional_fields bare_protein h E). reflexivity.
Defined.

(** The digests of two records agree. *)
Definition same_digest (a b : dict) : Prop :=
  exists h, Checker.hash_protein a = Ok h /\ Checker.hash_protein b = Ok h.

Lemma compare_hashes_passes (l1 : list dict) :
  forall l2 i,
    List.length l1 = List.length l2 ->
    (verdict_of (Checker.compare_hashes i (zip l1 l2)) = Ok true
     <-> Forall2 same_digest l1 l2).
Proof.
  induction l1 as [|a r1 IH]; intros [|b r2] i Hlen; simpl in Hlen; try discriminate.
  - split; [constructor|reflexivity].
  - injection Hlen as Hlen. cbn [zip Checker.compare_hashes]. split.
    + intros H.
      destruct (Checker.hash_protein a) as [ha|] eqn:Ea; [cbn [bind] in H|discriminate].
      destruct (Checker.hash_protein b) as [hb|] eqn:Eb; [cbn [bind] in H|discriminate].
      destruct (String.eqb ha hb) eqn:E; [|discriminate].
      apply String.eqb_eq in E. subst hb. cbn [negb] in H.
      constructor; [|apply (IH r2 (S i) Hlen); exact H].
      exists ha. split; [exact Ea|exact Eb].
    + intros H. inversion H as [|? ? ? ? [h [Ha Hb]] Hr]; subst.
      rewrite Ha, Hb. cbn [bind]. rewrite String.eqb_refl. cbn [negb].
      apply (IH r2 (S i) Hlen). exact Hr.
Qed.

(** X6.  The checker's [proof_compare_pkl] passes exactly when the two
    collections have the same length and, position by position, both
    records hash without an exception to the same digest. *)
Theorem proof_compare_passes_iff (l1 l2 : list dict) :
  verdict_of (Checker.proof_compare_pkl l1 l2) = Ok true
  <-> List.length l1 = List.length l2 /\ Forall2 same_digest l1 l2.
Proof.
  unfold Checker.proof_compare_pkl.
  destruct (List.length l1 =? List.length l2)%nat eqn:E; cbn [negb].
  - apply Nat.eqb_eq in E. rewrite (compare_hashes_passes l1 l2 0 E). tauto.
  - apply Nat.eqb_neq in E. split; [discriminate|]. intros [H _]. contradiction.
Qed.

Lemma hash_protein_agree_on_full (protein : dict) :
  forallb (has_field protein) hashed_fields = true ->
  Pipeline.hash_protein protein = Checker.hash_protein protein.
Proof.
  intros H. simpl in H.
  repeat (apply andb_prop in H; destruct H as [?H H]).
  unfold Pipeline.hash_protein, Checker.hash_protein.
  rewrite (get_default_present protein "exons" (PyList [])) by assumption.
  rewrite (get_default_present protein "protein_coding" (PyBool false)) by assumption.
  rewrite (get_default_present protein "nmd" (PyBool false)) by assumption.
  rewrite (get_default_present protein "pdb_files" (PyList [])) by assumption.
  destruct (getitem protein "gene_id") as [g|]; cbn [bind]; [|reflexivity].
  destruct (encode g) as [u1|]; cbn [bind]; [|reflexivity].
  destruct (getitem protein "transcript_id") as [t|]; cbn [bind]; [|reflexivity].
  destruct (encode t) as [u2|]; cbn [bind]; [|reflexivity].
  destruct (getitem protein "sequence") as [s|]; cbn [bind]; [|reflexivity].
  destruct (encode (py_or s (PyStr ""))) as [u3|]; cbn [bind]; reflexivity.
Qed.

Definition full_record (p : dict) : bool := forallb (has_field p) hashed_fields.

(** The line of the pipeline's [proof_compare_pkl] as the checker words
    it: only the mismatch line differs between the two scripts. *)
Definition checker_wording (m : message) : message :=
  match m with
  | MismatchAt i => MismatchDetectedAt i
  | _ => m
  end.

(** X7.  On two collections whose records all have the seven hashed
    fields, the [proof_compare_pkl] of the pipeline script and the one of
    the checker script raise the same exception or return the same verdict,
    and print the same line but for the wording of a mismatch: at the same
    index the pipeline prints "Mismatch at protein index i" where the
    checker prints "Mismatch detected at protein index i (order
    preserved)". *)
Theorem proof_compare_scripts_agree (l1 l2 : list dict) :
  forallb full_record l1 = true -> forallb full_record l2 = true ->
  Checker.proof_compare_pkl l1 l2
  = (v <- Pipeline.proof_compare_pkl l1 l2 ;; Ok (fst v, checker_wording (snd v))).
Proof.
  intros H1 H2. unfold Pipeline.proof_compare_pkl, Checker.proof_compare_pkl.
  destruct (negb (List.length l1 =? List.length l2)%nat); [reflexivity|].
  generalize 0. revert l2 H2.
  induction l1 as [|a r1 IH]; intros [|b r2] H2 i; try reflexivity.
  cbn [forallb] in H1, H2.
  apply andb_prop in H1. destruct H1 as [Ha Hr1].
  apply andb_prop in H2. destruct H2 as [Hb Hr2].
  cbn [zip Pipeline.compare_hashes Checker.compare_hashes].
  rewrite (hash_protein_agree_on_full a Ha), (hash_protein_agree_on_full b Hb).
  destruct (Checker.hash_protein a) as [ha|]; cbn [bind]; [|reflexivity].
  destruct (Checker.hash_protein b) as [hb|]; cbn [bind]; [|reflexivity].
  destruct (negb (String.eqb ha hb)); [reflexivity|].
  apply IH; assumption.
Qed.

Lemma proof_compare_scripts_agree_witness :
  Checker.proof_compare_pkl [protein_A; protein_B] [protein_A; protein_AB_C]
  = Ok (false, MismatchDetectedAt 1)
  /\ Pipeline.proof_compare_pkl [protein_A; protein_B] [protein_A; protein_AB_C]
     = Ok (false, MismatchAt 1).
Proof.
  split; [|vm_compute; reflexivity].
  rewrite (proof_compare_scripts_agree [protein_A; protein_B] [protein_A; protein_AB_C]);
    [|reflexivity|reflexivity].
  vm_compute. reflexivity.
Defined.

(** ** [index_by_key] *)

Fixpoint index_keys_distinct (m : Checker.index) : bool :=
  match m with
  | [] => true
  | (k, _) :: rest =>
      negb (existsb (fun kv => Checker.pair_eq k (fst kv)) rest)
      && index_keys_distinct rest
  end.

Lemma existsb_after_set (m : Checker.index) (k0 k : pyval * pyval) (v : dict) :
  existsb (fun kv => Checker.pair_eq k0 (fst kv)) (assoc_set Checker.pair_eq k v m) = true ->
  existsb (fun kv => Checker.pair_eq k0 (fst kv)) m = true \/ Checker.pair_eq k0 k = true.
Proof.
  induction m as [|[k1 v1] r IH]; simpl.
  - rewrite orb_false_r. tauto.
  - destruct (Checker.pair_eq k k1); simpl.
    + tauto.
    + intros H. apply orb_prop in H. destruct H as [H|H].
      * left. rewrite H. reflexivity.
      * destruct (IH H) as [H'|H']; [left; rewrite H'; apply orb_true_r|right; exact H'].
Qed.

Lemma index_set_invariants (m : Checker.index) (k : pyval * pyval) (v : dict)
    (data : list dict) :
  hashable_keys m -> hashable_pair k = true ->
  index_keys_distinct m = true ->
  Forall (fun kv => In (snd kv) data) m ->
  index_keys_distinct (assoc_set Checker.pair_eq k v m) = true
  /\ List.length (assoc_set Checker.pair_eq k v m) <= S (List.length m)
  /\ Forall (fun kv => In (snd kv) (v :: data)) (assoc_set Checker.pair_eq k v m).
Proof.
  intros Hm Hk. induction m as [|[k1 v1] r IH]; simpl; intros Hd Hin.
  - repeat split; [lia|]. constructor; [left; reflexivity|constructor].
  - inversion Hm as [|? ? Hk1 Hr]; subst. inversion Hin as [|? ? Hv1 Hinr]; subst.
    apply andb_prop in Hd. destruct Hd as [H1 Hd].
    destruct (Checker.pair_eq k k1) eqn:E; simpl.
    + rewrite H1, Hd. repeat split; [lia|].
      constructor; [left; reflexivity|].
      eapply Forall_impl; [|exact Hinr]. intros kv H. right. exact H.
    + destruct (IH Hr Hd Hinr) as (IH1 & IH2 & IH3).
      rewrite IH1, andb_true_r. repeat split; [|lia|].
      * apply negb_true_iff. apply negb_true_iff in H1.
        destruct (existsb _ (assoc_set Checker.pair_eq k v r)) eqn:Ex; [|reflexivity].
        destruct (existsb_after_set _ _ _ _ Ex) as [H|H]; [congruence|].
        simpl in Hk1. rewrite (pair_eq_sym k1 k Hk1 Hk) in H. congruence.
      * constructor; [right; exact Hv1|exact IH3].
Qed.

Lemma index_into_invariants (data : list dict) :
  forall acc m seen,
    Checker.index_into data acc = Ok m ->
    hashable_keys acc -> index_keys_distinct acc = true ->
    Forall (fun kv => In (snd kv) seen) acc ->
    hashable_keys m /\ index_keys_distinct m = true
    /\ List.length m <= List.length acc + List.length data
    /\ Forall (fun kv => In (snd kv) (rev data ++ seen)) m.
Proof.
  induction data as [|p rest IH]; simpl; intros acc m seen H Hh Hd Hin.
  - injection H as <-. repeat split; try assumption. lia.
  - bind_inv H. bind_inv H.
    destruct (Checker.hashable a && Checker.hashable a0) eqn:Hp; [|discriminate].
    destruct (index_set_invariants acc (a, a0) p seen Hh Hp Hd Hin) as (S1 & S2 & S3).
    destruct (IH _ _ (p :: seen) H (hashable_keys_set acc (a, a0) p Hh Hp) S1 S3)
      as (R1 & R2 & R3 & R4).
    repeat split; try assumption; [lia|].
    rewrite <- app_assoc. exact R4.
Qed.

(** X8.  The index [index_by_key] builds has pairwise different keys, at
    most one entry per record of the collection, and only records of the
    collection as values. *)
Theorem index_by_key_invariants (data : list dict) (m : Checker.index) :
  Checker.index_by_key data = Ok m ->
  index_keys_distinct m = true
  /\ List.length m <= List.length data
  /\ Forall (fun kv => In (snd kv) data) m.
Proof.
  intros H.
  destruct (index_into_invariants data [] m [] H (Forall_nil _) eq_refl (Forall_nil _))
    as (_ & H1 & H2 & H3).
  split; [exact H1|]. split; [exact H2|].
  eapply Forall_impl; [|exact H3]. intros kv Hin.
  rewrite app_nil_r in Hin. apply in_rev. exact Hin.
Qed.

Lemma index_by_key_invariants_witness :
  exists m,
    Checker.index_by_key [protein_A; protein_B; protein_A] = Ok m
    /\ index_keys_distinct m = true
    /\ List.length m <= 3
    /\ Forall (fun kv => In (snd kv) [protein_A; protein_B; protein_A]) m.
Proof.
  destruct (Checker.index_by_key [protein_A; protein_B; protein_A]) as [m|e] eqn:E;
    [|vm_compute in E; discriminate].
  exists m. split; [reflexivity|].
  exact (index_by_key_invariants _ m E).
Defined.

(** ** [compare_total_pdbs] *)

Lemma total_pdbs_permutation (l l' : list dict) (n : nat) :
  Permutation l l' -> Checker.total_pdbs l = Ok n -> Checker.total_pdbs l' = Ok n.
Proof.
  intros Hp. revert n. induction Hp as [|x l l' _ IH|x y l|l l' l'' _ IH1 _ IH2];
    intros n H.
  - exact H.
  - cbn [Checker.total_pdbs] in *.
    destruct (getitem x "pdb_files") as [f|]; [cbn [bind] in *|discriminate].
    destruct (len f) as [k|]; [cbn [bind] in *|discriminate].
    destruct (Checker.total_pdbs l) as [m|]; [cbn [bind] in H|discriminate].
    injection H as <-. rewrite (IH m eq_refl). reflexivity.
  - cbn [Checker.total_pdbs] in *.
    destruct (getitem y "pdb_files") as [fy|]; [cbn [bind] in *|discriminate].
    destruct (len fy) as [ky|]; [cbn [bind] in *|discriminate].
    destruct (getitem x "pdb_files") as [fx|]; [cbn [bind] in *|discriminate].
    destruct (len fx) as [kx|]; [cbn [bind] in *|discriminate].
    destruct (Checker.total_pdbs l) as [m|]; [cbn [bind] in *|discriminate].
    injection H as <-. f_equal. lia.
  - exact (IH2 _ (IH1 _ H)).
Qed.

(** X9.  [compare_total_pdbs] counts subrecords over the whole collection:
    it passes on any reordering of the records (it cannot tell which record
    a subrecord belongs to, nor in which order the records come). *)
Theorem compare_total_pdbs_ignores_order (l l' : list dict) (n : nat) :
  Permutation l l' ->
  Checker.total_pdbs l = Ok n ->
  Checker.compare_total_pdbs l l' = Ok (true, (n, n)).
Proof.
  intros Hp Hn. unfold Checker.compare_total_pdbs.
  rewrite Hn, (total_pdbs_permutation l l' n Hp Hn). cbn [bind].
  rewrite Nat.eqb_refl. reflexivity.
Qed.

Lemma compare_total_pdbs_ignores_order_witness :
  Checker.compare_total_pdbs [protein_A; protein_B] [protein_B; protein_A]
  = Ok (true, (2, 2)).
Proof.
  apply compare_total_pdbs_ignores_order; [apply perm_swap|reflexivity].
Defined.

(** ** [detect_other_columns] *)

Lemma filter_all {A : Type} (f : A -> bool) (l : list A) :
  (forall x, In x l -> f x = true) -> filter f l = l.
Proof.
  induction l as [|x r IH]; simpl; intros H; [reflexivity|].
  rewrite (H x (or_introl eq_refl)), IH; [reflexivity|].
  intros y Hy. apply H. right. exact Hy.
Qed.

(** X10.  On a table the pipeline created for a first record whose field
    names are plain column names (lower-case identifiers that the server
    neither folds, cuts nor refuses), different from each other and from
    the three columns the pipeline adds, whatever rows it holds,
    [detect_other_columns] of the filter script returns the [other_columns]
    the pipeline computed from that record, in the same order.  The
    condition on the names is where the model of the server is faithful: a
    name such as [Name] is stored by the server as [name], and is reported
    so. *)
Theorem detect_other_columns_of_pipeline_table (first : dict) (rows : list PG.row) :
  forallb PG.plain_name (Pipeline.other_columns first) = true ->
  NoDup (Pipeline.columns_of (Pipeline.other_columns first)) ->
  Filter.detect_other_columns (PG.mk_table (Pipeline.col_defs first) rows)
  = Ok (Pipeline.other_columns first).
Proof.
  intros _ Hc. destruct (added_columns_fresh first Hc) as (F1 & F2 & F3).
  unfold Filter.detect_other_columns, PG.result_columns. cbn [PG.schema].
  assert (E : existsb (fun d => String.eqb (PG.col_name d) "protein_index")
                (Pipeline.col_defs first) = true) by reflexivity.
  rewrite E. cbn [bind]. rewrite col_def_names. f_equal.
  unfold Pipeline.columns_of, Pipeline.pdb_columns.
  cbn [app filter existsb String.eqb Ascii.eqb Bool.eqb orb negb].
  rewrite filter_app. cbn [filter existsb]. 
  replace (negb (String.eqb "pdb_ids" "protein_index" || (String.eqb "pdb_ids" "pdb_ids"
             || (String.eqb "pdb_ids" "pdb_files" || false)))) with false by reflexivity.
  replace (negb (String.eqb "pdb_files" "protein_index" || (String.eqb "pdb_files" "pdb_ids"
             || (String.eqb "pdb_files" "pdb_files" || false)))) with false by reflexivity.
  rewrite app_nil_r. apply filter_all. intros k Hk.
  apply negb_true_iff. cbn [existsb]. rewrite !orb_false_iff.
  repeat split; try reflexivity; apply String.eqb_neq; intros ->; contradiction.
Qed.

Lemma detect_other_columns_of_pipeline_table_witness :
  Filter.detect_other_columns (PG.mk_table (Pipeline.col_defs protein_A) [lopsided_row])
  = Ok ["gene_id"; "transcript_id"; "sequence"; "exons"; "protein_coding"; "nmd"].
Proof.
  apply (detect_other_columns_of_pipeline_table protein_A [lopsided_row]).
  - reflexivity.
  - apply distinct_NoDup. reflexivity.
Defined.

(** ** [insert_proteins_with_pdbs] on any collection *)

Lemma keys_distinct_snoc (ks : list (list (option PG.cell))) (k : list (option PG.cell)) :
  keys_distinct ks = true ->
  existsb (fun k' => PG.key_eqb k' k) ks = false ->
  keys_distinct (ks ++ [k]) = true.
Proof.
  induction ks as [|k0 r IH]; simpl; intros Hd Hk; [reflexivity|].
  apply andb_prop in Hd. destruct Hd as [H0 Hr].
  apply orb_false_elim in Hk. destruct Hk as [Hk0 Hkr].
  rewrite (IH Hr Hkr), andb_true_r, existsb_app. simpl.
  apply negb_true_iff in H0. rewrite H0, orb_false_r. simpl.
  rewrite key_eqb_sym, Hk0. reflexivity.
Qed.

Lemma insert_loop_keys_distinct (other : list string) (data : list dict) :
  forall t idx total t' total',
    Pipeline.insert_loop other t idx total data = Ok (t', total') ->
    keys_distinct (map PG.key_of (PG.rows t)) = true ->
    keys_distinct (map PG.key_of (PG.rows t')) = true.
Proof.
  induction data as [|entry rest IH]; simpl; intros t idx total t' total' H Hd.
  - injection H as <- _. exact Hd.
  - bind_inv H. bind_inv H. apply IH in H; [exact H|].
    destruct (execute_insert_spec _ _ _ _ Hm0) as (r & _ & _ & [[_ ->]|[Hc ->]]);
      [exact Hd|].
    destruct t as [s rows0]. cbn [PG.rows PG.schema] in *.
    rewrite map_app. apply keys_distinct_snoc; [exact Hd|].
    rewrite conflicts_of_keys in Hc. exact Hc.
Qed.

(** X11.  Whatever the collection (duplicates included), a persist step
    that completes on a table whose rows have pairwise different identity
    keys leaves a table whose rows have pairwise different identity keys:
    the loop never stores a second row for a key. *)
Theorem insert_keeps_identity_keys_distinct (other : list string) (t : PG.table)
    (data : list dict) (ins : Pipeline.inserted) :
  keys_distinct (map PG.key_of (PG.rows t)) = true ->
  Pipeline.insert_proteins_with_pdbs other t data = Ok ins ->
  keys_distinct (map PG.key_of (PG.rows (Pipeline.committed ins))) = true.
Proof.
  unfold Pipeline.insert_proteins_with_pdbs. intros Hd H.
  bind_inv H. injection H as <-. destruct a as [t' total]. simpl.
  exact (insert_loop_keys_distinct _ _ _ _ _ _ _ Hm Hd).
Qed.

Lemma insert_keeps_identity_keys_distinct_witness :
  exists ins,
    Pipeline.insert_proteins_with_pdbs (Pipeline.other_columns protein_A)
      (fresh_table protein_A) [protein_A; protein_B; protein_A] = Ok ins
    /\ keys_distinct (map PG.key_of (PG.rows (Pipeline.committed ins))) = true.
Proof.
  destruct (Pipeline.insert_proteins_with_pdbs (Pipeline.other_columns protein_A)
              (fresh_table protein_A) [protein_A; protein_B; protein_A])
    as [ins|e] eqn:E; [|vm_compute in E; discriminate].
  exists ins. split; [reflexivity|].
  exact (insert_keeps_identity_keys_distinct _ (fresh_table protein_A) _ ins eq_refl E).
Defined.

(** The number of subrecords the loop counts for a record. *)
Definition pdb_count (entry : dict) : nat :=
  match iter (get_default entry "pdb_files" (PyList [])) with
  | Ok l => List.length l
  | Raise _ => 0
  end.

Lemma insert_loop_counts (other : list string) (data : list dict) :
  forall t idx total t' total',
    Pipeline.insert_loop other t idx total data = Ok (t', total') ->
    total' = total + list_sum (map pdb_count data).
Proof.
  induction data as [|entry rest IH]; simpl; intros t idx total t' total' H.
  - injection H as _ <-. lia.
  - bind_inv H. rename a into row_dict. bind_inv H.
    apply IH in H. rewrite H.
    destruct (build_row_dict_spec _ _ _ _ Hm)
      as (pdbs & ids & contents & Hiter & _ & Hc & _ & Hgc & _).
    rewrite Hgc. unfold pdb_count. rewrite Hiter. simpl.
    rewrite (mapM_length _ _ _ Hc). lia.
Qed.

(** X12.  The closing message of a persist step that completes counts what
    was attempted: the number of records of the input and the number of
    subrecords of all of them, including those of records that were skipped
    on a key conflict. *)
Theorem insert_message_counts_attempts (other : list string) (t : PG.table)
    (data : list dict) (ins : Pipeline.inserted) :
  Pipeline.insert_proteins_with_pdbs other t data = Ok ins ->
  Pipeline.printed ins = Inserted (List.length data) (list_sum (map pdb_count data)).
Proof.
  unfold Pipeline.insert_proteins_with_pdbs. intros H.
  bind_inv H. injection H as <-. destruct a as [t' total]. simpl.
  rewrite (insert_loop_counts _ _ _ _ _ _ _ Hm). reflexivity.
Qed.

Lemma insert_message_counts_attempts_witness :
  exists ins,
    Pipeline.insert_proteins_with_pdbs (Pipeline.other_columns protein_A)
      (fresh_table protein_A) [protein_A; protein_A] = Ok ins
    /\ List.length (PG.rows (Pipeline.committed ins)) = 1
    /\ Pipeline.printed ins = Inserted 2 4.
Proof.
  destruct (Pipeline.insert_proteins_with_pdbs (Pipeline.other_columns protein_A)
              (fresh_table protein_A) [protein_A; protein_A])
    as [ins|e] eqn:E; [|vm_compute in E; discriminate].
  exists ins. split; [reflexivity|]. split.
  - vm_compute in E. injection E as <-. reflexivity.
  - exact (insert_message_counts_attempts _ _ _ ins E).
Defined.

(** ** Positions and retrieval order *)

Lemma position_of_built_row (first entry : dict) (idx : nat) (r : PG.row) :
  ~ In "protein_index" (Pipeline.other_columns first) ->
  to_row first idx entry = Ok r ->
  PG.position r = Ok (Z.of_nat idx).
Proof.
  intros Fpi Hrow.
  assert (Hin : In "protein_index" (Pipeline.columns_of (Pipeline.other_columns first)))
    by (apply in_columns_of; tauto).
  destruct (to_row_cell _ _ _ _ _ Hrow Hin) as (rd & p & c & Hrd & Hp & Hc & Hr).
  destruct (build_row_dict_spec _ _ _ _ Hrd) as (_ & _ & _ & _ & _ & _ & _ & _ & _ & Hpi).
  rewrite (Hpi Fpi) in Hp. injection Hp as <-. simpl in Hc.
  destruct ((-2147483648 <=? Z.of_nat idx)%Z && (Z.of_nat idx <=? 2147483647)%Z);
    [|discriminate].
  injection Hc as <-. unfold PG.position. rewrite Hr. reflexivity.
Qed.

Lemma mapM_app {A B : Type} (f : A -> result B) (l l' : list A) :
  mapM f (l ++ l') = xs <- mapM f l ;; ys <- mapM f l' ;; Ok (xs ++ ys).
Proof.
  induction l as [|x r IH]; simpl.
  - destruct (mapM f l'); reflexivity.
  - destruct (f x); [cbn [bind]|reflexivity]. rewrite IH.
    destruct (mapM f r); [cbn [bind]|reflexivity].
    destruct (mapM f l'); reflexivity.
Qed.

(** The rows have positions, strictly increasing and all below [hi]. *)
Definition positions_below (hi : Z) (rows : list PG.row) : Prop :=
  exists ks, mapM PG.position rows = Ok ks
             /\ StronglySorted Z.lt ks /\ Forall (fun k => (k < hi)%Z) ks.

Lemma sorted_snoc (ks : list Z) (k : Z) :
  StronglySorted Z.lt ks -> Forall (fun k' => (k' < k)%Z) ks ->
  StronglySorted Z.lt (ks ++ [k]).
Proof.
  induction 1 as [|k0 r Hr IH H0]; intros Hlt; simpl.
  - constructor; constructor.
  - inversion Hlt as [|? ? Hk0 Hrest]; subst. constructor; [apply IH; exact Hrest|].
    apply Forall_app. split; [exact H0|]. constructor; [exact Hk0|constructor].
Qed.

Lemma insert_loop_positions (first : dict) (data : list dict) :
  ~ In "protein_index" (Pipeline.other_columns first) ->
  forall rows0 idx total t' total',
    Pipeline.insert_loop (Pipeline.other_columns first)
      (PG.mk_table (Pipeline.col_defs first) rows0) idx total data = Ok (t', total') ->
    positions_below (Z.of_nat idx) rows0 ->
    positions_below (Z.of_nat (idx + List.length data)) (PG.rows t').
Proof.
  intros Fpi. induction data as [|entry rest IH]; simpl;
    intros rows0 idx total t' total' H Hinv.
  - injection H as <- _. rewrite Nat.add_0_r. exact Hinv.
  - bind_inv H. rename a into row_dict. bind_inv H. rename a into t1.
    destruct (execute_insert_spec _ _ _ _ Hm0) as (r & Hb & _ & Hcase).
    assert (Hrow : to_row first idx entry = Ok r).
    { unfold to_row. rewrite Hm. cbn [bind]. exact Hb. }
    pose proof (position_of_built_row _ _ _ _ Fpi Hrow) as Hpos.
    replace (idx + S (List.length rest)) with (S idx + List.length rest) by lia.
    destruct Hinv as (ks & Hks & Hsorted & Hbelow).
    destruct Hcase as [[_ ->]|[_ ->]]; cbn [PG.schema PG.rows] in H.
    + apply (IH _ _ _ _ _ H). exists ks. repeat split; try assumption.
      eapply Forall_impl; [|exact Hbelow]. intros k Hk. cbv beta in *. lia.
    + apply (IH _ _ _ _ _ H). exists (ks ++ [Z.of_nat idx]).
      rewrite mapM_app, Hks. cbn [bind mapM]. rewrite Hpos. cbn [bind].
      split; [reflexivity|]. split; [apply sorted_snoc; assumption|].
      apply Forall_app. split.
      * eapply Forall_impl; [|exact Hbelow]. intros k Hk. cbv beta in *. lia.
      * constructor; [cbv beta; lia|constructor].
Qed.

Lemma order_sorted (l : list (Z * PG.row)) :
  StronglySorted Z.lt (map fst l) -> PG.order_by_position l = l.
Proof.
  induction l as [|[k r] rest IH]; intros H; [reflexivity|].
  simpl in H. inversion H as [|? ? Hrest Hk]; subst.
  change (PG.order_by_position ((k, r) :: rest))
    with (PG.insert_by_position k r (PG.order_by_position rest)).
  rewrite (IH Hrest). destruct rest as [|[k' r'] rest']; [reflexivity|].
  cbn [PG.insert_by_position]. inversion Hk as [|? ? Hkk' _]; subst.
  simpl in Hkk'.
  assert (E : (k <=? k')%Z = true) by (apply Z.leb_le; lia).
  rewrite E. reflexivity.
Qed.

Lemma keyed_by_positions (rows : list PG.row) (ks : list Z) :
  mapM PG.position rows = Ok ks ->
  mapM (fun r => k <- PG.position r ;; Ok (k, r)) rows = Ok (combine ks rows)
  /\ map fst (combine ks rows) = ks
  /\ map (fun kr => PG.fetch (snd kr)) (combine ks rows) = map PG.fetch rows.
Proof.
  revert ks. induction rows as [|r rest IH]; simpl; intros ks H.
  - injection H as <-. repeat split.
  - bind_inv H. bind_inv H. injection H as <-.
    destruct (IH _ Hm0) as (H1 & H2 & H3).
    rewrite Hm. cbn [bind]. rewrite H1. cbn [bind combine map fst snd].
    rewrite H2, H3. repeat split.
Qed.

(** X13.  Whatever the collection (duplicates included), after a persist
    step that completes on a freshly created table, the stored rows carry
    strictly increasing positions, so retrieval ordered by position returns
    the rows in the order they were stored, which is the order of the
    input. *)
Theorem retrieval_follows_storage_order (first : dict) (data : list dict)
    (ins : Pipeline.inserted) :
  NoDup (Pipeline.columns_of (Pipeline.other_columns first)) ->
  Pipeline.insert_proteins_with_pdbs (Pipeline.other_columns first)
    (fresh_table first) data = Ok ins ->
  PG.select_all_ordered (Pipeline.committed ins)
  = Ok (map PG.fetch (PG.rows (Pipeline.committed ins))).
Proof.
  intros Hc H. destruct (added_columns_fresh first Hc) as (Fpi & _).
  unfold Pipeline.insert_proteins_with_pdbs in H. bind_inv H. injection H as <-.
  destruct a as [t' total]. cbn [Pipeline.committed fst].
  destruct (insert_loop_positions first data Fpi [] 0 0 t' total Hm) as (ks & Hks & Hs & _).
  { exists []. repeat split; constructor. }
  destruct (keyed_by_positions _ _ Hks) as (H1 & H2 & H3).
  unfold PG.select_all_ordered. rewrite H1. cbn [bind].
  rewrite order_sorted by (rewrite H2; exact Hs). rewrite H3. reflexivity.
Qed.

Lemma retrieval_follows_storage_order_witness :
  exists ins,
    Pipeline.insert_proteins_with_pdbs (Pipeline.other_columns protein_A)
      (fresh_table protein_A) [protein_B; protein_A; protein_B] = Ok ins
    /\ PG.select_all_ordered (Pipeline.committed ins)
       = Ok (map PG.fetch (PG.rows (Pipeline.committed ins))).
Proof.
  destruct (Pipeline.insert_proteins_with_pdbs (Pipeline.other_columns protein_A)
              (fresh_table protein_A) [protein_B; protein_A; protein_B])
    as [ins|e] eqn:E; [|vm_compute in E; discriminate].
  exists ins. split; [reflexivity|].
  apply (retrieval_follows_storage_order protein_A
           [protein_B; protein_A; protein_B] ins); [|exact E].
  apply distinct_NoDup. reflexivity.
Defined.

(** ** Running the notebook again *)

(** X14.  When the notebook has run to its end on a collection, running it
    again on the same collection against the table it left ends with the
    same table, the same exported collection and the same verdict. *)
Theorem notebook_rerun_same_result (data : list dict) (out : Pipeline.run_result) :
  Pipeline.run None data = Ok out ->
  Pipeline.run (Some (Pipeline.final_table out)) data = Ok out.
Proof.
  unfold Pipeline.run. intros H.
  bind_inv H. rename a into first. rewrite Hm. cbn [bind].
  bind_inv H. rewrite Hm0. cbn [bind].
  bind_inv H. rename a0 into t0. bind_inv H. rename a0 into ins.
  bind_inv H. rename a0 into exported. bind_inv H. rename a0 into v.
  injection H as <-. cbn [Pipeline.final_table PG.create_table_if_not_exists bind].
  unfold Pipeline.insert_proteins_with_pdbs in Hm2. bind_inv Hm2. injection Hm2 as <-.
  destruct a0 as [t' total]. cbn [Pipeline.committed fst] in *.
  destruct (insert_loop_rerun _ _ _ _ _ _ _ Hm5) as (_ & Hs & Hrerun).
  destruct (Hrerun t' 0 Hs (incl_refl _)) as [total1 H1].
  unfold Pipeline.insert_proteins_with_pdbs. rewrite H1.
  cbn [bind Pipeline.committed fst]. rewrite Hm3. cbn [bind]. rewrite Hm4. reflexivity.
Qed.

Lemma notebook_rerun_same_result_witness :
  exists out,
    Pipeline.run None [protein_A; protein_B; protein_A] = Ok out
    /\ Pipeline.run (Some (Pipeline.final_table out)) [protein_A; protein_B; protein_A]
       = Ok out.
Proof.
  destruct (Pipeline.run None [protein_A; protein_B; protein_A]) as [out|e] eqn:E;
    [|vm_compute in E; discriminate].
  exists out. split; [reflexivity|].
  exact (notebook_rerun_same_result _ out E).
Defined.

(** ** The filter script's exports *)

Lemma row_matches_key (r : PG.row) (g t : string) :
  PG.row_matches r [("gene_id", g); ("transcript_id", t)] = Ok true ->
  PG.key_of r = [Some (PG.CText g); Some (PG.CText t)].
Proof.
  unfold PG.row_matches, PG.cell_matches, PG.key_of, PG.primary_key. simpl.
  destruct (assoc_get String.eqb "gene_id" r) as [[| | |s| | |]|]; try discriminate;
    destruct (assoc_get String.eqb "transcript_id" r) as [[| | |s'| | |]|];
    try discriminate; simpl; try (destruct (String.eqb _ _); discriminate).
  intros H. injection H as H. rewrite andb_true_r in H.
  apply andb_prop in H. destruct H as [H1 H2].
  apply String.eqb_eq in H1, H2. subst. reflexivity.
Qed.

Lemma select_by_key_unique (g t : string) (rows : list PG.row) :
  forall m,
    PG.select_rows [("gene_id", g); ("transcript_id", t)] rows = Ok m ->
    keys_distinct (map PG.key_of rows) = true ->
    List.length m <= 1
    /\ Forall (fun r => In r rows
                        /\ PG.key_of r = [Some (PG.CText g); Some (PG.CText t)]) m.
Proof.
  induction rows as [|r rest IH]; cbn [PG.select_rows]; intros m H Hd.
  - injection H as <-. split; [simpl; lia|constructor].
  - bind_inv H. rename a into b. bind_inv H. rename a into rs. injection H as <-.
    cbn [map keys_distinct] in Hd. apply andb_prop in Hd. destruct Hd as [Hr Hd].
    destruct (IH rs Hm0 Hd) as [Hlen Hall].
    assert (Hall' : Forall (fun r0 => In r0 (r :: rest)
                      /\ PG.key_of r0 = [Some (PG.CText g); Some (PG.CText t)]) rs).
    { eapply Forall_impl; [|exact Hall]. intros r0 [Hin Hk]. split; [right|]; assumption. }
    destruct b; [|split; assumption].
    pose proof (row_matches_key _ _ _ Hm) as Hk.
    destruct rs as [|r' rs'].
    + split; [simpl; lia|]. constructor; [|constructor]. split; [left; reflexivity|exact Hk].
    + exfalso. inversion Hall as [|? ? [Hin' Hk'] _]; subst.
      apply negb_true_iff in Hr.
      assert (E : existsb (fun k' => PG.key_eqb k' (PG.key_of r)) (map PG.key_of rest) = true).
      { apply existsb_exists. exists (PG.key_of r'). split; [apply in_map; exact Hin'|].
        rewrite Hk, Hk'. apply key_eqb_refl. }
      congruence.
Qed.

Lemma insert_by_position_length (k : Z) (r : PG.row) (l : list (Z * PG.row)) :
  List.length (PG.insert_by_position k r l) = S (List.length l).
Proof.
  induction l as [|[k' r'] rest IH]; simpl; [reflexivity|].
  destruct (k <=? k')%Z; simpl; [reflexivity|]. rewrite IH. reflexivity.
Qed.

Lemma order_by_position_length (l : list (Z * PG.row)) :
  List.length (PG.order_by_position l) = List.length l.
Proof.
  induction l as [|[k r] rest IH]; [reflexivity|].
  change (PG.order_by_position ((k, r) :: rest))
    with (PG.insert_by_position k r (PG.order_by_position rest)).
  rewrite insert_by_position_length, IH. reflexivity.
Qed.

(** X15.  On a table whose rows have pairwise different identity keys (as
    the persist step keeps them), [export_by_gene_transcript] writes either
    nothing or exactly one record. *)
Theorem export_by_gene_transcript_single (t : PG.table) (gene_id transcript_id : string)
    (other_columns : list string) (out : list dict) (msg : message) :
  keys_distinct (map PG.key_of (PG.rows t)) = true ->
  Filter.export_by_gene_transcript t gene_id transcript_id other_columns
  = Ok (Some (out, msg)) ->
  List.length out = 1 /\ msg = Exported 1.
Proof.
  unfold Filter.export_by_gene_transcript, PG.select_where_ordered. intros Hd H.
  bind_inv H. bind_inv Hm. rename a0 into matching. bind_inv Hm. rename a0 into keyed.
  injection Hm as <-.
  destruct (select_by_key_unique _ _ _ _ Hm0 Hd) as [Hlen _].
  apply mapM_length in Hm1.
  set (df := map (fun kr => PG.fetch (snd kr)) (PG.order_by_position keyed)) in *.
  assert (Hdf : List.length df <= 1)
    by (unfold df; rewrite length_map, order_by_position_length; lia).
  destruct df as [|row rest] eqn:Edf; [discriminate|].
  bind_inv H. injection H as ->.
  unfold Filter.rows_to_pkl in Hm. bind_inv Hm. injection Hm as E1 E2. subst.
  apply mapM_length in Hm2. rewrite Hm2. simpl in *.
  assert (List.length rest = 0) by lia. split; [lia|]. f_equal. lia.
Qed.

Definition one_row_table : PG.table :=
  PG.mk_table (Pipeline.col_defs protein_A)
    [[("protein_index", PG.CInt 0); ("gene_id", PG.CText "G1");
      ("transcript_id", PG.CText "T1"); ("sequence", PG.CText "MKV");
      ("exons", PG.CNull); ("protein_coding", PG.CBool true);
      ("nmd", PG.CBool false); ("pdb_ids", PG.CTextArr ["1ABC"]);
      ("pdb_files", PG.CByteaArr [[x00; x01]])]].

Lemma export_by_gene_transcript_single_witness :
  exists out msg,
    Filter.export_by_gene_transcript one_row_table "G1" "T1"
      (Pipeline.other_columns protein_A) = Ok (Some (out, msg))
    /\ List.length out = 1 /\ msg = Exported 1.
Proof.
  destruct (Filter.export_by_gene_transcript one_row_table "G1" "T1"
              (Pipeline.other_columns protein_A)) as [[[out msg]|]|e] eqn:E;
    try (vm_compute in E; discriminate).
  exists out, msg. split; [reflexivity|].
  exact (export_by_gene_transcript_single one_row_table "G1" "T1"
           (Pipeline.other_columns protein_A) out msg eq_refl E).
Defined.

(** ** The checker on a collection and itself *)

Lemma py_eq_refl (v : pyval) : unique_keys v = true -> py_eq v v = true.
Proof.
  induction v as [| b | n | s | bs | l IH | d IH] using pyval_nested_ind; intros Hu.
  - reflexivity.
  - destruct b; reflexivity.
  - apply Z.eqb_refl.
  - apply String.eqb_refl.
  - apply bytes_eqb_eq. reflexivity.
  - apply py_eq_list. simpl in Hu.
    induction IH as [|x r Hx _ IHr]; [constructor|].
    simpl in Hu. apply andb_prop in Hu. destruct Hu as [H1 H2].
    constructor; [exact (Hx H1)|exact (IHr H2)].
  - simpl in Hu. apply andb_prop in Hu. destruct Hu as [Hnd Hu].
    apply distinct_NoDup in Hnd. apply py_eq_dict; [reflexivity|].
    rewrite Forall_forall in IH. rewrite forallb_forall in Hu.
    apply Forall_forall. intros [k x] Hin. exists x. split.
    + apply lookup_in_nodup; assumption.
    + exact (IH _ Hin (Hu _ Hin)).
Qed.

Lemma canonical_unique_keys (v : pyval) : canonical v = true -> unique_keys v = true.
Proof.
  induction v as [| b | n | s | bs | l IH | d IH] using pyval_nested_ind;
    try reflexivity; simpl; intros H.
  - induction IH as [|x r Hx _ IHr]; [reflexivity|]. simpl in *.
    apply andb_prop in H. destruct H as [H1 H2]. rewrite (Hx H1). exact (IHr H2).
  - apply andb_prop in H. destruct H as [Ha H].
    rewrite (proj2 (distinct_NoDup _) (ascending_NoDup _ Ha)). simpl. clear Ha.
    induction IH as [|kv r Hx _ IHr]; [reflexivity|]. simpl in *.
    apply andb_prop in H. destruct H as [H1 H2]. rewrite (Hx H1). exact (IHr H2).
Qed.

Lemma exact_field_py_eq (ty : string) (v : pyval) :
  exact_field ty v = true -> py_neq v v = false.
Proof.
  intros H. unfold py_neq. apply negb_false_iff. apply py_eq_refl.
  destruct v; try reflexivity; try discriminate;
    cbn [exact_field] in H; apply andb_prop in H; destruct H as [_ H];
    apply canonical_unique_keys; exact H.
Qed.

Lemma compare_pdb_pairs_same (pdbs : list (string * list byte)) (i : nat) :
  Checker.compare_pdb_pairs i (zip (map subrecord_of pdbs) (map subrecord_of pdbs))
  = Ok None.
Proof.
  revert i. induction pdbs as [|[id c] rest IH]; intros i; [reflexivity|].
  cbn [map zip Checker.compare_pdb_pairs]. unfold subrecord_of at 1 2 3 4. simpl.
  unfold py_neq. simpl. rewrite String.eqb_refl. simpl.
  rewrite (proj2 (bytes_eqb_eq c c) eq_refl). simpl. apply IH.
Qed.

Section CheckerOnItself.
Variable first : dict.
Variable e : dict.
Hypothesis Hwf : wf_record first e = true.
Hypothesis Hfull : full_record e = true.

Lemma wf_field_value (k : string) (v : pyval) :
  dict_lookup k e = Some v -> k <> "pdb_files" -> py_neq v v = false.
Proof.
  intros Hv Hne. destruct (wf_record_parts first e Hwf) as (_ & Hall & _).
  rewrite forallb_forall in Hall. specialize (Hall _ (lookup_some_in _ _ _ Hv)).
  unfold field_ok in Hall. simpl in Hall.
  apply String.eqb_neq in Hne. rewrite Hne in Hall.
  exact (exact_field_py_eq _ _ Hall).
Qed.

Lemma full_record_fields :
  forall k, In k hashed_fields -> exists v, dict_lookup k e = Some v.
Proof.
  intros k Hk. unfold full_record in Hfull. rewrite forallb_forall in Hfull.
  specialize (Hfull k Hk). unfold has_field in Hfull.
  destruct (dict_lookup k e) as [v|]; [exists v; reflexivity|discriminate].
Qed.

Lemma compare_fields_same (fields : list string) :
  (forall k, In k fields -> In k hashed_fields /\ k <> "pdb_files") ->
  Checker.compare_fields fields e e = Ok None.
Proof.
  induction fields as [|k rest IH]; intros H; [reflexivity|].
  cbn [Checker.compare_fields].
  destruct (H k (or_introl eq_refl)) as [Hin Hne].
  destruct (full_record_fields k Hin) as [v Hv].
  unfold getitem. rewrite Hv. cbn [bind]. rewrite (wf_field_value k v Hv Hne).
  apply IH. intros k' Hk'. apply H. right. exact Hk'.
Qed.

Lemma compare_entry_same : Checker.compare_entry e e = Ok None.
Proof.
  unfold Checker.compare_entry. rewrite compare_fields_same.
  - cbn [bind].
    destruct (full_record_fields "pdb_files") as [v Hv]; [simpl; tauto|].
    destruct (wf_pdbs first e Hwf) as [pdbs [Hp _]].
    unfold get_default in Hp. rewrite Hv in Hp. subst v.
    unfold getitem. rewrite Hv. cbn [bind len iter]. rewrite Nat.eqb_refl.
    cbn [negb]. apply compare_pdb_pairs_same.
  - intros k Hk. simpl in Hk.
    destruct Hk as [<-|[<-|[<-|[<-|[]]]]]; (split; [simpl; tauto|discriminate]).
Qed.

Lemma total_of_record :
  exists n, (f <- getitem e "pdb_files" ;; len f) = Ok n.
Proof.
  destruct (full_record_fields "pdb_files") as [v Hv]; [simpl; tauto|].
  destruct (wf_pdbs first e Hwf) as [pdbs [Hp _]].
  unfold get_default in Hp. rewrite Hv in Hp. subst v.
  unfold getitem. rewrite Hv. eexists. reflexivity.
Qed.

Lemma checker_hash_ok : hashes e = true.
Proof.
  unfold hashes. rewrite <- (hash_protein_agree_on_full e Hfull).
  destruct (hash_protein_ok first e Hwf) as [h ->]. reflexivity.
Qed.

End CheckerOnItself.

Lemma py_eq_hashable_refl (a : pyval) : Checker.hashable a = true -> py_eq a a = true.
Proof.
  intros H. apply py_eq_refl. destruct a; try reflexivity; discriminate.
Qed.

Lemma pair_eq_refl (k : pyval * pyval) : hashable_pair k = true -> Checker.pair_eq k k = true.
Proof.
  unfold hashable_pair, Checker.pair_eq. intros H. apply andb_prop in H.
  destruct H as [H1 H2]. rewrite !py_eq_hashable_refl by assumption. reflexivity.
Qed.

Lemma index_lookup_own_entry (m : Checker.index) (k : pyval * pyval) (v : dict) :
  hashable_keys m -> index_keys_distinct m = true -> In (k, v) m ->
  assoc_get Checker.pair_eq k m = Some v.
Proof.
  intros Hh. induction Hh as [|[k1 v1] r Hk1 Hr IH]; simpl; intros Hd Hin; [contradiction|].
  apply andb_prop in Hd. destruct Hd as [H1 Hd]. apply negb_true_iff in H1.
  destruct Hin as [E|Hin].
  - injection E as -> ->. simpl in Hk1. rewrite (pair_eq_refl k Hk1). reflexivity.
  - assert (Hk : hashable_pair k = true).
    { rewrite Forall_forall in Hr. exact (Hr _ Hin). }
    destruct (Checker.pair_eq k k1) eqn:E; [|exact (IH Hd Hin)].
    exfalso. simpl in Hk1. rewrite (pair_eq_sym k k1 Hk Hk1) in E.
    assert (Ex : existsb (fun kv => Checker.pair_eq k1 (fst kv)) r = true).
    { apply existsb_exists. exists (k, v). split; [exact Hin|exact E]. }
    congruence.
Qed.

Lemma compare_maps_same (first : dict) (data : list dict) (m : Checker.index) :
  forallb (wf_record first) data = true -> forallb full_record data = true ->
  hashable_keys m -> index_keys_distinct m = true ->
  Forall (fun kv => In (snd kv) data) m ->
  forall entries,
    incl entries m -> Checker.compare_maps entries m = Ok (true, Passed).
Proof.
  intros Hwf Hfull Hh Hd Hin. rewrite forallb_forall in Hwf, Hfull.
  rewrite Forall_forall in Hin.
  induction entries as [|[k inp] rest IH]; intros Hincl; [reflexivity|].
  cbn [Checker.compare_maps].
  assert (Hm : In (k, inp) m) by (apply Hincl; left; reflexivity).
  rewrite (index_lookup_own_entry m k inp Hh Hd Hm). cbn [bind].
  pose proof (Hin _ Hm) as Hdata. simpl in Hdata.
  rewrite (compare_entry_same first inp (Hwf _ Hdata) (Hfull _ Hdata)). cbn [bind].
  apply IH. intros x Hx. apply Hincl. right. exact Hx.
Qed.

Lemma index_exists (first : dict) (data : list dict) :
  forallb (wf_record first) data = true ->
  forall acc, exists m, Checker.index_into data acc = Ok m.
Proof.
  induction data as [|e rest IH]; simpl; intros Hwf acc; [exists acc; reflexivity|].
  apply andb_prop in Hwf. destruct Hwf as [He Hrest].
  destruct (wf_record_parts first e He) as (_ & _ & [g Hg] & [t Ht] & _).
  destruct (get_text_present _ _ _ Hg) as [Hlg _].
  destruct (get_text_present _ _ _ Ht) as [Hlt _].
  unfold getitem. rewrite Hlg, Hlt. cbn [bind Checker.hashable andb].
  apply IH. exact Hrest.
Qed.

Lemma key_set_eq_refl (m : Checker.index) :
  hashable_keys m -> Checker.key_set_eq m m = true.
Proof.
  intros Hh. unfold Checker.key_set_eq.
  assert (H : forallb (fun kv => assoc_mem Checker.pair_eq (fst kv) m) m = true).
  { apply forallb_forall. intros [k v] Hin. unfold assoc_mem. simpl.
    assert (Hk : hashable_pair k = true).
    { unfold hashable_keys in Hh. rewrite Forall_forall in Hh. exact (Hh _ Hin). }
    clear Hh. induction m as [|[k1 v1] r IH]; [contradiction|]. simpl.
    destruct (Checker.pair_eq k k1) eqn:E; [reflexivity|].
    destruct Hin as [Eq|Hin]; [|exact (IH Hin)].
    injection Eq as -> ->. rewrite (pair_eq_refl k Hk) in E. discriminate. }
  rewrite H. reflexivity.
Qed.

Lemma total_pdbs_exists (first : dict) (data : list dict) :
  forallb (wf_record first) data = true -> forallb full_record data = true ->
  exists n, Checker.total_pdbs data = Ok n.
Proof.
  induction data as [|e rest IH]; simpl; intros Hwf Hfull; [exists 0; reflexivity|].
  apply andb_prop in Hwf, Hfull. destruct Hwf as [He Hrest], Hfull as [Hf Hfr].
  destruct (IH Hrest Hfr) as [m Hm].
  destruct (full_record_fields e Hf "pdb_files") as [v Hv]; [simpl; tauto|].
  destruct (wf_pdbs first e He) as [pdbs [Hp _]].
  unfold get_default in Hp. rewrite Hv in Hp. subst v.
  unfold getitem. rewrite Hv. cbn [bind len]. rewrite Hm. eexists. reflexivity.
Qed.

(** X16.  The checker raises no false alarm: on a well-formed collection
    whose records have all seven checked fields, compared with itself (what
    the pipeline exports for such a collection), the [__main__] block runs
    to its end and its four checks, total count, per-protein comparison,
    file comparison and fingerprint proof, all pass. *)
Theorem checker_passes_on_itself (data : list dict) :
  wf_collection data = true ->
  forallb full_record data = true ->
  Checker.main data data = Ok [true; true; true; true].
Proof.
  destruct data as [|first rest]; [discriminate|]. intros H Hfull.
  unfold wf_collection in H.
  repeat (apply andb_prop in H; destruct H as [H ?H]).
  rename H2 into Hwf. clear H H0 H1 H3.
  set (data := first :: rest) in *.
  unfold Checker.main, Checker.quick_sanity_check.
  change (match data with e :: _ => Ok e | [] => Raise IndexError end) with (Ok first).
  cbn [bind].
  destruct (total_pdbs_exists first data Hwf Hfull) as [n Hn].
  unfold Checker.compare_total_pdbs. rewrite Hn. cbn [bind fst]. rewrite Nat.eqb_refl.
  destruct (index_exists first data Hwf []) as [m Hm].
  destruct (index_into_invariants data [] m [] Hm (Forall_nil _) eq_refl (Forall_nil _))
    as (Hh & Hd & _ & Hin).
  assert (Hin' : Forall (fun kv => In (snd kv) data) m).
  { eapply Forall_impl; [|exact Hin]. intros kv Hkv.
    rewrite app_nil_r in Hkv. apply in_rev. exact Hkv. }
  unfold Checker.compare_proteins, Checker.compare_pkl_files, Checker.index_by_key.
  rewrite Hm. cbn [bind]. rewrite (key_set_eq_refl m Hh). cbn [negb].
  rewrite (compare_maps_same first data m Hwf Hfull Hh Hd Hin' m (incl_refl _)).
  cbn [bind fst].
  unfold Checker.proof_compare_pkl. rewrite Nat.eqb_refl. cbn [negb].
  rewrite compare_hashes_identical; [reflexivity|].
  apply forallb_forall. intros e He.
  rewrite forallb_forall in Hwf, Hfull.
  exact (checker_hash_ok first e (Hwf e He) (Hfull e He)).
Qed.

Lemma checker_passes_on_itself_witness :
  Checker.main [protein_A; protein_B] [protein_A; protein_B]
  = Ok [true; true; true; true].
Proof.
  apply checker_passes_on_itself; reflexivity.
Defined.

(** ** [export_by_gene] on a table the pipeline filled *)

(** The record [rows_to_pkl] writes for a stored record: the other columns
    in table order, an absent [exons] replaced by the empty list, and the
    subrecords last. *)
Definition filter_shape (first e : dict) : dict :=
  map (fun k => (k, if String.eqb k "exons" then py_or (get e k) (PyList [])
                    else get e k))
      (Pipeline.other_columns first)
  ++ [("pdb_files", get_default e "pdb_files" (PyList []))].

Definition has_gene (g : string) (e : dict) : bool :=
  py_eq (get e "gene_id") (PyStr g).

Lemma copy_columns_exact (row : PG.series) (f : string -> pyval) (cols : list string) :
  NoDup cols ->
  (forall k, In k cols -> PG.column row k = Ok (f k)) ->
  forall acc,
    (forall k, In k cols -> ~ In k (map fst acc)) ->
    Filter.copy_columns cols row acc
    = Ok (acc ++ map (fun k => (k, if String.eqb k "exons" then py_or (f k) (PyList [])
                                   else f k)) cols).
Proof.
  induction cols as [|col rest IH]; simpl; intros Hnd Hval acc Hfresh.
  - rewrite app_nil_r. reflexivity.
  - inversion Hnd as [|? ? Hk Hr]; subst.
    rewrite (Hval col (or_introl eq_refl)). cbn [bind].
    rewrite assoc_set_fresh
      by (apply assoc_get_none_iff; apply Hfresh; left; reflexivity).
    rewrite IH; [rewrite <- app_assoc; reflexivity|exact Hr| |].
    + intros k Hin. apply Hval. right. exact Hin.
    + intros k Hin Hacc. rewrite map_app, in_app_iff in Hacc. simpl in Hacc.
      destruct Hacc as [Hacc|[<-|[]]]; [|contradiction].
      apply (Hfresh k); [right; exact Hin|exact Hacc].
Qed.

Lemma len_list_or_empty (l : list pyval) :
  len (py_or (PyList l) (PyList [])) = Ok (List.length l).
Proof.
  destruct l; reflexivity.
Qed.

Section FilteredRecord.
Variable first : dict.
Hypothesis Hcols : NoDup (Pipeline.columns_of (Pipeline.other_columns first)).
Variable entry : dict.
Hypothesis Hwf : wf_record first entry = true.
Hypothesis Hret : returned_exactly first entry = true.
Variable idx : nat.
Variable r : PG.row.
Hypothesis Hrow : to_row first idx entry = Ok r.

(** The two subrecord arrays of the stored row. *)
Lemma pdb_cells_of_row :
  exists pdbs,
    assoc_get String.eqb "pdb_ids" r = Some (PG.CTextArr (map fst pdbs))
    /\ assoc_get String.eqb "pdb_files" r = Some (PG.CByteaArr (map snd pdbs)).
Proof.
  destruct (wf_pdbs first entry Hwf) as [pdbs [Hget _]].
  destruct (subscripts_of_subrecords _ _ (subrecords_are_subrecords pdbs))
    as [Hids Hcontents].
  assert (Hin1 : In "pdb_ids" (Pipeline.columns_of (Pipeline.other_columns first)))
    by (apply in_columns_of; tauto).
  assert (Hin2 : In "pdb_files" (Pipeline.columns_of (Pipeline.other_columns first)))
    by (apply in_columns_of; tauto).
  destruct (to_row_cell _ _ _ _ _ Hrow Hin1) as (rd & p1 & c1 & Hrd & Hp1 & Hc1 & Hr1).
  destruct (to_row_cell _ _ _ _ _ Hrow Hin2) as (rd' & p2 & c2 & Hrd' & Hp2 & Hc2 & Hr2).
  rewrite Hrd in Hrd'. injection Hrd' as <-.
  destruct (build_row_dict_spec _ _ _ _ Hrd)
    as (pdbs0 & ids & contents & Hiter & Hi & Hc & Hgi & Hgc & _).
  rewrite Hget in Hiter. simpl in Hiter. injection Hiter as <-.
  rewrite Hids in Hi. injection Hi as <-.
  rewrite Hcontents in Hc. injection Hc as <-.
  rewrite Hgi in Hp1. injection Hp1 as <-.
  rewrite Hgc in Hp2. injection Hp2 as <-.
  simpl in Hc1. bind_inv Hc1. injection Hc1 as <-.
  apply text_elements_of in Hm. subst a.
  simpl in Hc2. rewrite bytes_elements_of in Hc2. simpl in Hc2. injection Hc2 as <-.
  exists pdbs. split; assumption.
Qed.

(** What [rows_to_pkl] makes of the stored row of a well-formed record. *)
Lemma row_to_entry_exact :
  Filter.row_to_entry (Pipeline.other_columns first) (PG.fetch r)
  = Ok (filter_shape first entry).
Proof.
  destruct (added_columns_fresh first Hcols) as (_ & _ & Ffiles).
  destruct pdb_cells_of_row as [pdbs [Hids Hfiles]].
  destruct (row_spec first Hcols entry Hwf Hret idx r Hrow) as (_ & Hother & Hpdbs).
  unfold Filter.row_to_entry, PG.column.
  rewrite !fetch_lookup, Hids, Hfiles. cbn [option_map PG.cell_value bind].
  rewrite !len_list_or_empty. cbn [bind]. rewrite !length_map, Nat.eqb_refl.
  cbn [negb bind].
  rewrite (copy_columns_exact (PG.fetch r) (get entry)).
  - cbn [bind app]. rewrite Hpdbs. cbn [bind].
    rewrite assoc_set_fresh; [reflexivity|].
    apply assoc_get_none_iff. rewrite map_map. simpl. rewrite map_id. exact Ffiles.
  - unfold Pipeline.columns_of in Hcols. simpl in Hcols.
    inversion Hcols as [|? ? _ Hrest]; subst.
    exact (NoDup_app_remove_r _ _ Hrest).
  - intros k Hk. destruct (Hother k Hk) as (c & Hc & _ & Hv).
    unfold PG.column. rewrite fetch_lookup, Hc. simpl. rewrite Hv. reflexivity.
  - intros k _ [].
Qed.

Lemma gene_of_row (g : string) :
  PG.row_matches r [("gene_id", g)] = Ok (has_gene g entry).
Proof.
  destruct (wf_record_parts first entry Hwf) as (_ & _ & [g0 Hg] & _).
  unfold PG.row_matches, PG.cell_matches. simpl.
  rewrite (identity_column first Hcols entry Hwf Hret idx r Hrow _ _ Hg) by discriminate.
  unfold has_gene. rewrite Hg. simpl. rewrite andb_true_r. reflexivity.
Qed.

End FilteredRecord.

Lemma select_gene_rows (first : dict) (g : string) (data : list dict) :
  NoDup (Pipeline.columns_of (Pipeline.other_columns first)) ->
  forallb (wf_record first) data = true ->
  forallb (returned_exactly first) data = true ->
  forall idx rs,
    to_rows first idx data = Ok rs ->
    exists sel ks,
      PG.select_rows [("gene_id", g)] rs = Ok sel
      /\ mapM PG.position sel = Ok ks
      /\ StronglySorted Z.lt ks
      /\ Forall (fun k => (Z.of_nat idx <= k)%Z) ks
      /\ mapM (Filter.row_to_entry (Pipeline.other_columns first)) (map PG.fetch sel)
         = Ok (map (filter_shape first) (filter (has_gene g) data)).
Proof.
  intros Hc. destruct (added_columns_fresh first Hc) as (Fpi & _).
  induction data as [|e rest IH]; simpl; intros Hwf Hret idx rs Hrs.
  - injection Hrs as <-. exists [], []. repeat split; constructor.
  - apply andb_prop in Hwf, Hret. destruct Hwf as [He Hrest], Hret as [Re Rrest].
    bind_inv Hrs. rename a into r. bind_inv Hrs. rename a into rs'.
    injection Hrs as <-.
    destruct (IH Hrest Rrest (S idx) rs' Hm0)
      as (sel & ks & Hsel & Hks & Hs & Hlo & Hout).
    cbn [PG.select_rows]. rewrite (gene_of_row first Hc e He Re idx r Hm g). cbn [bind].
    rewrite Hsel. cbn [bind].
    assert (Hlo' : Forall (fun k => (Z.of_nat idx <= k)%Z) ks).
    { eapply Forall_impl; [|exact Hlo]. intros k Hk. cbv beta in *. lia. }
    destruct (has_gene g e).
    + exists (r :: sel), (Z.of_nat idx :: ks). split; [reflexivity|].
      cbn [mapM map]. rewrite (position_of_built_row first e idx r Fpi Hm). cbn [bind].
      rewrite Hks. cbn [bind].
      rewrite (row_to_entry_exact first Hc e He Re idx r Hm). cbn [bind].
      rewrite Hout. cbn [bind].
      repeat split.
      * constructor; [exact Hs|].
        eapply Forall_impl; [|exact Hlo]. intros k Hk. cbv beta in *. lia.
      * constructor; [cbv beta; lia|exact Hlo'].
    + exists sel, ks. repeat split; assumption.
Qed.

(** X17.  After the persist step on a fresh table and a well-formed
    collection whose field names are plain column names and whose fields
    every column hands back as they were (so no [None] in a bounded-text
    column, which pandas reads back as NaN), [export_by_gene] for a gene
    writes nothing when no record of the collection has that gene, and
    otherwise writes one record for every record of the collection with
    that gene, in the order of the collection, each with its other columns,
    its subrecords intact and last, and an absent [exons] replaced by the
    empty list. *)
Theorem export_by_gene_of_pipeline_table (first : dict) (rest : list dict)
    (ins : Pipeline.inserted) (g : string) :
  wf_collection (first :: rest) = true ->
  forallb PG.plain_name (keys first) = true ->
  forallb (returned_exactly first) (first :: rest) = true ->
  Pipeline.insert_proteins_with_pdbs (Pipeline.other_columns first)
    (fresh_table first) (first :: rest) = Ok ins ->
  Filter.export_by_gene (Pipeline.committed ins) g (Pipeline.other_columns first)
  = Ok (match filter (has_gene g) (first :: rest) with
        | [] => None
        | sel => Some (map (filter_shape first) sel, Exported (List.length sel))
        end).
Proof.
  intros H _ Hret Hins. unfold wf_collection in H.
  repeat (apply andb_prop in H; destruct H as [H ?H]).
  rename H into Hk, H3 into Hc, H2 into Hwf, H1 into Hid, H0 into Hlen.
  apply distinct_NoDup in Hk, Hc. apply Z.leb_le in Hlen.
  set (data := first :: rest) in *.
  destruct (collection_rows first data Hk Hc Hwf Hret 0 Hlen)
    as (rs & Hrs & _ & _ & Hkey & Hnn).
  destruct (insert_loop_appends first data rs [] 0 0 Hrs Hnn) as [total Hloop].
  { cbn [app]. rewrite Hkey.
    rewrite (keys_distinct_of_identities data (wf_text_identities first data Hwf)).
    exact Hid. }
  unfold Pipeline.insert_proteins_with_pdbs, fresh_table in Hins.
  rewrite Hloop in Hins. cbn [bind fst snd app] in Hins. injection Hins as <-.
  cbn [Pipeline.committed].
  destruct (select_gene_rows first g data Hc Hwf Hret 0 rs Hrs)
    as (sel & ks & Hsel & Hks & Hs & _ & Hout).
  destruct (keyed_by_positions _ _ Hks) as (H1 & H2 & H3).
  unfold Filter.export_by_gene, PG.select_where_ordered. cbn [PG.rows].
  rewrite Hsel. cbn [bind]. rewrite H1. cbn [bind].
  rewrite order_sorted by (rewrite H2; exact Hs). rewrite H3.
  unfold Filter.rows_to_pkl.
  destruct (filter (has_gene g) data) as [|e0 sel0] eqn:Ef.
  - destruct sel as [|r0 sel']; [reflexivity|].
    simpl in Hout. bind_inv Hout. bind_inv Hout. discriminate.
  - destruct sel as [|r0 sel'] eqn:Es; [discriminate|]. rewrite <- Es in *.
    assert (Hne : map PG.fetch sel <> []) by (rewrite Es; discriminate).
    destruct (map PG.fetch sel) as [|row rows] eqn:Em; [contradiction|].
    rewrite Hout. cbn [bind]. rewrite length_map. reflexivity.
Qed.

Lemma export_by_gene_of_pipeline_table_witness :
  exists ins,
    Pipeline.insert_proteins_with_pdbs (Pipeline.other_columns protein_A)
      (fresh_table protein_A) [protein_A; protein_AB_C; protein_B] = Ok ins
    /\ Filter.export_by_gene (Pipeline.committed ins) "G1" (Pipeline.other_columns protein_A)
       = Ok (Some ([filter_shape protein_A protein_A; filter_shape protein_A protein_B],
                   Exported 2)).
Proof.
  destruct (Pipeline.insert_proteins_with_pdbs (Pipeline.other_columns protein_A)
              (fresh_table protein_A) [protein_A; protein_AB_C; protein_B])
    as [ins|e] eqn:E; [|vm_compute in E; discriminate].
  exists ins. split; [reflexivity|].
  exact (export_by_gene_of_pipeline_table protein_A [protein_AB_C; protein_B] ins "G1"
           eq_refl eq_refl eq_refl E).
Defined.

(** ** The fingerprint and an empty sequence *)

Lemma lookup_set_same (d : dict) (k : string) (v : pyval) :
  dict_lookup k (assoc_set String.eqb k v d) = Some v.
Proof.
  unfold dict_lookup. apply assoc_get_set_same.
Qed.

(** X18.  Both [hash_protein] functions hash [sequence or ""]: a record
    whose [sequence] is [None], [False], [0], an empty list or any other
    false value has the same result as the record with the empty text in
    its place, so the fingerprint check cannot tell an absent sequence from
    an empty one. *)
Theorem hash_protein_empty_sequence (p : dict) (v : pyval) :
  truthy v = false ->
  Checker.hash_protein (assoc_set String.eqb "sequence" v p)
  = Checker.hash_protein (assoc_set String.eqb "sequence" (PyStr "") p)
  /\ Pipeline.hash_protein (assoc_set String.eqb "sequence" v p)
     = Pipeline.hash_protein (assoc_set String.eqb "sequence" (PyStr "") p).
Proof.
  intros Hv.
  assert (L : forall w k, k <> "sequence" ->
                dict_lookup k (assoc_set String.eqb "sequence" w p) = dict_lookup k p).
  { intros w k Hk. apply lookup_set_other. exact Hk. }
  assert (E : py_or v (PyStr "") = py_or (PyStr "") (PyStr ""))
    by (unfold py_or; rewrite Hv; reflexivity).
  unfold Checker.hash_protein, Pipeline.hash_protein, getitem, get_default.
  rewrite !lookup_set_same.
  rewrite !(L v), !(L (PyStr "")) by discriminate.
  cbn [bind]. rewrite E. split; reflexivity.
Qed.

Lemma hash_protein_empty_sequence_witness :
  Checker.hash_protein (assoc_set String.eqb "sequence" PyNone protein_A)
  = Checker.hash_protein (assoc_set String.eqb "sequence" (PyStr "") protein_A)
  /\ Pipeline.hash_protein (assoc_set String.eqb "sequence" PyNone protein_A)
     = Pipeline.hash_protein (assoc_set String.eqb "sequence" (PyStr "") protein_A).
Proof.
  apply hash_protein_empty_sequence. reflexivity.
Defined.

(** ** Parameters and missing fields *)

(** X19.  Every placeholder of the insert statement has a parameter: the
    dictionary the loop builds for a record has a value under every column
    name the statement lists, whatever fields the record has. *)
Theorem every_placeholder_bound (other : list string) (idx : nat) (entry : dict)
    (row_dict : list (string * PG.param)) (c : string) :
  Pipeline.build_row_dict other idx entry = Ok row_dict ->
  In c (Pipeline.columns_of other) ->
  exists p, assoc_get String.eqb c row_dict = Some p.
Proof.
  unfold Pipeline.build_row_dict. intros H Hc.
  bind_inv H. rename a into fields. bind_inv H. bind_inv H. bind_inv H.
  injection H as <-.
  destruct (String.eqb c "pdb_files") eqn:E1.
  { apply String.eqb_eq in E1. subst c. rewrite assoc_get_set_same. eexists. reflexivity. }
  apply String.eqb_neq in E1. rewrite assoc_get_set_other by exact E1.
  destruct (String.eqb c "pdb_ids") eqn:E2.
  { apply String.eqb_eq in E2. subst c. rewrite assoc_get_set_same. eexists. reflexivity. }
  apply String.eqb_neq in E2. rewrite assoc_get_set_other by exact E2.
  apply in_columns_of in Hc. destruct Hc as [-> | [Hc | [-> | ->]]]; try contradiction.
  - destruct (in_dec string_dec "protein_index" other) as [Hin|Hout].
    + destruct (set_fields_key _ _ _ _ _ Hm Hin) as [p [_ Hp]]. exists p. exact Hp.
    + rewrite (set_fields_other_key _ _ _ _ _ Hm Hout). eexists. reflexivity.
  - destruct (set_fields_key _ _ _ _ _ Hm Hc) as [p [_ Hp]]. exists p. exact Hp.
Qed.

Lemma every_placeholder_bound_witness :
  exists p,
    assoc_get String.eqb "nmd"
      [("protein_index", PG.Param (PyInt 0)); ("nmd", PG.Param PyNone);
       ("pdb_ids", PG.Param (PyList [])); ("pdb_files", PG.Binaries [])] = Some p.
Proof.
  apply (every_placeholder_bound ["nmd"] 0 [] _ "nmd"); [reflexivity|].
  simpl. tauto.
Defined.

(** X20.  A field of the first record that a later record does not have
    is stored as NULL for that record, whatever its column; when the field
    has a plain column name and its column is a boolean or a jsonb one, it
    comes back as [None], and the exported record has the key although the
    input record did not.  A bounded-text column is left out: pandas reads
    its NULL back as NaN once the column holds a text. *)
Theorem missing_field_comes_back_none (first entry : dict) (idx : nat) (r : PG.row)
    (k : string) :
  NoDup (Pipeline.columns_of (Pipeline.other_columns first)) ->
  In k (Pipeline.other_columns first) ->
  PG.plain_name k = true ->
  column_type first k <> "VARCHAR(400)" ->
  dict_lookup k entry = None ->
  to_row first idx entry = Ok r ->
  assoc_get String.eqb k r = Some PG.CNull
  /\ field_value (PG.fetch r) k = Ok PyNone.
Proof.
  intros Hc Hk _ _ Hmiss Hrow.
  destruct (added_columns_fresh first Hc) as (_ & Fids & Ffiles).
  assert (Hin : In k (Pipeline.columns_of (Pipeline.other_columns first)))
    by (apply in_columns_of; tauto).
  destruct (to_row_cell _ _ _ _ _ Hrow Hin) as (rd & p & c & Hrd & Hp & Hcell & Hr).
  destruct (build_row_dict_spec _ _ _ _ Hrd)
    as (_ & _ & _ & _ & _ & _ & _ & _ & Hother & _).
  assert (Hne1 : k <> "pdb_ids") by (intros ->; contradiction).
  assert (Hne2 : k <> "pdb_files") by (intros ->; contradiction).
  destruct (Hother k Hne1 Hne2 Hk) as [p' [Hp' Hg]].
  rewrite Hg in Hp. injection Hp as <-.
  unfold get, get_default in Hp'. rewrite Hmiss in Hp'.
  unfold Pipeline.field_param in Hp'. simpl in Hp'. injection Hp' as <-.
  simpl in Hcell. injection Hcell as <-.
  split; [exact Hr|].
  unfold field_value. apply String.eqb_neq in Hne2. rewrite Hne2.
  unfold PG.column. rewrite fetch_lookup, Hr. reflexivity.
Qed.

Lemma missing_field_comes_back_none_witness :
  exists r,
    to_row protein_A 1 bare_protein = Ok r
    /\ assoc_get String.eqb "nmd" r = Some PG.CNull
    /\ field_value (PG.fetch r) "nmd" = Ok PyNone.
Proof.
  destruct (to_row protein_A 1 bare_protein) as [r|e] eqn:E;
    [|vm_compute in E; discriminate].
  exists r. split; [reflexivity|].
  apply (missing_field_comes_back_none protein_A bare_protein 1 r "nmd").
  - apply distinct_NoDup. reflexivity.
  - simpl. tauto.
  - reflexivity.
  - vm_compute. discriminate.
  - reflexivity.
  - exact E.
Defined.

(** ** The keyed comparisons and the order of the records *)

Lemma same_identity_sym (first x y : dict) :
  wf_record first x = true -> wf_record first y = true ->
  same_identity x y = same_identity y x.
Proof.
  intros Hx Hy.
  destruct (wf_record_parts first x Hx) as (_ & _ & [g Hg] & [t Ht] & _).
  destruct (wf_record_parts first y Hy) as (_ & _ & [g' Hg'] & [t' Ht'] & _).
  unfold same_identity. rewrite Hg, Ht, Hg', Ht'. simpl.
  rewrite (String.eqb_sym g g'), (String.eqb_sym t t'). reflexivity.
Qed.

Lemma distinct_identity_unique (first : dict) (l : list dict) :
  forallb (wf_record first) l = true -> identities_distinct l = true ->
  forall x y, In x l -> In y l -> same_identity x y = true -> x = y.
Proof.
  induction l as [|a r IH]; simpl; intros Hwf Hd x y Hx Hy Hs; [contradiction|].
  apply andb_prop in Hwf, Hd. destruct Hwf as [Ha Hr], Hd as [Hn Hd].
  apply negb_true_iff in Hn.
  assert (Hno : forall z, In z r -> same_identity a z = false).
  { intros z Hz. destruct (same_identity a z) eqn:E; [|reflexivity].
    assert (existsb (same_identity a) r = true)
      by (apply existsb_exists; exists z; split; assumption).
    congruence. }
  rewrite forallb_forall in Hr.
  destruct Hx as [<-|Hx], Hy as [<-|Hy].
  - reflexivity.
  - rewrite (Hno y Hy) in Hs. discriminate.
  - rewrite (same_identity_sym first x a (Hr x Hx) Ha), (Hno x Hx) in Hs. discriminate.
  - apply IH; try assumption. apply forallb_forall. exact Hr.
Qed.

Lemma carrier_unique (first : dict) (l : list dict) (k : pyval * pyval) :
  forallb (wf_record first) l = true -> identities_distinct l = true ->
  hashable_pair k = true ->
  forall x y, In x l -> In y l -> carries k x = true -> carries k y = true -> x = y.
Proof.
  intros Hwf Hd Hk x y Hx Hy Cx Cy.
  apply (distinct_identity_unique first l Hwf Hd x y Hx Hy).
  rewrite forallb_forall in Hwf.
  destruct (wf_record_parts first x (Hwf x Hx)) as (_ & _ & [g Hg] & [t Ht] & _).
  destruct (wf_record_parts first y (Hwf y Hy)) as (_ & _ & [g' Hg'] & [t' Ht'] & _).
  destruct (get_text_present _ _ _ Hg) as [Lg _].
  destruct (get_text_present _ _ _ Ht) as [Lt _].
  destruct (get_text_present _ _ _ Hg') as [Lg' _].
  destruct (get_text_present _ _ _ Ht') as [Lt' _].
  unfold carries, record_key in Cx, Cy. rewrite Lg, Lt in Cx. rewrite Lg', Lt' in Cy.
  assert (Hxy : Checker.pair_eq (PyStr g, PyStr t) (PyStr g', PyStr t') = true).
  { apply (pair_eq_trans _ k _); try reflexivity; try assumption.
    rewrite (pair_eq_sym _ k) by (try reflexivity; assumption). exact Cx. }
  unfold same_identity. rewrite Hg, Ht, Hg', Ht'. exact Hxy.
Qed.

Lemma index_entry_carries (data : list dict) (m : Checker.index)
    (k : pyval * pyval) (v : dict) :
  Checker.index_by_key data = Ok m -> In (k, v) m ->
  hashable_pair k = true /\ In v data /\ carries k v = true.
Proof.
  intros Hm Hin.
  destruct (index_into_invariants data [] m [] Hm (Forall_nil _) eq_refl (Forall_nil _))
    as (Hh & Hd & _ & _).
  assert (Hk : hashable_pair k = true).
  { unfold hashable_keys in Hh. rewrite Forall_forall in Hh. exact (Hh _ Hin). }
  pose proof (index_lookup_own_entry m k v Hh Hd Hin) as Hown.
  rewrite (index_into_last data [] m k Hm (Forall_nil _) Hk) in Hown.
  unfold last_with_key in Hown.
  destruct (find (carries k) (rev data)) as [p|] eqn:F; [|discriminate].
  injection Hown as ->. apply find_some in F. destruct F as [F1 F2].
  split; [exact Hk|]. split; [apply in_rev; exact F1|exact F2].
Qed.

Lemma index_lookup_across (first : dict) (d1 d2 : list dict) (m1 m2 : Checker.index)
    (k : pyval * pyval) (v : dict) :
  forallb (wf_record first) d2 = true -> identities_distinct d2 = true ->
  (forall x, In x d1 -> In x d2) ->
  Checker.index_by_key d1 = Ok m1 -> Checker.index_by_key d2 = Ok m2 ->
  In (k, v) m1 ->
  assoc_get Checker.pair_eq k m2 = Some v.
Proof.
  intros Hwf Hd Hsub H1 H2 Hin.
  destruct (index_entry_carries d1 m1 k v H1 Hin) as (Hk & Hv & Hc).
  rewrite (index_into_last d2 [] m2 k H2 (Forall_nil _) Hk).
  unfold last_with_key.
  destruct (find (carries k) (rev d2)) as [p|] eqn:F.
  - apply find_some in F. destruct F as [F1 F2]. apply in_rev in F1.
    rewrite (carrier_unique first d2 k Hwf Hd Hk p v F1 (Hsub v Hv) F2 Hc). reflexivity.
  - pose proof (find_none _ _ F v) as N.
    rewrite N in Hc; [discriminate|]. apply in_rev. rewrite rev_involutive.
    apply Hsub. exact Hv.
Qed.

Lemma compare_maps_across (first : dict) (out_map : Checker.index) :
  forall entries,
    (forall k v, In (k, v) entries ->
       assoc_get Checker.pair_eq k out_map = Some v
       /\ wf_record first v = true /\ full_record v = true) ->
    Checker.compare_maps entries out_map = Ok (true, Passed).
Proof.
  induction entries as [|[k inp] rest IH]; intros H; [reflexivity|].
  cbn [Checker.compare_maps].
  destruct (H k inp (or_introl eq_refl)) as (Hg & Hwf & Hfull).
  rewrite Hg. cbn [bind]. rewrite (compare_entry_same first inp Hwf Hfull). cbn [bind].
  apply IH. intros k' v' Hin. apply H. right. exact Hin.
Qed.

Lemma identities_distinct_permutation (first : dict) (l l' : list dict) :
  forallb (wf_record first) l = true -> identities_distinct l = true ->
  Permutation l l' -> identities_distinct l' = true.
Proof.
  intros Hwf Hd Hp.
  assert (Hnd : NoDup l).
  { clear Hp l'. induction l as [|a r IH]; [constructor|]. simpl in Hwf, Hd.
    apply andb_prop in Hwf, Hd. destruct Hwf as [Ha Hr], Hd as [Hn Hd].
    constructor; [|exact (IH Hr Hd)].
    intros Hin. apply negb_true_iff in Hn.
    assert (existsb (same_identity a) r = true).
    { apply existsb_exists. exists a. split; [exact Hin|].
      destruct (wf_record_parts first a Ha) as (_ & _ & [g Hg] & [t Ht] & _).
      unfold same_identity. rewrite Hg, Ht. simpl. rewrite !String.eqb_refl. reflexivity. }
    congruence. }
  pose proof (distinct_identity_unique first l Hwf Hd) as Hu.
  assert (Hu' : forall x y, In x l' -> In y l' -> same_identity x y = true -> x = y).
  { intros x y Hx Hy. apply Hu; eapply Permutation_in;
      try (apply Permutation_sym; exact Hp); assumption. }
  pose proof (Permutation_NoDup Hp Hnd) as Hnd'. clear Hp Hu Hnd Hwf Hd.
  induction l' as [|a r IH]; [reflexivity|]. simpl.
  inversion Hnd' as [|? ? Ha Hr]; subst.
  rewrite IH; [|intros x y Hx Hy; apply Hu'; right; assumption|exact Hr].
  rewrite andb_true_r. apply negb_true_iff.
  destruct (existsb (same_identity a) r) eqn:E; [|reflexivity].
  apply existsb_exists in E. destruct E as [z [Hz Hs]].
  rewrite (Hu' a z (or_introl eq_refl) (or_intror Hz) Hs) in Ha. contradiction.
Qed.

(** X21.  The two keyed comparisons do not look at the order of the
    records: on a collection of well-formed records with pairwise different
    identity keys, compared with any reordering of itself,
    [compare_proteins] and [compare_pkl_files] both pass. *)
Theorem keyed_comparisons_ignore_order (first : dict) (data data' : list dict) :
  forallb (wf_record first) data = true ->
  forallb full_record data = true ->
  identities_distinct data = true ->
  Permutation data data' ->
  Checker.compare_proteins data data' = Ok (true, Passed)
  /\ Checker.compare_pkl_files data data' = Ok (true, Passed).
Proof.
  intros Hwf Hfull Hd Hp.
  assert (Hwf' : forallb (wf_record first) data' = true).
  { rewrite forallb_forall in *. intros x Hx. apply Hwf.
    exact (Permutation_in x (Permutation_sym Hp) Hx). }
  pose proof (identities_distinct_permutation first data data' Hwf Hd Hp) as Hd'.
  destruct (index_exists first data Hwf []) as [m Hm].
  destruct (index_exists first data' Hwf' []) as [m' Hm'].
  assert (Hto : forall k v, In (k, v) m -> assoc_get Checker.pair_eq k m' = Some v).
  { intros k v. apply (index_lookup_across first data data' m m' k v Hwf' Hd');
      try assumption. intros x. apply Permutation_in. exact Hp. }
  assert (Hfrom : forall k v, In (k, v) m' -> assoc_get Checker.pair_eq k m = Some v).
  { intros k v. apply (index_lookup_across first data' data m' m k v Hwf Hd);
      try assumption. intros x. apply Permutation_in. apply Permutation_sym. exact Hp. }
  assert (Hkeys : Checker.key_set_eq m m' = true).
  { unfold Checker.key_set_eq. apply andb_true_intro. split;
      apply forallb_forall; intros [k v] Hin; unfold assoc_mem; simpl.
    - rewrite (Hto k v Hin). reflexivity.
    - rewrite (Hfrom k v Hin). reflexivity. }
  assert (Hmaps : Checker.compare_maps m m' = Ok (true, Passed)).
  { apply (compare_maps_across first). intros k v Hin. split; [exact (Hto k v Hin)|].
    destruct (index_entry_carries data m k v Hm Hin) as (_ & Hv & _).
    rewrite forallb_forall in Hwf, Hfull. split; [exact (Hwf v Hv)|exact (Hfull v Hv)]. }
  unfold Checker.compare_proteins, Checker.compare_pkl_files.
  unfold Checker.index_by_key in *. rewrite Hm, Hm'. cbn [bind].
  rewrite Hkeys. cbn [negb]. split; exact Hmaps.
Qed.

Lemma keyed_comparisons_ignore_order_witness :
  Checker.compare_proteins [protein_A; protein_B] [protein_B; protein_A]
  = Ok (true, Passed)
  /\ Checker.compare_pkl_files [protein_A; protein_B] [protein_B; protein_A]
     = Ok (true, Passed).
Proof.
  apply (keyed_comparisons_ignore_order protein_A);
    [reflexivity|reflexivity|reflexivity|apply perm_swap].
Defined.

(** ** The two subrecord arrays *)

(** X23.  The row the insert loop binds for a record holds an identifier
    array and a content array of the same length: both are drawn from the
    record's one subrecord list, so the writer has no row with arrays of
    different lengths to store. *)
Theorem writer_arrays_same_length (other : list string) (idx : nat) (entry : dict)
    (row_dict : list (string * PG.param)) :
  Pipeline.build_row_dict other idx entry = Ok row_dict ->
  exists ids contents,
    assoc_get String.eqb "pdb_ids" row_dict = Some (PG.Param (PyList ids))
    /\ assoc_get String.eqb "pdb_files" row_dict = Some (PG.Binaries contents)
    /\ List.length ids = List.length contents.
Proof.
  intros Hw.
  destruct (build_row_dict_spec _ _ _ _ Hw)
    as (pdbs & wi & wc & _ & Hi & Hc & Hgi & Hgc & _).
  exists wi, wc. repeat split; try assumption.
  rewrite (mapM_length _ _ _ Hi), (mapM_length _ _ _ Hc). reflexivity.
Qed.

Lemma writer_arrays_same_length_witness :
  exists row_dict ids contents,
    Pipeline.build_row_dict (Pipeline.other_columns protein_A) 0 protein_A = Ok row_dict
    /\ assoc_get String.eqb "pdb_ids" row_dict = Some (PG.Param (PyList ids))
    /\ assoc_get String.eqb "pdb_files" row_dict = Some (PG.Binaries contents)
    /\ List.length ids = List.length contents.
Proof.
  destruct (Pipeline.build_row_dict (Pipeline.other_columns protein_A) 0 protein_A)
    as [rd|e] eqn:E; [|vm_compute in E; discriminate].
  destruct (writer_arrays_same_length _ _ _ _ E) as (ids & contents & H).
  exists rd, ids, contents. split; [reflexivity|exact H].
Defined.

(** A stored row with one identifier and one payload. *)
Definition level_row : PG.row :=
  [("protein_index", PG.CInt 0); ("gene_id", PG.CText "G1");
   ("transcript_id", PG.CText "T0"); ("sequence", PG.CText "MKV");
   ("exons", PG.CJsonb (Json.JArr [])); ("protein_coding", PG.CBool true);
   ("nmd", PG.CBool false);
   ("pdb_ids", PG.CTextArr ["1ABC"]);
   ("pdb_files", PG.CByteaArr [[x00; x01]])].

(** X24.  [rows_to_pkl] of the filter script checks every row of the
    frame: when the rows before a row are converted without error and that
    row has an identifier array and a content array of different lengths,
    [rows_to_pkl] raises [AssertionError] and writes nothing, whatever rows
    follow. *)
Theorem rows_to_pkl_refuses_unequal_arrays (pre : list PG.series) (row : PG.series)
    (post : list PG.series) (columns : list string) (outs : list dict)
    (ids files : pyval) (n_ids n_files : nat) :
  mapM (Filter.row_to_entry columns) pre = Ok outs ->
  PG.column row "pdb_ids" = Ok ids ->
  PG.column row "pdb_files" = Ok files ->
  len (py_or ids (PyList [])) = Ok n_ids ->
  len (py_or files (PyList [])) = Ok n_files ->
  n_ids <> n_files ->
  Filter.rows_to_pkl (pre ++ row :: post) columns = Raise AssertionError.
Proof.
  intros Hpre Hids Hfiles Hn Hm Hne. unfold Filter.rows_to_pkl.
  assert (H : mapM (Filter.row_to_entry columns) (pre ++ row :: post)
              = Raise AssertionError).
  { clear - Hpre Hids Hfiles Hn Hm Hne. revert outs Hpre.
    induction pre as [|r0 pre' IH]; cbn [app mapM]; intros outs Hpre.
    - unfold Filter.row_to_entry. rewrite Hids. cbn [bind]. rewrite Hn. cbn [bind].
      rewrite Hfiles. cbn [bind]. rewrite Hm. cbn [bind].
      apply Nat.eqb_neq in Hne. rewrite Hne. reflexivity.
    - destruct (Filter.row_to_entry columns r0) as [e0|]; [|discriminate].
      cbn [bind] in *.
      destruct (mapM (Filter.row_to_entry columns) pre') as [outs'|] eqn:E;
        [|discriminate].
      rewrite (IH outs' eq_refl). reflexivity. }
  rewrite H. reflexivity.
Qed.

Lemma rows_to_pkl_refuses_unequal_arrays_witness :
  Filter.rows_to_pkl [PG.fetch level_row; PG.fetch lopsided_row; PG.fetch level_row]
    (Pipeline.other_columns protein_A)
  = Raise AssertionError.
Proof.
  apply (rows_to_pkl_refuses_unequal_arrays [PG.fetch level_row] (PG.fetch lopsided_row)
           [PG.fetch level_row] (Pipeline.other_columns protein_A)
           [match Filter.row_to_entry (Pipeline.other_columns protein_A)
                    (PG.fetch level_row) with
            | Ok e => e
            | Raise _ => []
            end]
           (PyList [PyStr "1ABC"; PyStr "1XYZ"]) (PyList [PyBytes [x00; x01]]) 2 1);
    try reflexivity.
  discriminate.
Defined.

